(** * sales-bonus: a shallow embedding of [src/main.js]

    The file embeds the three functions of [src/main.js]
    ([calculateSimpleRevenue], [calculateBonusByProfit], [analyzeSalesData])
    and states the properties of the specification over them.

    How the program is modelled:
    - a JavaScript number is an exact rational extended with [NaN] and the two
      infinities: the arithmetic is that of the reals, without the rounding,
      the overflow and the signed zero of IEEE doubles.  What is proved about
      amounts is about the operations the program applies and their order,
      and about comparisons; it is not a statement about the digits a double
      holds;
    - a scalar field of the dataset holds [undefined], [null], a boolean, a
      number or a string ([prim]); a field that is absent reads as
      [PUndefined], as a property read does.  BigInts and symbols, on which
      the operators of lines 157 and 182 throw, and arrays, objects and
      functions in a scalar field are outside the model.  The elements of
      the three collections and of [items] are objects that have the
      properties the program reads and no other;
    - the three objects used as lookup tables ([sellerIndex], [productIndex],
      [products_sold]) are created by [{}], so a read [o[k]] that finds no
      own property goes on to the prototype.  [index_get] and [sold_get]
      follow the chain: the properties of [Object.prototype] are found under
      their names, and an assignment under the key "__proto__" installs a
      prototype instead of creating a property.  [sellerIndex] and
      [productIndex] are finite maps of what was assigned, keyed by the
      property key of the id; [products_sold] is an association list because
      [Object.entries] exposes its order;
    - the array of accumulators is a list, and the accumulator that
      [sellerStats.find] returns is updated in place at its position;
    - [Array.prototype.sort] is a stable insertion sort.  Every stable sort
      returns the same array when the comparator is consistent; for the
      other comparators the standard leaves the order to the engine, and
      nothing is proved about them;
    - the two injected strategies are pure functions that return a number,
      as their JSDoc says; [calculateRevenue] receives whatever the read of
      [productIndex] found;
    - [Number::toString], [StringToNumber] and the text that
      [Function.prototype.toString] gives for the built-in methods of
      [Object.prototype] are parameters of the development (Section
      variables): nothing proved depends on how the host prints or parses a
      number or prints a built-in function;
    - [console.warn] appends to a log that the embedding returns next to the
      outcome; [throw] is the [Throw] outcome. *)

From Stdlib Require Import ZArith QArith Qround Qabs Lia Lqa Permutation Sorted.
From Stdlib Require Import Ascii String.
From stdpp Require Import gmap strings list fin_maps pretty.

Open Scope Z_scope.
Open Scope string_scope.
Open Scope list_scope.
Open Scope nat_scope.

(** ** Numbers *)

Inductive num : Type :=
| NaN
| PInf
| NInf
| Fin (q : Q).

Definition Qsgn (q : Q) : Z := Z.sgn (Qnum q).

Definition num_neg (a : num) : num :=
  match a with
  | NaN => NaN
  | PInf => NInf
  | NInf => PInf
  | Fin q => Fin (Qred (- q))
  end.

Definition num_add (a b : num) : num :=
  match a, b with
  | NaN, _ | _, NaN => NaN
  | PInf, NInf | NInf, PInf => NaN
  | PInf, _ | _, PInf => PInf
  | NInf, _ | _, NInf => NInf
  | Fin x, Fin y => Fin (Qred (x + y))
  end.

Definition num_sub (a b : num) : num := num_add a (num_neg b).

(** An infinity times a finite factor: the sign rule, and [NaN] at zero. *)
Definition inf_times (positive : bool) (q : Q) : num :=
  match Qsgn q with
  | Z0 => NaN
  | Zpos _ => if positive then PInf else NInf
  | Zneg _ => if positive then NInf else PInf
  end.

Definition num_mul (a b : num) : num :=
  match a, b with
  | NaN, _ | _, NaN => NaN
  | PInf, PInf | NInf, NInf => PInf
  | PInf, NInf | NInf, PInf => NInf
  | PInf, Fin q | Fin q, PInf => inf_times true q
  | NInf, Fin q | Fin q, NInf => inf_times false q
  | Fin x, Fin y => Fin (Qred (x * y))
  end.

(** Division; a zero divisor is the positive zero. *)
Definition num_div (a b : num) : num :=
  match a, b with
  | NaN, _ | _, NaN => NaN
  | (PInf | NInf), (PInf | NInf) => NaN
  | PInf, Fin q => match Qsgn q with Zneg _ => NInf | _ => PInf end
  | NInf, Fin q => match Qsgn q with Zneg _ => PInf | _ => NInf end
  | Fin _, (PInf | NInf) => Fin 0
  | Fin x, Fin y =>
      match Qsgn y with
      | Z0 => match Qsgn x with Z0 => NaN | Zpos _ => PInf | Zneg _ => NInf end
      | _ => Fin (Qred (x / y))
      end
  end.

(** [a < b] as the relational operator computes it: false when either is
    [NaN]. *)
Definition num_ltb (a b : num) : bool :=
  match a, b with
  | NaN, _ | _, NaN => false
  | _, NInf => false
  | NInf, _ => true
  | PInf, _ => false
  | _, PInf => true
  | Fin x, Fin y => negb (Qle_bool y x)
  end.

(** [a === b] on numbers. *)
Definition num_eqb (a b : num) : bool :=
  match a, b with
  | PInf, PInf | NInf, NInf => true
  | Fin x, Fin y => Qeq_bool x y
  | _, _ => false
  end.

Definition is_nan (a : num) : bool :=
  match a with NaN => true | _ => false end.

Definition is_fin (a : num) : bool :=
  match a with Fin _ => true | _ => false end.

(** [+x.toFixed(2)]: the two-decimal numeral nearest to [x] (ties away from
    zero), read back as a number.  From [1e21] on [toFixed] prints the number
    itself. *)
Definition round2 (q : Q) : Q :=
  let n := Qfloor (Qabs q * 100 + (1 # 2))%Q in
  let r := Qred (n # 100) in
  match Qsgn q with
  | Zneg _ => Qred (- r)
  | _ => r
  end.

Definition toFixed2 (a : num) : num :=
  match a with
  | Fin q =>
      if Qle_bool (1000000000000000000000 # 1)%Q (Qabs q) then Fin q
      else Fin (round2 q)
  | other => other
  end.

(** ** Primitive values and their coercions *)

Inductive prim : Type :=
| PUndefined
| PNull
| PBool (b : bool)
| PNum (x : num)
| PStr (s : string).

(** [!!v] *)
Definition truthy (v : prim) : bool :=
  match v with
  | PUndefined | PNull => false
  | PBool b => b
  | PNum (Fin q) => negb (Qeq_bool q 0)
  | PNum NaN => false
  | PNum _ => true
  | PStr s => negb (String.eqb s "")
  end.

(** [a === b] *)
Definition strict_eq (a b : prim) : bool :=
  match a, b with
  | PUndefined, PUndefined | PNull, PNull => true
  | PBool x, PBool y => Bool.eqb x y
  | PNum x, PNum y => num_eqb x y
  | PStr x, PStr y => String.eqb x y
  | _, _ => false
  end.

(** ** Objects used as dictionaries *)

Section Dict.
Context {V : Type}.

Fixpoint dict_get (k : string) (o : list (string * V)) : option V :=
  match o with
  | [] => None
  | (k', v) :: o' => if String.eqb k k' then Some v else dict_get k o'
  end.

(** [o[k] = v]: an existing property keeps its place, a new one goes last. *)
Fixpoint dict_set (k : string) (v : V) (o : list (string * V)) : list (string * V) :=
  match o with
  | [] => [(k, v)]
  | (k', v') :: o' =>
      if String.eqb k k' then (k', v) :: o' else (k', v') :: dict_set k v o'
  end.
End Dict.

Definition digit_of (c : ascii) : option N :=
  let n := N_of_ascii c in
  if ((48 <=? n) && (n <=? 57))%N then Some (n - 48)%N else None.

Fixpoint digits_value (acc : N) (s : string) : option N :=
  match s with
  | EmptyString => Some acc
  | String c s' =>
      match digit_of c with
      | Some d => digits_value (acc * 10 + d)%N s'
      | None => None
      end
  end.

(** A property key that is an array index: a canonical decimal numeral below
    [2^32 - 1]. *)
Definition array_index (s : string) : option N :=
  match s with
  | EmptyString => None
  | String c s' =>
      if Ascii.eqb c "0" && negb (String.eqb s' "") then None
      else match digits_value 0 s with
           | Some n => if (n <? 4294967295)%N then Some n else None
           | None => None
           end
  end.

Section Entries.
Context {V : Type}.

Fixpoint insert_index (e : N * (string * V)) (l : list (N * (string * V)))
  : list (N * (string * V)) :=
  match l with
  | [] => [e]
  | e' :: l' => if (fst e <? fst e')%N then e :: l else e' :: insert_index e l'
  end.

Definition index_entries (o : list (string * V)) : list (N * (string * V)) :=
  omap (fun kv => match array_index (fst kv) with
                  | Some n => Some (n, kv)
                  | None => None
                  end) o.

(** [Object.entries(o)]: array-index keys in ascending order, then the other
    keys in the order they were created. *)
Definition object_entries (o : list (string * V)) : list (string * V) :=
  map snd (fold_left (fun acc e => insert_index e acc) (index_entries o) [])
  ++ List.filter (fun kv => match array_index (fst kv) with
                            | Some _ => false
                            | None => true
                            end) o.
End Entries.

(** ** The prototype chain

    An object created by [{}] inherits the properties of [Object.prototype]:
    eleven methods and the accessor [__proto__]. *)

Definition object_prototype_names : list string :=
  ["constructor"; "__defineGetter__"; "__defineSetter__"; "hasOwnProperty";
   "__lookupGetter__"; "__lookupSetter__"; "isPrototypeOf";
   "propertyIsEnumerable"; "toString"; "valueOf"; "__proto__"; "toLocaleString"].

Definition is_prototype_name (k : string) : bool :=
  existsb (String.eqb k) object_prototype_names.

(** What a read [index[k]] of one of the two indexes evaluates to. *)
Inductive found (A : Type) : Type :=
| Entry (a : A)          (* an object that was put in the index *)
| Field (v : prim)       (* a property of the object that is the prototype *)
| Inherited (k : string) (* the property [k] of [Object.prototype] *)
| Missing.               (* [undefined] *)
Arguments Entry {A} a.
Arguments Field {A} v.
Arguments Inherited {A} k.
Arguments Missing {A}.

(** [!!x]: objects and functions are truthy. *)
Definition found_truthy {A : Type} (x : found A) : bool :=
  match x with
  | Entry _ | Inherited _ => true
  | Field v => truthy v
  | Missing => false
  end.

(** [x.p] for a property [p] of the entries: a primitive value, a built-in
    method and [Object.prototype] have no such property. *)
Definition found_prop {A : Type} (p : A -> prim) (x : found A) : prim :=
  match x with
  | Entry a => p a
  | _ => PUndefined
  end.

(** [index[k]].  The finite map holds what was assigned to the index; the
    assignment [index["__proto__"] = x] of an object calls the setter of
    [Object.prototype], which makes [x] the prototype of the index, so the
    entry under "__proto__" is that prototype.  A read looks for an own
    property, then for a property of the prototype that was installed, then
    in [Object.prototype], whose getter [__proto__] returns the prototype. *)
Definition index_get {A : Type} (properties : A -> string -> option prim)
  (index : gmap string A) (k : string) : found A :=
  match index !! k with
  | Some a => Entry a
  | None =>
      match index !! "__proto__" ≫= (fun proto => properties proto k) with
      | Some v => Field v
      | None => if is_prototype_name k then Inherited k else Missing
      end
  end.

(** What a read [products_sold[k]] evaluates to: a primitive value (that of
    the own property, or [undefined] when nothing is found), or the property
    [k] of [Object.prototype]. *)
Inductive sold_value : Type :=
| Plain (v : prim)
| Proto (k : string).

Definition sold_get (k : string) (sold : list (string * prim)) : sold_value :=
  match dict_get k sold with
  | Some v => Plain v
  | None => if is_prototype_name k then Proto k else Plain PUndefined
  end.

(** [products_sold[k] = v] for a primitive [v]: the setter [__proto__] of
    [Object.prototype] ignores a primitive. *)
Definition sold_set (k : string) (v : prim) (sold : list (string * prim))
  : list (string * prim) :=
  match dict_get k sold with
  | None => if String.eqb k "__proto__" then sold else dict_set k v sold
  | Some _ => dict_set k v sold
  end.

Definition sold_truthy (x : sold_value) : bool :=
  match x with
  | Plain v => truthy v
  | Proto _ => true
  end.

(** ** [Array.prototype.sort]

    The sort is stable; [cmp a b < 0] puts [a] before [b], and a comparator
    result of [NaN] counts as zero.  Elements are inserted in array order, each
    after the elements it does not strictly precede. *)

Section Sort.
Context {A : Type} (cmp : A -> A -> num).

Fixpoint sort_insert (x : A) (l : list A) : list A :=
  match l with
  | [] => [x]
  | y :: l' =>
      if num_ltb (cmp x y) (Fin 0) then x :: l else y :: sort_insert x l'
  end.

Definition js_sort (l : list A) : list A :=
  fold_left (fun acc x => sort_insert x acc) l [].
End Sort.

(** ** Outcomes *)

Inductive index_failure : Type :=
| SellerFieldsMissing    (* line 114 *)
| ProductFieldsMissing.  (* line 122 *)

Inductive error : Type :=
| InvalidInput                       (* line 56 *)
| InvalidStructure                   (* line 79 *)
| InvalidItems                       (* line 90 *)
| InvalidOptions                     (* line 101 *)
| InvalidIndex (why : index_failure) (* line 127 *)
| TypeError.                         (* a call on a value that has no such method *)

Inductive result (A : Type) : Type :=
| Ok (a : A)
| Throw (e : error).
Arguments Ok {A} a.
Arguments Throw {A} e.

Definition bind {A B : Type} (r : result A) (k : A -> result B) : result B :=
  match r with
  | Ok a => k a
  | Throw e => Throw e
  end.

Notation "x <- r ;; k" := (bind r (fun x => k))
  (at level 100, r at next level, right associativity).

(** ** The data model *)

Record Seller : Type := {
  id : prim;
  first_name : prim;
  last_name : prim
}.

Record Product : Type := {
  sku : prim;
  purchase_price : prim;
  sale_price : prim
}.

Record Item : Type := {
  item_sku : prim;
  quantity : prim;
  item_sale_price : prim;
  discount : prim
}.

(** The [items] property of a purchase record: a falsy value (absent, [null],
    ...), a truthy value that is not an array, or an array of items. *)
Inductive items_field : Type :=
| ItemsFalsy
| ItemsNotArray
| ItemsArray (l : list Item).

Record PurchaseRecord : Type := {
  seller_id : prim;
  total_amount : prim;
  items : items_field
}.

(** A collection that is missing or not an array is [None]. *)
Record Dataset : Type := {
  sellers : option (list Seller);
  products : option (list Product);
  purchase_records : option (list PurchaseRecord)
}.

(** The object [calculateRevenue] receives as its first argument
    (lines 174-178). *)
Record Purchase : Type := {
  p_sale_price : prim;
  p_quantity : prim;
  p_discount : prim
}.

Record TopProduct : Type := {
  tp_sku : string;
  tp_quantity : prim
}.

(** The accumulator of one seller (lines 131-139); [top_products] is absent
    until the bonus loop sets it. *)
Record SellerStat : Type := {
  stat_id : prim;
  name : string;
  revenue : prim;
  profit : num;
  sales_count : nat;
  products_sold : list (string * prim);
  bonus : num;
  top_products : option (list TopProduct)
}.

Record Options : Type := {
  calculateRevenue : option (Purchase -> found Product -> num);
  calculateBonus : option (Z -> Z -> SellerStat -> num)
}.

(** One record of the returned array (lines 211-219). *)
Record Output : Type := {
  out_seller_id : prim;
  out_name : string;
  out_revenue : num;
  out_profit : num;
  out_sales_count : nat;
  out_top_products : option (list TopProduct);
  out_bonus : num
}.

Inductive warning : Type :=
| WarnRecordIncomplete (r : PurchaseRecord) (* line 144 *)
| WarnSellerNotFound (seller : prim)        (* line 150 *)
| WarnItemIncomplete (i : Item)             (* line 162 *)
| WarnProductNotFound (s : prim).           (* line 168 *)

(** ** The program *)

Section Program.
(** [Number::toString] and [StringToNumber] of the host, and the text that
    [Function.prototype.toString] gives for the method of
    [Object.prototype] of a given name. *)
Variable NumberToString : num -> string.
Variable StringToNumber : string -> num.
Variable FunctionToString : string -> string.

Definition to_number (v : prim) : num :=
  match v with
  | PUndefined => NaN
  | PNull => Fin 0
  | PBool true => Fin 1
  | PBool false => Fin 0
  | PNum x => x
  | PStr s => StringToNumber s
  end.

Definition to_string (v : prim) : string :=
  match v with
  | PUndefined => "undefined"
  | PNull => "null"
  | PBool true => "true"
  | PBool false => "false"
  | PNum x => NumberToString x
  | PStr s => s
  end.

(** The property key a value is used as in [o[v]]. *)
Definition key_of (v : prim) : string := to_string v.

(** [a + b] *)
Definition js_add (a b : prim) : prim :=
  match a, b with
  | PStr _, _ | _, PStr _ => PStr (to_string a ++ to_string b)
  | _, _ => PNum (num_add (to_number a) (to_number b))
  end.

(** [a || b] *)
Definition js_or (a b : prim) : prim := if truthy a then a else b.

(** [x.toFixed(2)] read back by unary plus; only a number has the method. *)
Definition call_toFixed2 (v : prim) : result num :=
  match v with
  | PNum x => Ok (toFixed2 x)
  | _ => Throw TypeError
  end.

(** The own properties of a seller and of a product. *)
Definition seller_property (s : Seller) (k : string) : option prim :=
  if String.eqb k "id" then Some (id s)
  else if String.eqb k "first_name" then Some (first_name s)
  else if String.eqb k "last_name" then Some (last_name s)
  else None.

Definition product_property (p : Product) (k : string) : option prim :=
  if String.eqb k "sku" then Some (sku p)
  else if String.eqb k "purchase_price" then Some (purchase_price p)
  else if String.eqb k "sale_price" then Some (sale_price p)
  else None.

(** The text an inherited property becomes under [+]: "[object Object]" for
    [Object.prototype] itself, which [__proto__] returns, and the source
    text of the host for a method. *)
Definition inherited_text (k : string) : string :=
  if String.eqb k "__proto__" then "[object Object]" else FunctionToString k.

(** lines 8-12 *)
Definition calculateSimpleRevenue (purchase : Purchase) (_product : found Product) : num :=
  let discountFactor :=
    num_sub (Fin 1) (num_div (to_number (p_discount purchase)) (Fin 100)) in
  let revenue :=
    num_mul (num_mul (to_number (p_sale_price purchase))
                     (to_number (p_quantity purchase)))
            discountFactor in
  revenue.

(** lines 26-34 *)
Definition bonusPercentage (index total : Z) : Q :=
  if (index =? 0)%Z then 15 # 100
  else if ((index <=? 2) && (index >? 0))%Z then 1 # 10
  else if (index <? total - 1)%Z then 5 # 100
  else 0.

(** lines 21-36 *)
Definition calculateBonusByProfit (index total : Z) (seller : SellerStat) : num :=
  num_mul (profit seller) (Fin (bonusPercentage index total)).

(** *** Validation, lines 47-104 *)

Definition nonempty_array {A : Type} (c : option (list A)) : option (list A) :=
  match c with
  | Some (x :: l) => Some (x :: l)
  | _ => None
  end.

(** lines 47-59 *)
Definition check_data (data : option Dataset)
  : result (list Seller * list Product * list PurchaseRecord) :=
  match data with
  | None => Throw InvalidInput
  | Some d =>
      match nonempty_array (sellers d), nonempty_array (products d),
            nonempty_array (purchase_records d) with
      | Some ss, Some ps, Some rs => Ok (ss, ps, rs)
      | _, _, _ => Throw InvalidInput
      end
  end.

Definition seller_invalid (s : Seller) : bool :=
  negb (truthy (id s)) || negb (truthy (first_name s)) || negb (truthy (last_name s)).

Definition product_invalid (p : Product) : bool :=
  negb (truthy (sku p)) || negb (truthy (purchase_price p))
  || negb (truthy (sale_price p)).

Definition items_invalid (f : items_field) : bool :=
  match f with
  | ItemsArray (_ :: _) => false
  | _ => true
  end.

Definition purchase_invalid (p : PurchaseRecord) : bool :=
  negb (truthy (seller_id p)) || items_invalid (items p).

Definition item_invalid (item : Item) : bool :=
  negb (truthy (item_sku item)) || negb (truthy (quantity item))
  || negb (truthy (item_sale_price item)).

(** lines 62-64, 66-68, 70-76 *)
Definition hasInvalidSellers (ss : list Seller) : bool := existsb seller_invalid ss.
Definition hasInvalidProducts (ps : list Product) : bool := existsb product_invalid ps.
Definition hasInvalidPurchases (rs : list PurchaseRecord) : bool :=
  existsb purchase_invalid rs.

(** lines 85-87; [p.items.some] exists only on an array. *)
Fixpoint hasInvalidItems (rs : list PurchaseRecord) : result bool :=
  match rs with
  | [] => Ok false
  | p :: rs' =>
      match items p with
      | ItemsArray l => if existsb item_invalid l then Ok true else hasInvalidItems rs'
      | _ => Throw TypeError
      end
  end.

(** lines 96-104 *)
Definition check_options (options : option Options)
  : result ((Purchase -> found Product -> num) * (Z -> Z -> SellerStat -> num)) :=
  match options with
  | Some o =>
      match calculateRevenue o, calculateBonus o with
      | Some rev, Some bon => Ok (rev, bon)
      | _, _ => Throw InvalidOptions
      end
  | None => Throw InvalidOptions
  end.

Definition validate (data : option Dataset) (options : option Options)
  : result (list Seller * list Product * list PurchaseRecord
            * ((Purchase -> found Product -> num) * (Z -> Z -> SellerStat -> num))) :=
  d <- check_data data ;;
  let '(ss, ps, rs) := d in
  if hasInvalidSellers ss || hasInvalidProducts ps || hasInvalidPurchases rs
  then Throw InvalidStructure
  else
    bad <- hasInvalidItems rs ;;
    if (bad : bool) then Throw InvalidItems
    else
      fs <- check_options options ;;
      Ok (ss, ps, rs, fs).

(** *** Indexes, lines 107-128

    The assignment [sellerIndex[seller.id] = seller] is an insertion in the
    finite map; under the key "__proto__" it replaces the prototype, which
    is what the entry under that key stands for (see [index_get]). *)

Fixpoint index_sellers (sellerIndex : gmap string Seller) (ss : list Seller)
  : result (gmap string Seller) :=
  match ss with
  | [] => Ok sellerIndex
  | seller :: ss' =>
      if seller_invalid seller then Throw (InvalidIndex SellerFieldsMissing)
      else index_sellers (<[key_of (id seller) := seller]> sellerIndex) ss'
  end.

Fixpoint index_products (productIndex : gmap string Product) (ps : list Product)
  : result (gmap string Product) :=
  match ps with
  | [] => Ok productIndex
  | product :: ps' =>
      if negb (truthy (sku product)) then Throw (InvalidIndex ProductFieldsMissing)
      else index_products (<[key_of (sku product) := product]> productIndex) ps'
  end.

(** *** Accumulators, lines 131-139 *)

Definition init_stat (seller : Seller) : SellerStat :=
  {| stat_id := id seller;
     name := to_string (first_name seller) ++ " " ++ to_string (last_name seller);
     revenue := PNum (Fin 0);
     profit := Fin 0;
     sales_count := 0;
     products_sold := [];
     bonus := Fin 0;
     top_products := None |}.

Definition init_stats (ss : list Seller) : list SellerStat := map init_stat ss.

(** *** Accumulation, lines 142-194 *)

Section Accumulate.
Variable calcRevenue : Purchase -> found Product -> num.
Variable sellerIndex : gmap string Seller.
Variable productIndex : gmap string Product.

(** lines 157-158 *)
Definition add_sale (st : SellerStat) (record : PurchaseRecord) : SellerStat :=
  {| stat_id := stat_id st;
     name := name st;
     revenue := js_add (revenue st) (total_amount record);
     profit := profit st;
     sales_count := sales_count st + 1;
     products_sold := products_sold st;
     bonus := bonus st;
     top_products := top_products st |}.

(** [x + q]: an object operand is converted to its text. *)
Definition sold_add (x : sold_value) (q : prim) : prim :=
  match x with
  | Plain v => js_add v q
  | Proto k => PStr (inherited_text k ++ to_string q)
  end.

(** lines 189-192 *)
Definition count_product (sold : list (string * prim)) (item : Item)
  : list (string * prim) :=
  let k := key_of (item_sku item) in
  let sold0 :=
    if negb (sold_truthy (sold_get k sold))
    then sold_set k (PNum (Fin 0)) sold
    else sold in
  sold_set k (sold_add (sold_get k sold0) (quantity item)) sold0.

(** lines 173-192 *)
Definition add_item (st : SellerStat) (item : Item) (product : found Product)
  : SellerStat :=
  let revenue_ :=
    calcRevenue {| p_sale_price := item_sale_price item;
                   p_quantity := quantity item;
                   p_discount := js_or (discount item) (PNum (Fin 0)) |}
                product in
  let cost :=
    num_mul (to_number (found_prop purchase_price product))
            (to_number (quantity item)) in
  let profit_ := num_sub revenue_ cost in
  {| stat_id := stat_id st;
     name := name st;
     revenue := revenue st;
     profit := num_add (profit st) profit_;
     sales_count := sales_count st;
     products_sold := count_product (products_sold st) item;
     bonus := bonus st;
     top_products := top_products st |}.

(** lines 160-193, one iteration *)
Definition process_item (st : SellerStat) (item : Item) : SellerStat * list warning :=
  if item_invalid item then (st, [WarnItemIncomplete item])
  else
    let product := index_get product_property productIndex (key_of (item_sku item)) in
    if negb (found_truthy product)
    then (st, [WarnProductNotFound (item_sku item)])
    else (add_item st item product, []).

Fixpoint process_items (st : SellerStat) (l : list Item) : SellerStat * list warning :=
  match l with
  | [] => (st, [])
  | item :: l' =>
      let '(st1, w1) := process_item st item in
      let '(st2, w2) := process_items st1 l' in
      (st2, w1 ++ w2)
  end.

Definition items_falsy (f : items_field) : bool :=
  match f with
  | ItemsFalsy => true
  | _ => false
  end.

(** [sellerStats.find((s) => s.id === seller.id)], with the position of the
    accumulator found: the loop updates that object in place. *)
Definition find_stat (seller : found Seller) (stats : list SellerStat)
  : option (nat * SellerStat) :=
  list_find (fun s => strict_eq (stat_id s) (found_prop id seller) = true) stats.

(** lines 142-194, one iteration *)
Definition process_record (stats : list SellerStat) (record : PurchaseRecord)
  : list warning * result (list SellerStat) :=
  if negb (truthy (seller_id record)) || items_falsy (items record)
  then ([WarnRecordIncomplete record], Ok stats)
  else
    let seller := index_get seller_property sellerIndex (key_of (seller_id record)) in
    if negb (found_truthy seller)
    then ([WarnSellerNotFound (seller_id record)], Ok stats)
    else
      match find_stat seller stats with
      | None => ([], Ok stats)
      | Some (k, sellerStat) =>
          match items record with
          | ItemsArray l =>
              let '(st, w) := process_items (add_sale sellerStat record) l in
              (w, Ok (<[k := st]> stats))
          | _ => ([], Throw TypeError)
          end
      end.

Fixpoint process_records (stats : list SellerStat) (rs : list PurchaseRecord)
  : list warning * result (list SellerStat) :=
  match rs with
  | [] => ([], Ok stats)
  | record :: rs' =>
      match process_record stats record with
      | (w, Ok stats1) =>
          let '(w', r) := process_records stats1 rs' in (w ++ w', r)
      | (w, Throw e) => (w, Throw e)
      end
  end.
End Accumulate.

(** *** Ranking and bonuses, lines 197-208 *)

(** line 197 *)
Definition by_profit (a b : SellerStat) : num := num_sub (profit b) (profit a).

(** line 206 *)
Definition by_quantity (a b : TopProduct) : num :=
  num_sub (to_number (tp_quantity b)) (to_number (tp_quantity a)).

(** lines 204-207 *)
Definition top_products_of (sold : list (string * prim)) : list TopProduct :=
  take 10 (js_sort by_quantity
             (map (fun e => {| tp_sku := fst e; tp_quantity := snd e |})
                  (object_entries sold))).

(** lines 201-207, one iteration *)
Definition assign_bonus (calcBonus : Z -> Z -> SellerStat -> num) (total : nat)
  (index : nat) (seller : SellerStat) : SellerStat :=
  {| stat_id := stat_id seller;
     name := name seller;
     revenue := revenue seller;
     profit := profit seller;
     sales_count := sales_count seller;
     products_sold := products_sold seller;
     bonus := calcBonus (Z.of_nat index) (Z.of_nat total) seller;
     top_products := Some (top_products_of (products_sold seller)) |}.

Definition assign_bonuses (calcBonus : Z -> Z -> SellerStat -> num)
  (stats : list SellerStat) : list SellerStat :=
  imap (assign_bonus calcBonus (length stats)) stats.

(** *** Result, lines 211-219 *)

Definition format_stat (seller : SellerStat) : result Output :=
  revenue_ <- call_toFixed2 (revenue seller) ;;
  profit_ <- call_toFixed2 (PNum (profit seller)) ;;
  bonus_ <- call_toFixed2 (PNum (bonus seller)) ;;
  Ok {| out_seller_id := stat_id seller;
        out_name := name seller;
        out_revenue := revenue_;
        out_profit := profit_;
        out_sales_count := sales_count seller;
        out_top_products := top_products seller;
        out_bonus := bonus_ |}.

Fixpoint format_all (stats : list SellerStat) : result (list Output) :=
  match stats with
  | [] => Ok []
  | seller :: stats' =>
      o <- format_stat seller ;;
      os <- format_all stats' ;;
      Ok (o :: os)
  end.

(** *** The pipeline after validation, lines 107-219 *)

Definition accumulate (calcRevenue : Purchase -> found Product -> num)
  (ss : list Seller) (ps : list Product) (rs : list PurchaseRecord)
  : list warning * result (list SellerStat) :=
  match index_sellers ∅ ss with
  | Throw e => ([], Throw e)
  | Ok sellerIndex =>
      match index_products ∅ ps with
      | Throw e => ([], Throw e)
      | Ok productIndex =>
          process_records calcRevenue sellerIndex productIndex (init_stats ss) rs
      end
  end.

Definition rank (stats : list SellerStat) : list SellerStat := js_sort by_profit stats.

Definition finish (calcBonus : Z -> Z -> SellerStat -> num) (stats : list SellerStat)
  : result (list Output) :=
  format_all (assign_bonuses calcBonus (rank stats)).

(** lines 45-220; the log of [console.warn] comes first. *)
Definition analyzeSalesData (data : option Dataset) (options : option Options)
  : list warning * result (list Output) :=
  match validate data options with
  | Throw e => ([], Throw e)
  | Ok (ss, ps, rs, (calcRevenue, calcBonus)) =>
      match accumulate calcRevenue ss ps rs with
      | (w, Throw e) => (w, Throw e)
      | (w, Ok stats) => (w, finish calcBonus stats)
      end
  end.


(** ** Vocabulary of the specification *)


(** A required field that holds a nonzero number (of either sign, the
    infinities included) or a non-empty text. *)
Definition filled (v : prim) : bool :=
  match v with
  | PNum (Fin q) => negb (Qeq_bool q 0)
  | PNum PInf | PNum NInf => true
  | PStr s => negb (String.eqb s "")
  | _ => false
  end.












Definition options_given (o : Options) : bool :=
  match calculateRevenue o, calculateBonus o with
  | Some _, Some _ => true
  | _, _ => false
  end.

(** The input passes the validation of lines 47-104. *)
Definition passes_validation (data : option Dataset) (options : option Options) : Prop :=
  exists v, validate data options = Ok v.

(** [a <= b] as the relational operator computes it. *)
Definition num_leb (a b : num) : bool :=
  match a, b with
  | NaN, _ | _, NaN => false
  | _, _ => negb (num_ltb b a)
  end.

(** Sorting with a comparator [(a, b) => key(b) - key(a)]. *)
Section ByKey.
Context {A : Type} (key : A -> num).

Definition by_key (a b : A) : num := num_sub (key b) (key a).

(** The key of [x] is not less than the key of [y]. *)
Definition not_below (x y : A) : Prop := num_ltb (key x) (key y) = false.

(** [key(x) >= key(y)]: what descending order asks of an element [x] and
    an element [y] after it. *)
Definition at_least (x y : A) : Prop := num_leb (key y) (key x) = true.

(** The key is a number other than [NaN]. *)
Definition keyed (x : A) : Prop := is_nan (key x) = false.

Definition same_key (p : num) (x : A) : bool := num_eqb (key x) p.
End ByKey.

(** An item from which one of the three required properties is absent. *)
Definition lacks_required_field (i : Item) : Prop :=
  item_sku i = PUndefined \/ quantity i = PUndefined
  \/ item_sale_price i = PUndefined.

(** The dataset gets as far as the check of the items (lines 85-93): the
    checks of lines 47-82 pass. *)
Definition structure_accepted (d : Dataset)
  (ss : list Seller) (ps : list Product) (rs : list PurchaseRecord) : Prop :=
  check_data (Some d) = Ok (ss, ps, rs)
  /\ hasInvalidSellers ss = false
  /\ hasInvalidProducts ps = false
  /\ hasInvalidPurchases rs = false.

(** ** Sample data *)

Definition seller_of (i first last : string) : Seller :=
  {| id := PStr i; first_name := PStr first; last_name := PStr last |}.

Definition product_of (s : string) (purchase sale : Q) : Product :=
  {| sku := PStr s; purchase_price := PNum (Fin purchase); sale_price := PNum (Fin sale) |}.

Definition item_of (s : string) (q price : Q) : Item :=
  {| item_sku := PStr s; quantity := PNum (Fin q); item_sale_price := PNum (Fin price);
     discount := PUndefined |}.

Definition record_of (seller : string) (total : prim) (l : list Item) : PurchaseRecord :=
  {| seller_id := PStr seller; total_amount := total; items := ItemsArray l |}.

Definition dataset_of (ss : list Seller) (ps : list Product) (rs : list PurchaseRecord)
  : Dataset :=
  {| sellers := Some ss; products := Some ps; purchase_records := Some rs |}.

Definition default_options : Options :=
  {| calculateRevenue := Some calculateSimpleRevenue;
     calculateBonus := Some calculateBonusByProfit |}.

Definition item_without_quantity : Item :=
  {| item_sku := PStr "p1"; quantity := PUndefined; item_sale_price := PNum (Fin 100);
     discount := PUndefined |}.

(** One seller, one product, one sale whose only item has no quantity. *)
Definition data_item_without_quantity : Dataset :=
  dataset_of [seller_of "s1" "Ann" "Lee"] [product_of "p1" 50 100]
             [record_of "s1" (PNum (Fin 200)) [item_without_quantity]].


(** Two states of one accumulator that differ at most in what the items
    add: [profit] and [products_sold]. *)
Definition same_account (a b : SellerStat) : Prop :=
  stat_id a = stat_id b /\ name a = name b /\ revenue a = revenue b
  /\ sales_count a = sales_count b /\ bonus a = bonus b
  /\ top_products a = top_products b.

(** The record's [seller_id] is a key of the seller index. *)
Definition known_seller (sellerIndex : gmap string Seller) (r : PurchaseRecord) : bool :=
  match sellerIndex !! key_of (seller_id r) with
  | Some _ => true
  | None => false
  end.

(** [sellerIndex[record.seller_id]] and [productIndex[item.sku]]. *)
Definition seller_lookup (sellerIndex : gmap string Seller) (r : PurchaseRecord)
  : found Seller :=
  index_get seller_property sellerIndex (key_of (seller_id r)).

Definition product_lookup (productIndex : gmap string Product) (i : Item)
  : found Product :=
  index_get product_property productIndex (key_of (item_sku i)).

(** The position of the accumulator a record is credited to (lines 148-155),
    if any. *)
Definition credited_to (sellerIndex : gmap string Seller) (stats : list SellerStat)
  (r : PurchaseRecord) : option nat :=
  if found_truthy (seller_lookup sellerIndex r)
  then fst <$> find_stat (seller_lookup sellerIndex r) stats
  else None.

(** What the loop logs for a record whose [seller_id] is no key of the
    index: the warning of line 150 when the read finds nothing, and nothing
    when it finds an inherited property (line 155 returns silently). *)
Definition seller_warning (sellerIndex : gmap string Seller) (r : PurchaseRecord)
  : list warning :=
  if found_truthy (seller_lookup sellerIndex r) then []
  else [WarnSellerNotFound (seller_id r)].

(** The read of the product index finds nothing for any item of the
    record: no product, and no inherited property. *)
Definition no_item_matched (productIndex : gmap string Product) (r : PurchaseRecord) : Prop :=
  forall l i, items r = ItemsArray l -> i ∈ l ->
              found_truthy (product_lookup productIndex i) = false.

(** The purchase records that the loop credits to accumulator [k]. *)
Definition credited_records (sellerIndex : gmap string Seller)
  (stats : list SellerStat) (k : nat) (rs : list PurchaseRecord)
  : list PurchaseRecord :=
  List.filter (fun r => match credited_to sellerIndex stats r with
                        | Some j => Nat.eqb j k
                        | None => false
                        end) rs.

(** The profit of one sale line (lines 173-183). *)
Definition line_profit (calcRevenue : Purchase -> found Product -> num)
  (item : Item) (product : found Product) : num :=
  num_sub
    (calcRevenue {| p_sale_price := item_sale_price item;
                    p_quantity := quantity item;
                    p_discount := js_or (discount item) (PNum (Fin 0)) |}
                 product)
    (num_mul (to_number (found_prop purchase_price product))
             (to_number (quantity item))).

(** The profits of the lines of a record for which the read of the product
    index finds something, in the order of the items. *)
Definition matched_lines (calcRevenue : Purchase -> found Product -> num)
  (productIndex : gmap string Product) (l : list Item) : list num :=
  omap (fun item =>
          if item_invalid item then None
          else if found_truthy (product_lookup productIndex item)
               then Some (line_profit calcRevenue item
                            (product_lookup productIndex item))
               else None)
       l.

Definition record_lines (calcRevenue : Purchase -> found Product -> num)
  (productIndex : gmap string Product) (r : PurchaseRecord) : list num :=
  match items r with
  | ItemsArray l => matched_lines calcRevenue productIndex l
  | _ => []
  end.

(** The record of the result for the accumulator [st] at position [n] of
    the ranking of [total] sellers, when its revenue is the number [x]
    (lines 200-219). *)
Definition output_of (calcBonus : Z -> Z -> SellerStat -> num) (total n : nat)
  (st : SellerStat) (x : num) : Output :=
  {| out_seller_id := stat_id st;
     out_name := name st;
     out_revenue := toFixed2 x;
     out_profit := toFixed2 (profit st);
     out_sales_count := sales_count st;
     out_top_products := Some (top_products_of (products_sold st));
     out_bonus := toFixed2 (calcBonus (Z.of_nat n) (Z.of_nat total) st) |}.

Definition is_string (v : prim) : bool :=
  match v with
  | PStr _ => true
  | _ => false
  end.

Definition is_number (v : prim) : bool :=
  match v with
  | PNum _ => true
  | _ => false
  end.

(** Two sellers entered under one id, one sale. *)
Definition data_duplicate_id : Dataset :=
  dataset_of [seller_of "s1" "Ann" "Lee"; seller_of "s1" "Bob" "Ray"]
             [product_of "p1" 50 100]
             [record_of "s1" (PNum (Fin 200)) [item_of "p1" 2 100]].

(** The record with another [total_amount]; [PUndefined] is the record
    without the property. *)
Definition with_total (r : PurchaseRecord) (t : prim) : PurchaseRecord :=
  {| seller_id := seller_id r; total_amount := t; items := items r |}.

Definition with_records (d : Dataset) (rs : list PurchaseRecord) : Dataset :=
  {| sellers := sellers d; products := products d; purchase_records := Some rs |}.

(** A value that [+] adds to a number as a number: [undefined], [null], a
    boolean or a number. *)
Definition adds_as_number (v : prim) : bool :=
  match v with
  | PUndefined | PNull | PBool _ | PNum _ => true
  | PStr _ => false
  end.

(** The [total_amount] of every record of a seller of the index adds as a
    number. *)
Definition totals_numeric (sellerIndex : gmap string Seller)
  (rs : list PurchaseRecord) : Prop :=
  forall r, r ∈ rs -> known_seller sellerIndex r = true ->
            adds_as_number (total_amount r) = true.

(** Some record of a seller of the index carries a text as
    [total_amount]. *)
Definition some_total_is_text (sellerIndex : gmap string Seller)
  (rs : list PurchaseRecord) : Prop :=
  exists r, r ∈ rs /\ known_seller sellerIndex r = true
            /\ is_string (total_amount r) = true.

(** *** Sample host functions

    Exact on what the samples print and read: integers are printed in
    decimal, plain decimal numerals are read, any other text reads as
    [NaN]. *)

Definition sample_NumberToString (x : num) : string :=
  match x with
  | NaN => "NaN"
  | PInf => "Infinity"
  | NInf => "-Infinity"
  | Fin q =>
      let r := Qred q in
      if (Zpos (Qden r) =? 1)%Z then pretty (Qnum r)
      else pretty (Qnum r) ++ "/" ++ pretty (Zpos (Qden r))
  end.

Definition sample_StringToNumber (s : string) : num :=
  match digits_value 0 s with
  | Some n => Fin (Z.of_N n # 1)
  | None => NaN
  end.

(** The text of a built-in method as V8 prints it; [constructor] is the
    function [Object]. *)
Definition sample_FunctionToString (k : string) : string :=
  "function " ++ (if String.eqb k "constructor" then "Object" else k)
  ++ "() { [native code] }".

(** *** A shop with three sellers *)

Definition shop_sellers : list Seller :=
  [seller_of "s1" "Ann" "Lee"; seller_of "s2" "Bob" "Ray"; seller_of "s3" "Cid" "Fox"].

Definition shop_products : list Product :=
  [product_of "p1" 50 100; product_of "p2" 10 30].

Definition sale_1 : PurchaseRecord :=
  record_of "s1" (PNum (Fin 200)) [item_of "p1" 2 100].

Definition sale_2 : PurchaseRecord :=
  record_of "s2" (PNum (Fin 300)) [item_of "p2" 10 30].

Definition sale_unknown : PurchaseRecord :=
  record_of "s9" (PNum (Fin 10)) [item_of "p1" 1 100].

Definition sale_3 : PurchaseRecord :=
  record_of "s1" (PNum (Fin 30)) [item_of "p2" 1 30].

Definition shop : Dataset :=
  dataset_of shop_sellers shop_products [sale_1; sale_2; sale_unknown; sale_3].

(** The scenario of the specification: one seller, one product bought at 50
    and sold at 100, one sale of two items. *)
Definition single_sale : Dataset :=
  dataset_of [seller_of "s1" "Ann" "Lee"] [product_of "p1" 50 100]
             [record_of "s1" (PNum (Fin 200)) [item_of "p1" 2 100]].

(** One sale whose [total_amount] is the text "200". *)
Definition data_text_total : Dataset :=
  dataset_of [seller_of "s1" "Ann" "Lee"] [product_of "p1" 50 100]
             [record_of "s1" (PStr "200") [item_of "p1" 2 100]].

(** One sale of a product that the catalogue does not have. *)
Definition data_unknown_sku : Dataset :=
  dataset_of [seller_of "s1" "Ann" "Lee"] [product_of "p1" 50 100]
             [record_of "s1" (PNum (Fin 100)) [item_of "zz" 1 100]].

(** Two sellers with one sale each; the purchase price of the product the
    first one sold is the text "n/a". *)
Definition data_nan_profit : Dataset :=
  dataset_of
    [seller_of "s1" "Ann" "Lee"; seller_of "s2" "Bob" "Ray"]
    [{| sku := PStr "px"; purchase_price := PStr "n/a"; sale_price := PNum (Fin 2) |};
     product_of "p1" 1 2]
    [record_of "s1" (PNum (Fin 2)) [item_of "px" 1 2];
     record_of "s2" (PNum (Fin 10)) [item_of "p1" 5 2]].

(** What the accumulation phase leaves for [data_nan_profit]. *)
Definition stats_nan_profit : list SellerStat :=
  [{| stat_id := PStr "s1"; name := "Ann Lee"; revenue := PNum (Fin 2);
      profit := NaN; sales_count := 1;
      products_sold := [("px", PNum (Fin 1))]; bonus := Fin 0;
      top_products := None |};
   {| stat_id := PStr "s2"; name := "Bob Ray"; revenue := PNum (Fin 10);
      profit := Fin 5; sales_count := 1;
      products_sold := [("p1", PNum (Fin 5))]; bonus := Fin 0;
      top_products := None |}].

(** The scenario of the specification with a second sale whose
    [seller_id] is the name of a method of [Object.prototype]. *)
Definition sale_inherited : PurchaseRecord :=
  record_of "toString" (PNum (Fin 10)) [item_of "p1" 1 100].

Definition data_inherited_seller : Dataset :=
  dataset_of [seller_of "s1" "Ann" "Lee"] [product_of "p1" 50 100]
             [record_of "s1" (PNum (Fin 200)) [item_of "p1" 2 100]; sale_inherited].


(** One sale of an item whose sku is the name of a property of
    [Object.prototype]. *)
Definition data_inherited_sku : Dataset :=
  dataset_of [seller_of "s1" "Ann" "Lee"] [product_of "p1" 50 100]
             [record_of "s1" (PNum (Fin 100)) [item_of "constructor" 1 100]].

(** *** The properties as the specification words them *)

(** Once validation has passed, the call returns a result array. *)
Definition spec_never_throws : Prop :=
  forall data options,
    passes_validation data options ->
    exists w out, analyzeSalesData data options = (w, Ok out).

(** The default strategy pays nothing at the last rank, the one-seller
    ranking apart. *)
Definition spec_last_rank_zero : Prop :=
  forall index total seller,
    (0 < index)%Z -> (index = total - 1)%Z ->
    calculateBonusByProfit index total seller = Fin 0.



(** The ranking is in descending order of the accumulated profit. *)
Definition spec_ranking_descending : Prop :=
  forall data options ss ps rs f g w stats,
    validate data options = Ok (ss, ps, rs, (f, g)) ->
    accumulate f ss ps rs = (w, Ok stats) ->
    StronglySorted (at_least profit) (rank stats).

(** An item that lacks a required field is skipped with a warning and the
    call returns. *)
Definition spec_malformed_item_skipped : Prop :=
  forall d o ss ps rs r l i,
    structure_accepted d ss ps rs ->
    options_given o = true ->
    r ∈ rs -> items r = ItemsArray l -> i ∈ l ->
    lacks_required_field i ->
    exists w out,
      analyzeSalesData (Some d) (Some o) = (w, Ok out)
      /\ WarnItemIncomplete i ∈ w.

(** A seller none of whose items matched a product has a record with zero
    profit, zero revenue, no top products and the bonus of the strategy. *)
Definition spec_unmatched_seller_zero : Prop :=
  forall data options ss ps rs f g w out sellerIndex productIndex k s,
    validate data options = Ok (ss, ps, rs, (f, g)) ->
    index_sellers ∅ ss = Ok sellerIndex ->
    index_products ∅ ps = Ok productIndex ->
    analyzeSalesData data options = (w, Ok out) ->
    ss !! k = Some s ->
    (forall r, r ∈ rs -> credited_to sellerIndex (init_stats ss) r = Some k ->
               no_item_matched productIndex r) ->
    exists stats st i o,
      accumulate f ss ps rs = (w, Ok stats)
      /\ stats !! k = Some st /\ rank stats !! i = Some st /\ out !! i = Some o
      /\ out_seller_id o = id s
      /\ out_profit o = Fin 0
      /\ out_revenue o = Fin 0
      /\ out_top_products o = Some []
      /\ out_bonus o = g (Z.of_nat i) (Z.of_nat (length ss)) st.


(** The ids of the result are pairwise distinct. *)
Definition spec_ids_distinct : Prop :=
  forall data options w out,
    passes_validation data options ->
    analyzeSalesData data options = (w, Ok out) ->
    NoDup (map out_seller_id out).

(** *** Expected results of the samples *)

Definition shop_sellerIndex : gmap string Seller :=
  <["s3" := seller_of "s3" "Cid" "Fox"]>
    (<["s2" := seller_of "s2" "Bob" "Ray"]>
       (<["s1" := seller_of "s1" "Ann" "Lee"]> ∅)).

Definition shop_productIndex : gmap string Product :=
  <["p2" := product_of "p2" 10 30]> (<["p1" := product_of "p1" 50 100]> ∅).

Definition shop_log : list warning := [WarnSellerNotFound (PStr "s9")].

(** The accumulators of the shop, in the order of its sellers. *)
Definition shop_stats : list SellerStat :=
  [{| stat_id := PStr "s1"; name := "Ann Lee"; revenue := PNum (Fin 230);
      profit := Fin 120; sales_count := 2;
      products_sold := [("p1", PNum (Fin 2)); ("p2", PNum (Fin 1))];
      bonus := Fin 0; top_products := None |};
   {| stat_id := PStr "s2"; name := "Bob Ray"; revenue := PNum (Fin 300);
      profit := Fin 200; sales_count := 1;
      products_sold := [("p2", PNum (Fin 10))];
      bonus := Fin 0; top_products := None |};
   {| stat_id := PStr "s3"; name := "Cid Fox"; revenue := PNum (Fin 0);
      profit := Fin 0; sales_count := 0;
      products_sold := [];
      bonus := Fin 0; top_products := None |}].

Definition shop_result : list Output :=
  [{| out_seller_id := PStr "s2"; out_name := "Bob Ray";
      out_revenue := Fin 300; out_profit := Fin 200; out_sales_count := 1;
      out_top_products := Some [{| tp_sku := "p2"; tp_quantity := PNum (Fin 10) |}];
      out_bonus := Fin 30 |};
   {| out_seller_id := PStr "s1"; out_name := "Ann Lee";
      out_revenue := Fin 230; out_profit := Fin 120; out_sales_count := 2;
      out_top_products :=
        Some [{| tp_sku := "p1"; tp_quantity := PNum (Fin 2) |};
              {| tp_sku := "p2"; tp_quantity := PNum (Fin 1) |}];
      out_bonus := Fin 12 |};
   {| out_seller_id := PStr "s3"; out_name := "Cid Fox";
      out_revenue := Fin 0; out_profit := Fin 0; out_sales_count := 0;
      out_top_products := Some [];
      out_bonus := Fin 0 |}].

Definition single_sale_result : list Output :=
  [{| out_seller_id := PStr "s1"; out_name := "Ann Lee";
      out_revenue := Fin 200; out_profit := Fin 100; out_sales_count := 1;
      out_top_products := Some [{| tp_sku := "p1"; tp_quantity := PNum (Fin 2) |}];
      out_bonus := Fin 15 |}].

(** The scenario of the specification with the [total_amount] of the sale
    left out. *)
Definition single_sale_without_total : Dataset :=
  dataset_of [seller_of "s1" "Ann" "Lee"] [product_of "p1" 50 100]
             [record_of "s1" PUndefined [item_of "p1" 2 100]].

Definition single_sale_without_total_result : list Output :=
  [{| out_seller_id := PStr "s1"; out_name := "Ann Lee";
      out_revenue := NaN; out_profit := Fin 100; out_sales_count := 1;
      out_top_products := Some [{| tp_sku := "p1"; tp_quantity := PNum (Fin 2) |}];
      out_bonus := Fin 15 |}].

(** A seller profile with a profit of 100. *)
Definition profile_100 : SellerStat :=
  {| stat_id := PStr "s1"; name := "Ann Lee"; revenue := PNum (Fin 200);
     profit := Fin 100; sales_count := 1;
     products_sold := [("p1", PNum (Fin 2))]; bonus := Fin 0;
     top_products := None |}.


(** ** Further vocabulary *)

(** A collection that is missing, not an array, or empty. *)
Definition collection_missing {A : Type} (c : option (list A)) : bool :=
  match c with
  | Some (_ :: _) => false
  | _ => true
  end.

(** The checks of lines 47-93 all pass on the dataset. *)
Definition data_accepted (data : option Dataset)
  (ss : list Seller) (ps : list Product) (rs : list PurchaseRecord) : Prop :=
  check_data data = Ok (ss, ps, rs)
  /\ hasInvalidSellers ss = false
  /\ hasInvalidProducts ps = false
  /\ hasInvalidPurchases rs = false
  /\ hasInvalidItems rs = Ok false.

(** The options object is absent or lacks one of the two functions. *)
Definition options_incomplete (options : option Options) : bool :=
  match options with
  | Some o => negb (options_given o)
  | None => true
  end.

(** The warnings one purchase record leaves in the log: one when the read
    of the seller index finds nothing; none when it finds something that is
    no seller (line 155); otherwise one for each item for which the read of
    the product index finds nothing. *)
Definition item_warnings (productIndex : gmap string Product) (l : list Item)
  : list warning :=
  flat_map (fun item =>
              if found_truthy (product_lookup productIndex item) then []
              else [WarnProductNotFound (item_sku item)]) l.

Definition record_warnings (sellerIndex : gmap string Seller)
  (productIndex : gmap string Product) (r : PurchaseRecord) : list warning :=
  match seller_lookup sellerIndex r with
  | Entry _ =>
      match items r with
      | ItemsArray l => item_warnings productIndex l
      | _ => []
      end
  | _ => seller_warning sellerIndex r
  end.

(** The entry of [products_sold] as an element of [top_products]
    (line 205). *)
Definition top_entry (e : string * prim) : TopProduct :=
  {| tp_sku := fst e; tp_quantity := snd e |}.

(** The number a sold quantity counts as in the comparator of line 206. *)
Definition sold_quantity (t : TopProduct) : num := to_number (tp_quantity t).

(** The key is that of the sku of an item of some purchase record. *)
Definition sold_from (rs : list PurchaseRecord) (k : string) : Prop :=
  exists r l i, r ∈ rs /\ items r = ItemsArray l /\ i ∈ l
                /\ k = key_of (item_sku i).

(** The keys of [products_sold] are distinct; each is the key of the sku of
    an item of a purchase record, and one for which the read of the
    product index finds something. *)
Definition sold_well_formed (productIndex : gmap string Product)
  (rs : list PurchaseRecord) (sold : list (string * prim)) : Prop :=
  NoDup (map fst sold)
  /\ forall k, k ∈ map fst sold ->
               sold_from rs k
               /\ found_truthy (index_get product_property productIndex k) = true.

(** *** More samples *)

(** What a seller sold: twelve products, two of them under keys that are
    array indexes. *)
Definition sample_sold : list (string * prim) :=
  [("p01", PNum (Fin 4)); ("p02", PNum (Fin 9)); ("10", PNum (Fin 7));
   ("p04", PNum (Fin 1)); ("p05", PNum (Fin 12)); ("2", PNum (Fin 7));
   ("p07", PNum (Fin 3)); ("p08", PNum (Fin 8)); ("p09", PNum (Fin 2));
   ("p10", PNum (Fin 6)); ("p11", PNum (Fin 5)); ("p12", PNum (Fin 11))].

Definition duplicate_id_result : list Output :=
  [{| out_seller_id := PStr "s1"; out_name := "Ann Lee";
      out_revenue := Fin 200; out_profit := Fin 100; out_sales_count := 1;
      out_top_products := Some [{| tp_sku := "p1"; tp_quantity := PNum (Fin 2) |}];
      out_bonus := Fin 15 |};
   {| out_seller_id := PStr "s1"; out_name := "Bob Ray";
      out_revenue := Fin 0; out_profit := Fin 0; out_sales_count := 0;
      out_top_products := Some [];
      out_bonus := Fin 0 |}].

(** ** Arithmetic facts *)

Lemma Qred_zero_r (q : Q) : Qred (q * 0) = 0%Q.
Proof.
  change 0%Q with (Qred 0). apply Qred_complete. apply Qmult_0_r.
Qed.

Lemma num_mul_fin_zero (q : Q) : num_mul (Fin q) (Fin 0) = Fin 0.
Proof. simpl. now rewrite Qred_zero_r. Qed.

(** ** The default bonus strategy *)

Lemma bonusPercentage_second_third (index total : Z) :
  (index = 1 \/ index = 2)%Z -> bonusPercentage index total = (1 # 10)%Q.
Proof. intros [-> | ->]; reflexivity. Qed.

Lemma bonusPercentage_other (index total : Z) :
  (index < 0 \/ 2 < index)%Z ->
  bonusPercentage index total = if (index <? total - 1)%Z then (5 # 100)%Q else 0%Q.
Proof.
  intros H. unfold bonusPercentage.
  destruct (Z.eqb_spec index 0) as [-> | _]; [lia |].
  destruct (Z.leb_spec index 2), (Z.gtb_spec index 0); simpl; try reflexivity; lia.
Qed.

(** C2, as amended.  The branches are tried in the order of the source: the
    default strategy pays 15% of the profit at index 0; 10% at indexes 1
    and 2, also when that index is the last one; 5% at every other index
    below [total - 1]; and [profit * 0] at every index left, the last
    index [total - 1] of a ranking of more than three sellers among them.
    That product is zero when the profit is finite and [NaN] when it is
    not.  The only seller of a one-seller ranking is paid 15%. *)
Theorem calculateBonusByProfit_policy (index total : Z) (seller : SellerStat) :
  (index = 0%Z ->
     calculateBonusByProfit index total seller
     = num_mul (profit seller) (Fin (15 # 100)))
  /\ ((index = 1 \/ index = 2)%Z ->
     calculateBonusByProfit index total seller
     = num_mul (profit seller) (Fin (1 # 10)))
  /\ ((index < 0 \/ 2 < index)%Z -> (index < total - 1)%Z ->
     calculateBonusByProfit index total seller
     = num_mul (profit seller) (Fin (5 # 100)))
  /\ ((index < 0 \/ 2 < index)%Z -> (total - 1 <= index)%Z ->
     calculateBonusByProfit index total seller = num_mul (profit seller) (Fin 0)
     /\ (is_fin (profit seller) = true ->
         calculateBonusByProfit index total seller = Fin 0)
     /\ (is_fin (profit seller) = false ->
         calculateBonusByProfit index total seller = NaN))
  /\ (total = 1%Z -> index = 0%Z ->
     calculateBonusByProfit index total seller
     = num_mul (profit seller) (Fin (15 # 100))).
Proof.
  unfold calculateBonusByProfit.
  split; [| split; [| split; [| split]]].
  - intros ->. reflexivity.
  - intros H. now rewrite (bonusPercentage_second_third _ _ H).
  - intros H Hlt. rewrite (bonusPercentage_other _ _ H).
    apply Z.ltb_lt in Hlt. now rewrite Hlt.
  - intros H Hge. rewrite (bonusPercentage_other _ _ H).
    assert ((index <? total - 1)%Z = false) as -> by (apply Z.ltb_ge; lia).
    split; [reflexivity |].
    destruct (profit seller); split; try discriminate; try reflexivity.
    intros _. apply num_mul_fin_zero.
  - intros _ ->. reflexivity.
Qed.

(** ** Validation *)



Lemma negative_number_filled (q : Q) : (q < 0)%Q -> filled (PNum (Fin q)) = true.
Proof.
  intros H. simpl. apply negb_true_iff.
  destruct (Qeq_bool q 0) eqn:E; [| reflexivity].
  apply Qeq_bool_iff in E. rewrite E in H. now apply Qlt_irrefl in H.
Qed.

Lemma zero_not_truthy : truthy (PNum (Fin 0)) = false.
Proof. reflexivity. Qed.








Lemma index_sellers_valid (ss : list Seller) (m : gmap string Seller) :
  hasInvalidSellers ss = false -> exists m', index_sellers m ss = Ok m'.
Proof.
  revert m. induction ss as [| s ss IH]; intros m; simpl; [eauto |].
  intros [-> H]%orb_false_iff. now apply IH.
Qed.

Lemma index_products_valid (ps : list Product) (m : gmap string Product) :
  hasInvalidProducts ps = false -> exists m', index_products m ps = Ok m'.
Proof.
  revert m. induction ps as [| p ps IH]; intros m; simpl; [eauto |].
  intros [Hp H]%orb_false_iff. unfold product_invalid in Hp.
  apply orb_false_iff in Hp as [[->%negb_false_iff _]%orb_false_iff _].
  now apply IH.
Qed.

(** What a successful validation establishes. *)
Lemma validate_Ok (data : option Dataset) (options : option Options)
  ss ps rs f g :
  validate data options = Ok (ss, ps, rs, (f, g)) ->
  (exists d, data = Some d /\ sellers d = Some ss /\ products d = Some ps
             /\ purchase_records d = Some rs)
  /\ ss <> [] /\ ps <> [] /\ rs <> []
  /\ hasInvalidSellers ss = false /\ hasInvalidProducts ps = false
  /\ hasInvalidPurchases rs = false /\ hasInvalidItems rs = Ok false
  /\ (exists o, options = Some o /\ calculateRevenue o = Some f
                /\ calculateBonus o = Some g).
Proof.
  unfold validate, check_data.
  destruct data as [d |]; [| discriminate].
  destruct (sellers d) as [[| s ss'] |] eqn:Es; try discriminate.
  destruct (products d) as [[| p ps'] |] eqn:Ep; try discriminate.
  destruct (purchase_records d) as [[| r rs'] |] eqn:Er; try discriminate.
  cbn [nonempty_array bind].
  destruct (hasInvalidSellers (s :: ss')) eqn:E1; [discriminate |].
  destruct (hasInvalidProducts (p :: ps')) eqn:E2; [discriminate |].
  destruct (hasInvalidPurchases (r :: rs')) eqn:E3; [discriminate |].
  cbn [orb].
  destruct (hasInvalidItems (r :: rs')) as [[|] | e] eqn:E4; try discriminate.
  cbn [bind]. unfold check_options.
  destruct options as [o |]; [| discriminate].
  destruct (calculateRevenue o) as [f' |] eqn:Ef; [| discriminate].
  destruct (calculateBonus o) as [g' |] eqn:Eg; [| discriminate].
  cbn [bind]. intros [= <- <- <- <- <-].
  repeat split; try congruence; eauto 10.
Qed.

Lemma lacks_required_field_invalid (i : Item) :
  lacks_required_field i -> item_invalid i = true.
Proof.
  unfold item_invalid. intros [H | [H | H]]; rewrite H; simpl.
  - reflexivity.
  - now rewrite orb_true_r.
  - now rewrite orb_true_r.
Qed.

Lemma purchase_valid_items (r : PurchaseRecord) :
  purchase_invalid r = false ->
  truthy (seller_id r) = true /\ exists i l, items r = ItemsArray (i :: l).
Proof.
  unfold purchase_invalid. intros [H1%negb_false_iff H2]%orb_false_iff.
  split; [exact H1 |]. destruct (items r) as [| | [| i l]]; try discriminate. eauto.
Qed.

Lemma hasInvalidPurchases_false (rs : list PurchaseRecord) :
  hasInvalidPurchases rs = false <-> Forall (fun r => purchase_invalid r = false) rs.
Proof.
  unfold hasInvalidPurchases. induction rs as [| r rs IH]; simpl.
  - split; [constructor | reflexivity].
  - rewrite orb_false_iff, Forall_cons, IH. reflexivity.
Qed.

Lemma hasInvalidItems_found (rs : list PurchaseRecord) r l i :
  hasInvalidPurchases rs = false ->
  r ∈ rs -> items r = ItemsArray l -> i ∈ l -> item_invalid i = true ->
  hasInvalidItems rs = Ok true.
Proof.
  intros Hrs Hr Hl Hi Hbad. apply hasInvalidPurchases_false in Hrs.
  induction Hrs as [| r' rs' Hr' Hrs' IH]; [inversion Hr |].
  simpl. destruct (purchase_valid_items r' Hr') as [_ (i' & l' & E)]. rewrite E.
  destruct (existsb item_invalid (i' :: l')) eqn:Ex; [reflexivity |].
  apply elem_of_cons in Hr as [-> | Hr]; [| now apply IH].
  rewrite Hl in E. injection E as ->.
  assert (existsb item_invalid (i' :: l') = true) as Hex.
  { apply existsb_exists. exists i. split; [now apply list_elem_of_In | exact Hbad]. }
  congruence.
Qed.

(** C4, as amended.  When an item of some purchase record lacks [sku],
    [quantity] or [sale_price] and the rest of the structure is valid, the
    call aborts: the check of lines 85-93 throws before anything is
    accumulated, no result is returned and no warning is logged.  The guard
    of the accumulation loop (lines 161-164) would skip such an item with a
    warning and leave the accumulator as it is. *)
Theorem malformed_item_aborts (d : Dataset) (options : option Options)
  ss ps rs r l i :
  structure_accepted d ss ps rs ->
  r ∈ rs -> items r = ItemsArray l -> i ∈ l ->
  lacks_required_field i ->
  analyzeSalesData (Some d) options = ([], Throw InvalidItems)
  /\ forall calcRevenue productIndex st,
       process_item calcRevenue productIndex st i = (st, [WarnItemIncomplete i]).
Proof.
  intros (Hd & Hs & Hp & Hrs) Hr Hl Hi Hlack.
  pose proof (lacks_required_field_invalid i Hlack) as Hbad. split.
  - unfold analyzeSalesData, validate. rewrite Hd. cbn [bind].
    rewrite Hs, Hp, Hrs. cbn [orb].
    now rewrite (hasInvalidItems_found rs r l i Hrs Hr Hl Hi Hbad).
  - intros calcRevenue productIndex st. unfold process_item. now rewrite Hbad.
Qed.

(** ** How validation ends *)

(** After the check of lines 70-76 every [items] is an array, so the check
    of lines 85-87 does not throw. *)
Lemma hasInvalidItems_total (rs : list PurchaseRecord) :
  hasInvalidPurchases rs = false -> exists b, hasInvalidItems rs = Ok b.
Proof.
  intros H%hasInvalidPurchases_false.
  induction H as [| r rs Hr _ [b IH]]; simpl; [eauto |].
  destruct (purchase_valid_items r Hr) as [_ (i & l & ->)].
  destruct (existsb item_invalid (i :: l)); eauto.
Qed.

Lemma hasInvalidItems_false (rs : list PurchaseRecord) :
  hasInvalidItems rs = Ok false ->
  Forall (fun r => exists l, items r = ItemsArray l
                             /\ Forall (fun i => item_invalid i = false) l) rs.
Proof.
  induction rs as [| r rs IH]; simpl; [constructor |].
  destruct (items r) as [| | l] eqn:E; try discriminate.
  destruct (existsb item_invalid l) eqn:Ex; [discriminate |].
  intros H. constructor; [| now apply IH].
  exists l. split; [exact E |]. apply Forall_forall. intros i Hi.
  destruct (item_invalid i) eqn:Ei; [| reflexivity].
  assert (existsb item_invalid l = true) as Hex.
  { apply existsb_exists. exists i. split; [now apply list_elem_of_In | exact Ei]. }
  congruence.
Qed.

Lemma check_options_outcome (options : option Options) :
  (options_incomplete options = true /\ check_options options = Throw InvalidOptions)
  \/ exists f g, check_options options = Ok (f, g).
Proof.
  unfold check_options, options_incomplete, options_given.
  destruct options as [o |]; [| auto].
  destruct (calculateRevenue o), (calculateBonus o); eauto.
Qed.

(** The five ways validation ends, in the order of the checks. *)
Lemma validate_outcome (data : option Dataset) (options : option Options) :
  (check_data data = Throw InvalidInput
   /\ validate data options = Throw InvalidInput)
  \/ (exists ss ps rs,
        check_data data = Ok (ss, ps, rs)
        /\ hasInvalidSellers ss || hasInvalidProducts ps || hasInvalidPurchases rs
           = true
        /\ validate data options = Throw InvalidStructure)
  \/ (exists ss ps rs,
        check_data data = Ok (ss, ps, rs)
        /\ hasInvalidSellers ss || hasInvalidProducts ps || hasInvalidPurchases rs
           = false
        /\ hasInvalidItems rs = Ok true
        /\ validate data options = Throw InvalidItems)
  \/ (exists ss ps rs,
        data_accepted data ss ps rs
        /\ options_incomplete options = true
        /\ validate data options = Throw InvalidOptions)
  \/ (exists ss ps rs f g,
        data_accepted data ss ps rs
        /\ validate data options = Ok (ss, ps, rs, (f, g))).
Proof.
  unfold validate, data_accepted, check_data.
  destruct data as [d |]; [| auto].
  destruct (nonempty_array (sellers d)) as [ss |]; [| auto].
  destruct (nonempty_array (products d)) as [ps |]; [| auto].
  destruct (nonempty_array (purchase_records d)) as [rs |]; [| auto].
  cbn [bind]. right.
  destruct (hasInvalidSellers ss || hasInvalidProducts ps || hasInvalidPurchases rs)
    eqn:E; [left; exists ss, ps, rs; auto | right].
  pose proof E as E'.
  apply orb_false_iff in E' as [[Hs Hp]%orb_false_iff Hrs].
  destruct (hasInvalidItems_total rs Hrs) as [b Hb]. rewrite Hb. cbn [bind].
  destruct b; [left; exists ss, ps, rs; auto | right].
  destruct (check_options_outcome options) as [[Hi ->] | (f & g & ->)]; cbn [bind].
  - left. exists ss, ps, rs. auto 10.
  - right. exists ss, ps, rs, f, g. auto 10.
Qed.

(** ** Truthy fields *)










(** ** The order of numbers *)

Lemma Qle_bool_red_sub (x y : Q) :
  Qle_bool 0 (Qred (x + Qred (- y))) = Qle_bool y x.
Proof.
  apply eq_true_iff_eq. rewrite !Qle_bool_iff, !Qred_correct.
  split; intros H; lra.
Qed.

Lemma num_sub_ltb_zero (a b : num) :
  is_nan a = false -> is_nan b = false ->
  num_ltb (num_sub a b) (Fin 0) = num_ltb a b.
Proof.
  destruct a as [| | | x], b as [| | | y]; simpl; try discriminate; try reflexivity.
  intros _ _. now rewrite Qle_bool_red_sub.
Qed.

Lemma num_ltb_asym (a b : num) : num_ltb a b = true -> num_ltb b a = false.
Proof.
  destruct a as [| | | x], b as [| | | y]; simpl; try discriminate; try reflexivity.
  intros H%negb_true_iff. apply negb_false_iff, Qle_bool_iff.
  destruct (Qle_bool y x) eqn:E; [discriminate |].
  destruct (Qlt_le_dec x y) as [Hlt | Hle]; [now apply Qlt_le_weak |].
  apply Qle_bool_iff in Hle. congruence.
Qed.

Lemma Qle_bool_false (x y : Q) : Qle_bool x y = false <-> (y < x)%Q.
Proof.
  split.
  - intros E. destruct (Qlt_le_dec y x) as [H | H]; [exact H |].
    apply Qle_bool_iff in H. congruence.
  - intros H. destruct (Qle_bool x y) eqn:E; [| reflexivity].
    apply Qle_bool_iff in E. lra.
Qed.

(** On numbers other than [NaN], "not below" is transitive. *)
Lemma num_not_below_trans (a b c : num) :
  is_nan b = false ->
  num_ltb a b = false -> num_ltb b c = false -> num_ltb a c = false.
Proof.
  destruct a as [| | | x], b as [| | | y], c as [| | | z]; simpl;
    try discriminate; try reflexivity.
  intros _ H1%negb_false_iff H2%negb_false_iff. apply negb_false_iff.
  apply Qle_bool_iff in H1, H2. apply Qle_bool_iff. lra.
Qed.

Lemma num_eqb_below (a b p : num) :
  num_ltb a b = true -> num_eqb b p = true -> num_eqb a p = false.
Proof.
  destruct a as [| | | x], b as [| | | y], p as [| | | z]; simpl;
    try discriminate; try reflexivity.
  intros H1%negb_true_iff H2. apply Qle_bool_false in H1.
  apply Qeq_bool_iff in H2. destruct (Qeq_bool x z) eqn:E; [| reflexivity].
  apply Qeq_bool_iff in E. lra.
Qed.

(** ** [Array.prototype.sort] with a comparator [(a, b) => key(b) - key(a)] *)

Section SortByKey.
Context {A : Type} (key : A -> num).

Lemma sort_insert_perm (cmp : A -> A -> num) (x : A) (l : list A) :
  Permutation (sort_insert cmp x l) (x :: l).
Proof.
  induction l as [| y l IH]; simpl; [reflexivity |].
  destruct (num_ltb (cmp x y) (Fin 0)); [reflexivity |].
  rewrite IH. apply perm_swap.
Qed.

Lemma fold_sort_insert_perm (cmp : A -> A -> num) (l acc : list A) :
  Permutation (fold_left (fun acc x => sort_insert cmp x acc) l acc) (acc ++ l).
Proof.
  revert acc. induction l as [| x l IH]; intros acc; simpl.
  - now rewrite app_nil_r.
  - rewrite IH, sort_insert_perm. apply Permutation_middle.
Qed.

Lemma js_sort_perm (cmp : A -> A -> num) (l : list A) :
  Permutation (js_sort cmp l) l.
Proof. apply (fold_sort_insert_perm cmp l []). Qed.

Lemma sort_insert_sorted (x : A) (l : list A) :
  (keyed key) x -> Forall (keyed key) l ->
  StronglySorted (not_below key) l ->
  StronglySorted (not_below key) (sort_insert (by_key key) x l).
Proof.
  intros Hx Hl Hs. induction Hs as [| y l Hs IH Hy]; simpl.
  - repeat constructor.
  - apply Forall_cons in Hl as [Hky Hl]. unfold by_key at 1.
    rewrite (num_sub_ltb_zero (key y) (key x) Hky Hx).
    destruct (num_ltb (key y) (key x)) eqn:E.
    + constructor; [now constructor |].
      assert ((not_below key) x y) as Hxy by now apply num_ltb_asym.
      constructor; [exact Hxy |].
      eapply Forall_impl; [exact Hy |]. intros z Hz.
      exact (num_not_below_trans _ _ _ Hky Hxy Hz).
    + constructor; [now apply IH |].
      eapply Permutation_Forall; [symmetry; apply sort_insert_perm |].
      constructor; assumption.
Qed.

Lemma fold_sort_insert_sorted (l acc : list A) :
  Forall (keyed key) l -> Forall (keyed key) acc ->
  StronglySorted (not_below key) acc ->
  StronglySorted (not_below key) (fold_left (fun acc x => sort_insert (by_key key) x acc) l acc).
Proof.
  revert acc. induction l as [| x l IH]; intros acc Hl Hacc Hs; simpl; [exact Hs |].
  apply Forall_cons in Hl as [Hx Hl]. apply IH; [exact Hl | |].
  - eapply Permutation_Forall; [symmetry; apply sort_insert_perm |].
    now constructor.
  - now apply sort_insert_sorted.
Qed.

(** The sort puts the keys in descending order. *)
Lemma js_sort_sorted (l : list A) :
  Forall (keyed key) l -> StronglySorted (not_below key) (js_sort (by_key key) l).
Proof. intros H. apply fold_sort_insert_sorted; [exact H | constructor | constructor]. Qed.

Lemma not_below_at_least (x y : A) :
  (keyed key) x -> (keyed key) y -> (not_below key) x y -> (at_least key) x y.
Proof.
  unfold keyed, not_below, at_least, num_leb. intros Hx Hy H. rewrite H.
  now destruct (key x), (key y).
Qed.

Lemma StronglySorted_at_least (l : list A) :
  Forall (keyed key) l -> StronglySorted (not_below key) l ->
  StronglySorted (at_least key) l.
Proof.
  intros Hl Hs. induction Hs as [| x l Hs IH Hx]; [constructor |].
  apply Forall_cons in Hl as [Hkx Hl]. constructor; [now apply IH |].
  rewrite Forall_forall in Hx, Hl |- *. intros y Hy.
  apply not_below_at_least; auto.
Qed.

(** With keys other than [NaN] the sort leaves every element at least
    as large as all those after it. *)
Lemma js_sort_descending (l : list A) :
  Forall (keyed key) l -> StronglySorted (at_least key) (js_sort (by_key key) l).
Proof.
  intros H. apply StronglySorted_at_least; [| now apply js_sort_sorted].
  eapply Permutation_Forall; [symmetry; apply js_sort_perm | exact H].
Qed.

Lemma filter_same_key_below (p : num) (x : A) (l : list A) :
  (same_key key) p x = true ->
  Forall (fun z => num_ltb (key z) (key x) = true) l ->
  List.filter ((same_key key) p) l = [].
Proof.
  intros Hp. induction 1 as [| z l Hz _ IH]; simpl; [reflexivity |].
  unfold same_key at 1. now rewrite (num_eqb_below _ _ _ Hz Hp).
Qed.

Lemma sort_insert_stable (p : num) (x : A) (l : list A) :
  (keyed key) x -> Forall (keyed key) l ->
  StronglySorted (not_below key) l ->
  List.filter ((same_key key) p) (sort_insert (by_key key) x l)
  = List.filter ((same_key key) p) l ++ List.filter ((same_key key) p) [x].
Proof.
  intros Hx Hl Hs. induction Hs as [| y l Hs IH Hy]; [reflexivity |].
  apply Forall_cons in Hl as [Hky Hl]. cbn [sort_insert]. unfold by_key at 1.
  rewrite (num_sub_ltb_zero (key y) (key x) Hky Hx).
  destruct (num_ltb (key y) (key x)) eqn:E.
  - cbn [List.filter]. destruct ((same_key key) p x) eqn:Ep; [| now rewrite app_nil_r].
    assert (Forall (fun z => num_ltb (key z) (key x) = true) (y :: l)) as Hbelow.
    { constructor; [exact E |].
      rewrite Forall_forall in Hy, Hl |- *. intros z Hz.
      destruct (num_ltb (key z) (key x)) eqn:Ez; [reflexivity |].
      pose proof (num_not_below_trans _ _ _ (Hl z Hz) (Hy z Hz) Ez).
      congruence. }
    pose proof (filter_same_key_below p x (y :: l) Ep Hbelow) as F.
    cbn [List.filter] in F. now rewrite F.
  - cbn [List.filter]. rewrite (IH Hl).
    destruct ((same_key key) p y); reflexivity.
Qed.

Lemma fold_sort_insert_stable (p : num) (l acc : list A) :
  Forall (keyed key) l -> Forall (keyed key) acc ->
  StronglySorted (not_below key) acc ->
  List.filter ((same_key key) p) (fold_left (fun acc x => sort_insert (by_key key) x acc) l acc)
  = List.filter ((same_key key) p) acc ++ List.filter ((same_key key) p) l.
Proof.
  revert acc. induction l as [| x l IH]; intros acc Hl Hacc Hs; simpl.
  - now rewrite app_nil_r.
  - apply Forall_cons in Hl as [Hx Hl]. rewrite IH.
    + rewrite (sort_insert_stable p x acc Hx Hacc Hs), <- app_assoc.
      cbn [List.filter]. now destruct (same_key key p x).
    + exact Hl.
    + eapply Permutation_Forall; [symmetry; apply sort_insert_perm |].
      now constructor.
    + now apply sort_insert_sorted.
Qed.

(** The sort is stable: the elements of one key keep their order. *)
Lemma js_sort_stable (p : num) (l : list A) :
  Forall (keyed key) l ->
  List.filter ((same_key key) p) (js_sort (by_key key) l) = List.filter ((same_key key) p) l.
Proof.
  intros H. apply (fold_sort_insert_stable p l [] H); constructor.
Qed.
End SortByKey.

(** ** Reads of the indexes *)

Lemma index_get_own {A : Type} (properties : A -> string -> option prim)
  (index : gmap string A) (k : string) (a : A) :
  index !! k = Some a -> index_get properties index k = Entry a.
Proof. unfold index_get. now intros ->. Qed.

(** A read returns an entry exactly when the key is in the map. *)
Lemma index_get_entry {A : Type} (properties : A -> string -> option prim)
  (index : gmap string A) (k : string) (a : A) :
  index_get properties index k = Entry a <-> index !! k = Some a.
Proof.
  split; [| apply index_get_own]. unfold index_get.
  destruct (index !! k); [congruence |].
  destruct (_ ≫= _); [discriminate |]. now destruct (is_prototype_name k).
Qed.

Lemma index_get_other {A : Type} (properties : A -> string -> option prim)
  (index : gmap string A) (k : string) (p : A -> prim) :
  index !! k = None -> found_prop p (index_get properties index k) = PUndefined.
Proof.
  unfold index_get. intros ->.
  destruct (_ ≫= _); [reflexivity |]. now destruct (is_prototype_name k).
Qed.

(** The name of a property of [Object.prototype] is always found. *)
Lemma index_get_prototype_name {A : Type} (properties : A -> string -> option prim)
  (index : gmap string A) (k : string) :
  is_prototype_name k = true ->
  (forall a, properties a k = None) ->
  found_truthy (index_get properties index k) = true.
Proof.
  intros Hk Hp. unfold index_get. destruct (index !! k); [reflexivity |].
  destruct (index !! "__proto__") as [a |]; simpl; rewrite ?Hp, Hk; reflexivity.
Qed.



Lemma product_property_prototype_name (p : Product) (k : string) :
  is_prototype_name k = true -> product_property p k = None.
Proof.
  unfold product_property.
  destruct (String.eqb_spec k "sku") as [-> | _]; [discriminate |].
  destruct (String.eqb_spec k "purchase_price") as [-> | _]; [discriminate |].
  destruct (String.eqb_spec k "sale_price") as [-> | _]; [discriminate |].
  reflexivity.
Qed.

(** ** Accumulation *)

Section AccumulateFacts.
Variable calcRevenue : Purchase -> found Product -> num.
Variable sellerIndex : gmap string Seller.
Variable productIndex : gmap string Product.

Lemma same_account_refl (st : SellerStat) : same_account st st.
Proof. repeat split. Qed.

Lemma same_account_trans (a b c : SellerStat) :
  same_account a b -> same_account b c -> same_account a c.
Proof.
  intros (?&?&?&?&?&?) (?&?&?&?&?&?). repeat split; congruence.
Qed.

Lemma process_item_account (st : SellerStat) (item : Item) :
  same_account st (fst (process_item calcRevenue productIndex st item)).
Proof.
  unfold process_item. destruct (item_invalid item); [apply same_account_refl |].
  destruct (negb (found_truthy _)); [apply same_account_refl | repeat split].
Qed.

Lemma process_items_account (l : list Item) (st : SellerStat) :
  same_account st (fst (process_items calcRevenue productIndex st l)).
Proof.
  revert st. induction l as [| item l IH]; intros st; simpl;
    [apply same_account_refl |].
  pose proof (process_item_account st item) as H1.
  destruct (process_item calcRevenue productIndex st item) as [st1 w1].
  pose proof (IH st1) as H2.
  destruct (process_items calcRevenue productIndex st1 l) as [st2 w2].
  simpl in *. eapply same_account_trans; eassumption.
Qed.

(** Items for which nothing is found leave the accumulator as it is. *)
Lemma process_items_unmatched (l : list Item) (st : SellerStat) :
  (forall i, i ∈ l -> found_truthy (product_lookup productIndex i) = false) ->
  fst (process_items calcRevenue productIndex st l) = st.
Proof.
  induction l as [| item l IH]; intros H; simpl; [reflexivity |].
  assert (process_item calcRevenue productIndex st item
          = (st, snd (process_item calcRevenue productIndex st item))) as ->.
  { unfold process_item. destruct (item_invalid item); [reflexivity |].
    pose proof (H item (list_elem_of_here _ _)) as Hi.
    unfold product_lookup in Hi. now rewrite Hi. }
  specialize (IH (fun i Hi => H i (list_elem_of_further _ _ _ Hi))).
  destruct (process_items calcRevenue productIndex st l) as [st2 w2].
  exact IH.
Qed.

Lemma find_stat_Some (seller : found Seller) (stats : list SellerStat) k st :
  find_stat seller stats = Some (k, st) ->
  stats !! k = Some st /\ strict_eq (stat_id st) (found_prop id seller) = true.
Proof.
  unfold find_stat. intros H. apply list_find_Some in H as (H1 & H2 & _). auto.
Qed.

(** The accumulator found depends on the ids only. *)
Lemma find_stat_ids (seller : found Seller) (stats stats' : list SellerStat) :
  map stat_id stats = map stat_id stats' ->
  fst <$> find_stat seller stats = fst <$> find_stat seller stats'.
Proof.
  unfold find_stat. revert stats'.
  induction stats as [| a l IH]; intros [| b l'] H; try discriminate; [reflexivity |].
  simpl in H. injection H as Hab Hl. cbn [list_find]. rewrite <- Hab.
  destruct (decide (strict_eq (stat_id a) (found_prop id seller) = true));
    [reflexivity |].
  specialize (IH l' Hl).
  destruct (list_find _ l) as [[? ?] |], (list_find _ l') as [[? ?] |];
    simpl in *; congruence.
Qed.

(** What one iteration of the loop of line 142 does with a record that
    validation accepted. *)
Lemma process_record_valid (stats : list SellerStat) (r : PurchaseRecord) :
  purchase_invalid r = false ->
  exists l, items r = ItemsArray l /\
    process_record calcRevenue sellerIndex productIndex stats r
    = if found_truthy (seller_lookup sellerIndex r)
      then match find_stat (seller_lookup sellerIndex r) stats with
           | None => ([], Ok stats)
           | Some (k, st) =>
               let res := process_items calcRevenue productIndex (add_sale st r) l in
               (snd res, Ok (<[k := fst res]> stats))
           end
      else ([WarnSellerNotFound (seller_id r)], Ok stats).
Proof.
  intros H. destruct (purchase_valid_items r H) as [Hid (i & l & Hl)].
  exists (i :: l). split; [exact Hl |].
  unfold process_record, seller_lookup. rewrite Hid, Hl. cbn [negb orb items_falsy].
  destruct (found_truthy _); cbn [negb]; [| reflexivity].
  destruct (find_stat _ stats) as [[k st] |]; [| reflexivity].
  destruct (process_items calcRevenue productIndex (add_sale st r) (i :: l)).
  reflexivity.
Qed.

Lemma map_insert_same {B : Type} (f : SellerStat -> B) (stats : list SellerStat) k st st' :
  stats !! k = Some st -> f st' = f st ->
  map f (<[k := st']> stats) = map f stats.
Proof.
  revert k. induction stats as [| a l IH]; intros [| k] H E; simpl in *;
    try discriminate.
  - injection H as ->. now rewrite E.
  - now rewrite (IH k H E).
Qed.

Lemma process_record_ids (stats stats' : list SellerStat) (r : PurchaseRecord) w :
  process_record calcRevenue sellerIndex productIndex stats r = (w, Ok stats') ->
  map stat_id stats' = map stat_id stats.
Proof.
  unfold process_record.
  destruct (negb (truthy (seller_id r)) || items_falsy (items r)); [congruence |].
  destruct (negb (found_truthy _)); [congruence |].
  destruct (find_stat _ stats) as [[k st] |] eqn:F; [| congruence].
  destruct (items r) as [| | l]; try discriminate.
  pose proof (process_items_account l (add_sale st r)) as (Hid & _).
  destruct (process_items calcRevenue productIndex (add_sale st r) l) as [st2 w2].
  intros [= <- <-]. apply find_stat_Some in F as [F _].
  apply (map_insert_same stat_id stats k st st2 F). simpl in Hid. congruence.
Qed.

Lemma process_records_app (stats : list SellerStat) (rs1 rs2 : list PurchaseRecord) :
  process_records calcRevenue sellerIndex productIndex stats (rs1 ++ rs2)
  = match process_records calcRevenue sellerIndex productIndex stats rs1 with
    | (w1, Ok stats1) =>
        let '(w2, r) :=
          process_records calcRevenue sellerIndex productIndex stats1 rs2 in
        (w1 ++ w2, r)
    | (w1, Throw e) => (w1, Throw e)
    end.
Proof.
  revert stats. induction rs1 as [| r rs1 IH]; intros stats; simpl.
  - now destruct (process_records _ _ _ stats rs2).
  - destruct (process_record _ _ _ stats r) as [w [stats1 | e]]; [| reflexivity].
    rewrite IH.
    destruct (process_records _ _ _ stats1 rs1) as [w1 [stats2 | e]].
    + destruct (process_records _ _ _ stats2 rs2). now rewrite app_assoc.
    + reflexivity.
Qed.

(** An invariant of the iterations holds when the loop ends. *)
Lemma process_records_invariant (I : list SellerStat -> Prop)
  (rs : list PurchaseRecord) :
  (forall stats r w stats', r ∈ rs -> I stats ->
     process_record calcRevenue sellerIndex productIndex stats r = (w, Ok stats') ->
     I stats') ->
  forall stats w stats', I stats ->
    process_records calcRevenue sellerIndex productIndex stats rs = (w, Ok stats') ->
    I stats'.
Proof.
  induction rs as [| r rs IH]; intros Hstep stats w stats' HI; simpl.
  - now intros [= _ <-].
  - destruct (process_record _ _ _ stats r) as [w1 [stats1 | e]] eqn:E;
      [| discriminate].
    destruct (process_records _ _ _ stats1 rs) as [w2 res] eqn:E2.
    intros [= _ ->]. eapply IH; [| | exact E2].
    + intros s r' w' s' Hr'. apply Hstep. now apply list_elem_of_further.
    + eapply Hstep; [apply list_elem_of_here | exact HI | exact E].
Qed.

Lemma process_records_ids (rs : list PurchaseRecord) (stats stats' : list SellerStat) w :
  process_records calcRevenue sellerIndex productIndex stats rs = (w, Ok stats') ->
  map stat_id stats' = map stat_id stats.
Proof.
  apply (process_records_invariant (fun s => map stat_id s = map stat_id stats));
    [| reflexivity].
  intros s r w' s' _ Hs Hstep. rewrite <- Hs. eapply process_record_ids, Hstep.
Qed.

(** The loop does not throw on records that validation accepted. *)
Lemma process_records_valid (rs : list PurchaseRecord) (stats : list SellerStat) :
  Forall (fun r => purchase_invalid r = false) rs ->
  exists w stats',
    process_records calcRevenue sellerIndex productIndex stats rs = (w, Ok stats').
Proof.
  intros H. revert stats. induction H as [| r rs Hr _ IH]; intros stats; simpl;
    [eauto |].
  destruct (process_record_valid stats r Hr) as (l & _ & ->).
  destruct (found_truthy (seller_lookup sellerIndex r)).
  - destruct (find_stat _ stats) as [[k st] |]; cbn zeta.
    + destruct (IH (<[k := fst (process_items calcRevenue productIndex
                                  (add_sale st r) l)]> stats)) as (w & s & ->).
      eauto.
    + destruct (IH stats) as (w & s & ->). eauto.
  - destruct (IH stats) as (w & s & ->). eauto.
Qed.
End AccumulateFacts.

(** ** The seller index and the accumulators *)

Lemma strict_eq_refl (v : prim) : truthy v = true -> strict_eq v v = true.
Proof.
  destruct v as [| | b | [| | | q] | s]; simpl; try discriminate; try reflexivity.
  - now destruct b.
  - intros _. apply Qeq_bool_iff. reflexivity.
  - intros _. apply String.eqb_refl.
Qed.

Lemma hasInvalidSellers_false (ss : list Seller) :
  hasInvalidSellers ss = false <-> Forall (fun s => seller_invalid s = false) ss.
Proof.
  unfold hasInvalidSellers. induction ss as [| s ss IH]; simpl.
  - split; [constructor | reflexivity].
  - rewrite orb_false_iff, Forall_cons, IH. reflexivity.
Qed.

Lemma seller_valid_id (s : Seller) : seller_invalid s = false -> truthy (id s) = true.
Proof.
  unfold seller_invalid.
  now intros [[H%negb_false_iff _]%orb_false_iff _]%orb_false_iff.
Qed.

(** Every entry of the index is a seller of the input, filed under the key
    of its id. *)
Lemma index_sellers_sound (ss : list Seller) (m m' : gmap string Seller) k s :
  index_sellers m ss = Ok m' -> m' !! k = Some s ->
  m !! k = Some s \/ (s ∈ ss /\ key_of (id s) = k).
Proof.
  revert m. induction ss as [| a ss IH]; intros m; simpl.
  - intros [= ->]. auto.
  - destruct (seller_invalid a); [discriminate |]. intros H Hk.
    destruct (IH _ H Hk) as [Hm | [Hin Hkey]].
    + rewrite lookup_insert in Hm. case_decide as E.
      * injection Hm as <-. right. split; [apply list_elem_of_here | exact E].
      * now left.
    + right. split; [now apply list_elem_of_further | exact Hkey].
Qed.

(** Every seller of the input has its key in the index. *)
Lemma index_sellers_complete (ss : list Seller) (m m' : gmap string Seller) k :
  index_sellers m ss = Ok m' ->
  (is_Some (m !! k) \/ exists s, s ∈ ss /\ key_of (id s) = k) ->
  is_Some (m' !! k).
Proof.
  revert m. induction ss as [| a ss IH]; intros m; simpl.
  - intros [= ->] [H | (s & Hs & _)]; [exact H | inversion Hs].
  - destruct (seller_invalid a); [discriminate |]. intros H Hk.
    apply (IH _ H). rewrite lookup_insert.
    destruct Hk as [Hm | (s & Hs & Hkey)].
    + left. case_decide; [eauto | exact Hm].
    + apply elem_of_cons in Hs as [-> | Hs].
      * left. rewrite decide_True by exact Hkey. eauto.
      * right. eauto.
Qed.

Lemma find_stat_known (ss : list Seller) (stats : list SellerStat) (s : Seller) :
  hasInvalidSellers ss = false ->
  map stat_id stats = map id ss ->
  s ∈ ss ->
  exists k st, find_stat (Entry s) stats = Some (k, st).
Proof.
  intros Hss Hids Hs.
  assert (In (id s) (map stat_id stats)) as Hin.
  { rewrite Hids. apply in_map. now apply list_elem_of_In. }
  apply in_map_iff in Hin as (st & Hst & Hin). apply list_elem_of_In in Hin.
  assert (strict_eq (stat_id st) (id s) = true) as Heq.
  { rewrite Hst. apply strict_eq_refl, seller_valid_id.
    apply hasInvalidSellers_false in Hss. rewrite Forall_forall in Hss.
    now apply Hss. }
  destruct (list_find_elem_of (fun x => strict_eq (stat_id x) (id s) = true)
              stats st Hin Heq) as [[k st'] H].
  exists k, st'. exact H.
Qed.

Lemma strict_eq_undefined (v : prim) : strict_eq v PUndefined = true -> v = PUndefined.
Proof. now destruct v. Qed.

(** No accumulator has the id [undefined], which is what [seller.id] is
    when the read of the index found something that is not a seller. *)
Lemma find_stat_undefined (ss : list Seller) (stats : list SellerStat)
  (x : found Seller) :
  hasInvalidSellers ss = false ->
  map stat_id stats = map id ss ->
  found_prop id x = PUndefined ->
  find_stat x stats = None.
Proof.
  intros Hss Hids Hx. unfold find_stat. rewrite Hx.
  apply list_find_None, Forall_forall. intros st Hst Heq.
  apply strict_eq_undefined in Heq.
  assert (In (stat_id st) (map id ss)) as Hin.
  { rewrite <- Hids. apply in_map. now apply list_elem_of_In. }
  apply in_map_iff in Hin as (s & Hs & Hin). apply list_elem_of_In in Hin.
  apply hasInvalidSellers_false in Hss. rewrite Forall_forall in Hss.
  pose proof (seller_valid_id s (Hss s Hin)) as Ht.
  rewrite Hs, Heq in Ht. discriminate.
Qed.

Lemma init_stats_ids (ss : list Seller) : map stat_id (init_stats ss) = map id ss.
Proof. unfold init_stats. rewrite map_map. reflexivity. Qed.

Lemma init_stats_count (ss : list Seller) :
  sum_list_with sales_count (init_stats ss) = 0.
Proof. induction ss as [| a l IH]; simpl; [reflexivity | exact IH]. Qed.

Section Credited.
Variable calcRevenue : Purchase -> found Product -> num.
Variable sellerIndex : gmap string Seller.
Variable productIndex : gmap string Product.
Variable ss : list Seller.
Hypothesis Hindex : index_sellers ∅ ss = Ok sellerIndex.
Hypothesis Hsellers : hasInvalidSellers ss = false.

Lemma index_entry_seller k s : sellerIndex !! k = Some s -> s ∈ ss.
Proof.
  intros H. destruct (index_sellers_sound ss ∅ sellerIndex k s Hindex H) as [E | [E _]].
  - now rewrite lookup_empty in E.
  - exact E.
Qed.

(** A record is credited to an accumulator exactly when its seller is in
    the index. *)
Lemma credited_to_known (stats : list SellerStat) (r : PurchaseRecord) :
  map stat_id stats = map id ss ->
  known_seller sellerIndex r = true <-> is_Some (credited_to sellerIndex stats r).
Proof.
  intros Hids. unfold known_seller, credited_to, seller_lookup.
  destruct (sellerIndex !! key_of (seller_id r)) as [s |] eqn:E.
  - rewrite (index_get_own seller_property _ _ _ E). cbn [found_truthy].
    destruct (find_stat_known ss stats s Hsellers Hids (index_entry_seller _ _ E))
      as (k & st & ->).
    simpl. split; eauto.
  - rewrite (find_stat_undefined ss stats _ Hsellers Hids
               (index_get_other seller_property _ _ id E)).
    split; [discriminate |]. destruct (found_truthy _); intros [? ?]; discriminate.
Qed.


Lemma credited_to_ids (stats stats' : list SellerStat) (r : PurchaseRecord) :
  map stat_id stats = map stat_id stats' ->
  credited_to sellerIndex stats r = credited_to sellerIndex stats' r.
Proof.
  intros H. unfold credited_to.
  destruct (found_truthy _); [| reflexivity].
  now apply find_stat_ids.
Qed.

(** One iteration on an accepted record, in terms of the accumulator the
    record is credited to. *)
Lemma process_record_credited (stats : list SellerStat) (r : PurchaseRecord) :
  purchase_invalid r = false ->
  match credited_to sellerIndex stats r with
  | Some k =>
      exists st l, stats !! k = Some st /\ items r = ItemsArray l /\
        process_record calcRevenue sellerIndex productIndex stats r
        = (snd (process_items calcRevenue productIndex (add_sale st r) l),
           Ok (<[k := fst (process_items calcRevenue productIndex
                             (add_sale st r) l)]> stats))
  | None =>
      process_record calcRevenue sellerIndex productIndex stats r
      = (seller_warning sellerIndex r, Ok stats)
  end.
Proof.
  intros Hr.
  destruct (process_record_valid calcRevenue sellerIndex productIndex stats r Hr)
    as (l & Hl & ->).
  unfold credited_to, seller_warning.
  destruct (found_truthy (seller_lookup sellerIndex r)); [| reflexivity].
  destruct (find_stat _ stats) as [[k st] |] eqn:F; simpl; [| reflexivity].
  apply find_stat_Some in F as [F _]. eauto.
Qed.

Lemma sum_insert (stats : list SellerStat) k st st' :
  stats !! k = Some st ->
  sum_list_with sales_count (<[k := st']> stats) + sales_count st
  = sum_list_with sales_count stats + sales_count st'.
Proof.
  revert k. induction stats as [| a l IH]; intros [| k] H; simpl in *;
    try discriminate.
  - injection H as ->. lia.
  - specialize (IH k H). lia.
Qed.

Lemma process_record_count (stats stats' : list SellerStat) (r : PurchaseRecord) w :
  purchase_invalid r = false ->
  map stat_id stats = map id ss ->
  process_record calcRevenue sellerIndex productIndex stats r = (w, Ok stats') ->
  sum_list_with sales_count stats'
  = sum_list_with sales_count stats + (if known_seller sellerIndex r then 1 else 0).
Proof.
  intros Hr Hids. pose proof (process_record_credited stats r Hr) as H.
  pose proof (credited_to_known stats r Hids) as Hk.
  destruct (credited_to sellerIndex stats r) as [k |].
  - destruct H as (st & l & Hst & Hl & ->). intros [= _ <-].
    rewrite (proj2 Hk) by eauto.
    pose proof (process_items_account calcRevenue productIndex l (add_sale st r))
      as (_ & _ & _ & Hc & _).
    pose proof (sum_insert stats k st
                  (fst (process_items calcRevenue productIndex (add_sale st r) l))
                  Hst) as Hsum.
    rewrite <- Hc in Hsum. simpl in Hsum. lia.
  - rewrite H. intros [= _ <-].
    destruct (known_seller sellerIndex r); [| lia].
    destruct (proj1 Hk eq_refl) as [? ?]. discriminate.
Qed.

Lemma process_records_count (rs : list PurchaseRecord) (stats stats' : list SellerStat) w :
  Forall (fun r => purchase_invalid r = false) rs ->
  map stat_id stats = map id ss ->
  process_records calcRevenue sellerIndex productIndex stats rs = (w, Ok stats') ->
  sum_list_with sales_count stats'
  = sum_list_with sales_count stats
    + length (List.filter (known_seller sellerIndex) rs).
Proof.
  intros Hrs. revert stats w. induction Hrs as [| r rs Hr _ IH]; intros stats w Hids;
    simpl.
  - intros [= _ <-]. lia.
  - destruct (process_record _ _ _ stats r) as [w1 [stats1 | e]] eqn:E;
      [| discriminate].
    destruct (process_records _ _ _ stats1 rs) as [w2 res] eqn:E2.
    intros [= _ ->].
    pose proof (process_record_count stats stats1 r w1 Hr Hids E) as H1.
    assert (map stat_id stats1 = map id ss) as Hids1.
    { rewrite <- Hids. eapply process_record_ids, E. }
    pose proof (IH stats1 w2 Hids1 E2) as H2.
    destruct (known_seller sellerIndex r); simpl; lia.
Qed.
End Credited.

(** ** Ranking, bonuses and the result *)

Lemma rank_perm (stats : list SellerStat) : Permutation (rank stats) stats.
Proof. apply js_sort_perm. Qed.

Lemma by_profit_by_key : by_profit = by_key profit.
Proof. reflexivity. Qed.

Lemma format_stat_Ok (st : SellerStat) (o : Output) :
  format_stat st = Ok o ->
  exists x, revenue st = PNum x /\
    o = {| out_seller_id := stat_id st;
           out_name := name st;
           out_revenue := toFixed2 x;
           out_profit := toFixed2 (profit st);
           out_sales_count := sales_count st;
           out_top_products := top_products st;
           out_bonus := toFixed2 (bonus st) |}.
Proof.
  unfold format_stat. destruct (revenue st) as [| | b | x | t]; try discriminate.
  simpl. intros [= <-]. eauto.
Qed.

Lemma format_stat_string (st : SellerStat) :
  is_number (revenue st) = false -> format_stat st = Throw TypeError.
Proof.
  unfold format_stat. now destruct (revenue st) as [| | b | x | t].
Qed.

Lemma format_all_Ok (l : list SellerStat) (out : list Output) :
  format_all l = Ok out -> Forall2 (fun st o => format_stat st = Ok o) l out.
Proof.
  revert out. induction l as [| st l IH]; intros out; simpl.
  - intros [= <-]. constructor.
  - destruct (format_stat st) as [o | e] eqn:E; [| discriminate]. cbn [bind].
    destruct (format_all l) as [os | e]; [| discriminate]. cbn [bind].
    intros [= <-]. constructor; [exact E | now apply IH].
Qed.

Lemma format_all_numbers (l : list SellerStat) :
  Forall (fun st => is_number (revenue st) = true) l ->
  exists out, format_all l = Ok out.
Proof.
  induction 1 as [| st l Hst _ [out IH]]; simpl; [eauto |].
  unfold format_stat. destruct (revenue st); try discriminate.
  cbn [call_toFixed2 bind]. rewrite IH. cbn [bind]. eauto.
Qed.

Lemma format_all_throws (l : list SellerStat) (st : SellerStat) :
  st ∈ l -> is_number (revenue st) = false -> format_all l = Throw TypeError.
Proof.
  induction 1 as [st l | st a l _ IH]; intros H; simpl.
  - now rewrite (format_stat_string st H).
  - destruct (format_stat a) as [o | e] eqn:E.
    + cbn [bind]. now rewrite (IH H).
    + cbn [bind]. unfold format_stat in E.
      destruct (revenue a); simpl in E; congruence.
Qed.

Lemma assign_bonuses_lookup (g : Z -> Z -> SellerStat -> num)
  (l : list SellerStat) (i : nat) :
  assign_bonuses g l !! i = assign_bonus g (length l) i <$> l !! i.
Proof. unfold assign_bonuses. apply list_lookup_imap. Qed.

Lemma map_imap_same {B : Type} (h : SellerStat -> B)
  (f : nat -> SellerStat -> SellerStat) (l : list SellerStat) :
  (forall i x, h (f i x) = h x) -> map h (imap f l) = map h l.
Proof.
  revert f. induction l as [| a l IH]; intros f H; simpl; [reflexivity |].
  rewrite H. f_equal. apply IH. intros i x. apply H.
Qed.

Lemma Forall2_map_eq {A B C : Type} (R : A -> B -> Prop) (f : A -> C) (g : B -> C)
  (l : list A) (k : list B) :
  (forall a b, R a b -> f a = g b) -> Forall2 R l k -> map f l = map g k.
Proof.
  intros H. induction 1 as [| a b l k Hab _ IH]; simpl; [reflexivity |].
  now rewrite (H a b Hab), IH.
Qed.

Lemma sum_list_with_map {A : Type} (f : A -> nat) (l : list A) :
  sum_list_with f l = sum_list (map f l).
Proof. induction l as [| a l IH]; simpl; congruence. Qed.

(** The fields the result copies from the ranked accumulators. *)
Lemma finish_copies (g : Z -> Z -> SellerStat -> num)
  (stats : list SellerStat) (out : list Output) :
  finish g stats = Ok out ->
  map out_seller_id out = map stat_id (rank stats)
  /\ map out_name out = map name (rank stats)
  /\ map out_sales_count out = map sales_count (rank stats)
  /\ map out_profit out = map (fun st => toFixed2 (profit st)) (rank stats).
Proof.
  unfold finish. intros H%format_all_Ok.
  repeat split.
  - rewrite <- (map_imap_same stat_id (assign_bonus g (length (rank stats)))
                  (rank stats)) by reflexivity.
    symmetry. eapply Forall2_map_eq; [| exact H].
    intros st o (x & _ & ->)%format_stat_Ok. reflexivity.
  - rewrite <- (map_imap_same name (assign_bonus g (length (rank stats)))
                  (rank stats)) by reflexivity.
    symmetry. eapply Forall2_map_eq; [| exact H].
    intros st o (x & _ & ->)%format_stat_Ok. reflexivity.
  - rewrite <- (map_imap_same sales_count (assign_bonus g (length (rank stats)))
                  (rank stats)) by reflexivity.
    symmetry. eapply Forall2_map_eq; [| exact H].
    intros st o (x & _ & ->)%format_stat_Ok. reflexivity.
  - rewrite <- (map_imap_same (fun st => toFixed2 (profit st))
                  (assign_bonus g (length (rank stats))) (rank stats)) by reflexivity.
    symmetry. eapply Forall2_map_eq; [| exact H].
    intros st o (x & _ & ->)%format_stat_Ok. reflexivity.
Qed.

(** ** The call as a whole *)

(** After a successful validation the call builds both indexes, runs the
    accumulation loop to its end and hands the accumulators to the last
    three phases. *)
Lemma analyze_valid (data : option Dataset) (options : option Options)
  ss ps rs f g :
  validate data options = Ok (ss, ps, rs, (f, g)) ->
  exists sellerIndex productIndex w stats,
    index_sellers ∅ ss = Ok sellerIndex
    /\ index_products ∅ ps = Ok productIndex
    /\ process_records f sellerIndex productIndex (init_stats ss) rs = (w, Ok stats)
    /\ accumulate f ss ps rs = (w, Ok stats)
    /\ analyzeSalesData data options = (w, finish g stats).
Proof.
  intros Hv. pose proof (validate_Ok _ _ _ _ _ _ _ Hv)
    as (_ & _ & _ & _ & Hs & Hp & Hrs & _).
  destruct (index_sellers_valid ss ∅ Hs) as [sidx Hsi].
  destruct (index_products_valid ps ∅ Hp) as [pidx Hpi].
  apply hasInvalidPurchases_false in Hrs.
  destruct (process_records_valid f sidx pidx rs (init_stats ss) Hrs)
    as (w & stats & Hpr).
  exists sidx, pidx, w, stats.
  assert (accumulate f ss ps rs = (w, Ok stats)) as Hacc.
  { unfold accumulate. now rewrite Hsi, Hpi. }
  repeat (split; [assumption |]).
  unfold analyzeSalesData. now rewrite Hv, Hacc.
Qed.

Lemma known_seller_iff (ss : list Seller) (sellerIndex : gmap string Seller)
  (r : PurchaseRecord) :
  index_sellers ∅ ss = Ok sellerIndex ->
  known_seller sellerIndex r = true
  <-> exists s, s ∈ ss /\ key_of (id s) = key_of (seller_id r).
Proof.
  intros Hi. unfold known_seller. split.
  - destruct (sellerIndex !! key_of (seller_id r)) as [s |] eqn:E; [| discriminate].
    intros _. exists s.
    destruct (index_sellers_sound ss ∅ sellerIndex _ s Hi E) as [H | H]; [| exact H].
    now rewrite lookup_empty in H.
  - intros H.
    destruct (index_sellers_complete ss ∅ sellerIndex (key_of (seller_id r)) Hi
                (or_intror H)) as [s ->].
    reflexivity.
Qed.

(** C8.  When the call returns, the [sales_count] fields of the result add
    up to the number of purchase records whose [seller_id] is a key of the
    seller index, that is, the key of the id of some seller. *)
Theorem sales_count_sum (data : option Dataset) (options : option Options)
  ss ps rs f g w out :
  validate data options = Ok (ss, ps, rs, (f, g)) ->
  analyzeSalesData data options = (w, Ok out) ->
  exists sellerIndex,
    index_sellers ∅ ss = Ok sellerIndex
    /\ sum_list_with out_sales_count out
       = length (List.filter (known_seller sellerIndex) rs)
    /\ forall r, known_seller sellerIndex r = true
                 <-> exists s, s ∈ ss /\ key_of (id s) = key_of (seller_id r).
Proof.
  intros Hv Ha.
  destruct (analyze_valid _ _ _ _ _ _ _ Hv)
    as (sidx & pidx & w' & stats & Hsi & _ & Hpr & _ & Ha').
  rewrite Ha' in Ha. injection Ha as -> Hfin.
  pose proof (validate_Ok _ _ _ _ _ _ _ Hv) as (_ & _ & _ & _ & Hs & _ & Hrs & _).
  exists sidx. split; [exact Hsi |]. split; [| intros r; now apply known_seller_iff].
  apply hasInvalidPurchases_false in Hrs.
  pose proof (process_records_count f sidx pidx ss Hsi Hs rs _ _ _ Hrs
                (init_stats_ids ss) Hpr) as Hcount.
  rewrite init_stats_count in Hcount. simpl in Hcount. rewrite <- Hcount.
  destruct (finish_copies g stats out Hfin) as (_ & _ & Hc & _).
  rewrite (sum_list_with_map out_sales_count), Hc, <- sum_list_with_map.
  now rewrite (rank_perm stats).
Qed.

(** C9, as amended.  The accumulators stand in one-to-one correspondence
    with the entries of the input sellers list: accumulator [i] carries the
    id of seller [i], and the ids of the result are a permutation of the ids
    of the input.  They are pairwise distinct exactly when the ids of the
    input are. *)
Theorem accumulators_follow_sellers (data : option Dataset)
  (options : option Options) ss ps rs f g :
  validate data options = Ok (ss, ps, rs, (f, g)) ->
  exists w stats,
    accumulate f ss ps rs = (w, Ok stats)
    /\ map stat_id stats = map id ss
    /\ forall w' out, analyzeSalesData data options = (w', Ok out) ->
         Permutation (map out_seller_id out) (map id ss)
         /\ (NoDup (map out_seller_id out) <-> NoDup (map id ss)).
Proof.
  intros Hv.
  destruct (analyze_valid _ _ _ _ _ _ _ Hv)
    as (sidx & pidx & w & stats & _ & _ & Hpr & Hacc & Ha).
  exists w, stats. split; [exact Hacc |].
  assert (map stat_id stats = map id ss) as Hids.
  { rewrite <- init_stats_ids. eapply process_records_ids, Hpr. }
  split; [exact Hids |].
  intros w' out Hout. rewrite Ha in Hout. injection Hout as _ Hfin.
  destruct (finish_copies g stats out Hfin) as (Hc & _).
  assert (Permutation (map out_seller_id out) (map id ss)) as Hperm.
  { rewrite Hc, <- Hids. apply Permutation_map, rank_perm. }
  split; [exact Hperm |]. now rewrite Hperm.
Qed.

(** ** The type of the accumulated revenue *)

Lemma js_add_number (a b : prim) :
  is_number a = true -> adds_as_number b = true -> is_number (js_add a b) = true.
Proof. destruct a, b; simpl; congruence. Qed.

Lemma js_add_string_l (a b : prim) :
  is_string a = true -> is_string (js_add a b) = true.
Proof. destruct a; simpl; congruence. Qed.

Lemma js_add_string_r (a b : prim) :
  is_string b = true -> is_string (js_add a b) = true.
Proof. destruct a, b; simpl; congruence. Qed.

Lemma js_add_undefined (x : num) : js_add (PNum x) PUndefined = PNum NaN.
Proof. simpl. now destruct x. Qed.

Lemma is_string_not_number (v : prim) : is_string v = true -> is_number v = false.
Proof. now destruct v. Qed.

Section Revenue.
Variable calcRevenue : Purchase -> found Product -> num.
Variable sellerIndex : gmap string Seller.
Variable productIndex : gmap string Product.

Lemma credited_lookup (stats : list SellerStat) (r : PurchaseRecord) k :
  credited_to sellerIndex stats r = Some k -> exists st, stats !! k = Some st.
Proof.
  unfold credited_to.
  destruct (found_truthy _); [| discriminate].
  destruct (find_stat _ stats) as [[k' st] |] eqn:F; [| discriminate].
  simpl. intros [= <-]. apply find_stat_Some in F as [F _]. eauto.
Qed.

Lemma process_record_revenue (stats stats' : list SellerStat) (r : PurchaseRecord) w k st :
  purchase_invalid r = false ->
  credited_to sellerIndex stats r = Some k -> stats !! k = Some st ->
  process_record calcRevenue sellerIndex productIndex stats r = (w, Ok stats') ->
  exists st', stats' = <[k := st']> stats
              /\ revenue st' = js_add (revenue st) (total_amount r)
              /\ sales_count st' = sales_count st + 1
              /\ stat_id st' = stat_id st /\ name st' = name st.
Proof.
  intros Hr Hk Hst.
  destruct (process_record_valid calcRevenue sellerIndex productIndex stats r Hr)
    as (l & _ & ->).
  unfold credited_to in Hk.
  destruct (found_truthy _); [| discriminate].
  destruct (find_stat _ stats) as [[k' st0] |] eqn:F; [| discriminate].
  simpl in Hk. injection Hk as ->. apply find_stat_Some in F as [F _].
  rewrite Hst in F. injection F as <-. cbn zeta. intros [= _ <-].
  pose proof (process_items_account calcRevenue productIndex l (add_sale st r))
    as (H1 & H2 & H3 & H4 & _).
  eexists. split; [reflexivity |]. simpl in *. repeat split; congruence.
Qed.

Lemma process_record_skipped (stats stats' : list SellerStat) (r : PurchaseRecord) w :
  purchase_invalid r = false ->
  credited_to sellerIndex stats r = None ->
  process_record calcRevenue sellerIndex productIndex stats r = (w, Ok stats') ->
  stats' = stats.
Proof.
  intros Hr Hk.
  destruct (process_record_valid calcRevenue sellerIndex productIndex stats r Hr)
    as (l & _ & ->).
  unfold credited_to in Hk.
  destruct (found_truthy _); [| congruence].
  destruct (find_stat _ stats) as [[k' st0] |] eqn:F; [discriminate | congruence].
Qed.

Lemma process_record_numbers (stats stats' : list SellerStat) (r : PurchaseRecord) w :
  purchase_invalid r = false ->
  (is_Some (credited_to sellerIndex stats r) ->
   adds_as_number (total_amount r) = true) ->
  Forall (fun st => is_number (revenue st) = true) stats ->
  process_record calcRevenue sellerIndex productIndex stats r = (w, Ok stats') ->
  Forall (fun st => is_number (revenue st) = true) stats'.
Proof.
  intros Hr Ht Hall Hstep.
  destruct (credited_to sellerIndex stats r) as [k |] eqn:Hk.
  - destruct (credited_lookup stats r k Hk) as [st Hst].
    destruct (process_record_revenue _ _ r w k st Hr Hk Hst Hstep)
      as (st' & -> & Hrev & _).
    apply Forall_insert; [exact Hall |]. rewrite Hrev.
    apply js_add_number; [| apply Ht; eauto].
    rewrite Forall_forall in Hall. apply Hall.
    apply list_elem_of_lookup. eauto.
  - now rewrite (process_record_skipped _ _ r w Hr Hk Hstep).
Qed.

(** Once a revenue is a text it stays one. *)
Lemma process_record_text_stays (stats stats' : list SellerStat) (r : PurchaseRecord) w :
  purchase_invalid r = false ->
  Exists (fun st => is_string (revenue st) = true) stats ->
  process_record calcRevenue sellerIndex productIndex stats r = (w, Ok stats') ->
  Exists (fun st => is_string (revenue st) = true) stats'.
Proof.
  intros Hr Hex Hstep.
  destruct (credited_to sellerIndex stats r) as [k |] eqn:Hk.
  - destruct (credited_lookup stats r k Hk) as [st Hst].
    destruct (process_record_revenue _ _ r w k st Hr Hk Hst Hstep)
      as (st' & -> & Hrev & _).
    apply Exists_exists in Hex as (x & Hx & Hsx).
    apply list_elem_of_lookup in Hx as [j Hj].
    apply Exists_exists. destruct (decide (j = k)) as [-> | Hne].
    + exists st'. split.
      * apply list_elem_of_lookup. exists k.
        apply list_lookup_insert_eq. now apply lookup_lt_Some in Hst.
      * rewrite Hrev. apply js_add_string_l. congruence.
    + exists x. split; [| exact Hsx].
      apply list_elem_of_lookup. exists j.
      now rewrite list_lookup_insert_ne by congruence.
  - now rewrite (process_record_skipped _ _ r w Hr Hk Hstep).
Qed.

Lemma process_record_text_starts (stats stats' : list SellerStat) (r : PurchaseRecord) w k :
  purchase_invalid r = false ->
  credited_to sellerIndex stats r = Some k ->
  is_string (total_amount r) = true ->
  process_record calcRevenue sellerIndex productIndex stats r = (w, Ok stats') ->
  Exists (fun st => is_string (revenue st) = true) stats'.
Proof.
  intros Hr Hk Ht Hstep.
  destruct (credited_lookup stats r k Hk) as [st Hst].
  destruct (process_record_revenue _ _ r w k st Hr Hk Hst Hstep)
    as (st' & -> & Hrev & _).
  apply Exists_exists. exists st'. split.
  - apply list_elem_of_lookup. exists k.
    apply list_lookup_insert_eq. now apply lookup_lt_Some in Hst.
  - rewrite Hrev. now apply js_add_string_r.
Qed.

Variable ss : list Seller.
Hypothesis Hindex : index_sellers ∅ ss = Ok sellerIndex.
Hypothesis Hsellers : hasInvalidSellers ss = false.

(** The revenues stay numbers when every [total_amount] that is added
    adds as a number. *)
Lemma process_records_numbers (rs : list PurchaseRecord)
  (stats stats' : list SellerStat) w :
  Forall (fun r => purchase_invalid r = false) rs ->
  totals_numeric sellerIndex rs ->
  map stat_id stats = map id ss ->
  Forall (fun st => is_number (revenue st) = true) stats ->
  process_records calcRevenue sellerIndex productIndex stats rs = (w, Ok stats') ->
  Forall (fun st => is_number (revenue st) = true) stats'.
Proof.
  intros Hrs Ht Hids Hall Hpr.
  apply (process_records_invariant calcRevenue sellerIndex productIndex
           (fun s => map stat_id s = map id ss
                     /\ Forall (fun st => is_number (revenue st) = true) s) rs)
    in Hpr as [_ H]; [exact H | | now split].
  intros s r w' s' Hin [Hs1 Hs2] Hstep. rewrite Forall_forall in Hrs. split.
  - rewrite <- Hs1. eapply process_record_ids, Hstep.
  - eapply process_record_numbers; [apply Hrs, Hin | | exact Hs2 | exact Hstep].
    intros Hc. apply (Ht r Hin).
    now apply (credited_to_known sellerIndex ss Hindex Hsellers s r Hs1).
Qed.

(** A text that is added to a revenue makes it a text for good. *)
Lemma process_records_text (rs : list PurchaseRecord)
  (stats stats' : list SellerStat) w :
  Forall (fun r => purchase_invalid r = false) rs ->
  some_total_is_text sellerIndex rs ->
  map stat_id stats = map id ss ->
  process_records calcRevenue sellerIndex productIndex stats rs = (w, Ok stats') ->
  Exists (fun st => is_string (revenue st) = true) stats'.
Proof.
  intros Hrs (r & Hr & Hk & Ht) Hids Hpr.
  apply list_elem_of_split in Hr as (rs1 & rs2 & ->).
  rewrite process_records_app in Hpr.
  destruct (process_records _ _ _ stats rs1) as [w1 [stats1 | e]] eqn:E1;
    [| discriminate].
  simpl in Hpr.
  destruct (process_record _ _ _ stats1 r) as [wr [stats2 | e]] eqn:E2;
    [| discriminate].
  destruct (process_records _ _ _ stats2 rs2) as [w2 res] eqn:E3.
  injection Hpr as _ ->.
  apply Forall_app in Hrs as [_ Hrs]. apply Forall_cons in Hrs as [Hvr Hrs2].
  assert (map stat_id stats1 = map id ss) as Hids1.
  { rewrite <- Hids. eapply process_records_ids, E1. }
  destruct (proj1 (credited_to_known sellerIndex ss Hindex Hsellers stats1 r Hids1) Hk)
    as [k Hck].
  pose proof (process_record_text_starts _ _ r wr k Hvr Hck Ht E2) as Hex.
  revert Hex E3.
  apply (process_records_invariant calcRevenue sellerIndex productIndex
           (Exists (fun st => is_string (revenue st) = true)) rs2).
  intros s r' w' s' Hin Hs' Hstep. rewrite Forall_forall in Hrs2.
  eapply process_record_text_stays; [apply Hrs2, Hin | exact Hs' | exact Hstep].
Qed.
End Revenue.

Lemma init_stats_numbers (ss : list Seller) :
  Forall (fun st => is_number (revenue st) = true) (init_stats ss).
Proof. unfold init_stats. induction ss; simpl; constructor; auto. Qed.

Lemma assign_bonuses_revenue (g : Z -> Z -> SellerStat -> num) (l : list SellerStat) :
  map revenue (assign_bonuses g l) = map revenue l.
Proof. unfold assign_bonuses. now apply map_imap_same. Qed.

(** The last three phases return when every accumulated revenue is a
    number, and throw a [TypeError] otherwise. *)
Lemma finish_numbers (g : Z -> Z -> SellerStat -> num) (stats : list SellerStat) :
  Forall (fun st => is_number (revenue st) = true) stats ->
  exists out, finish g stats = Ok out /\ length out = length stats.
Proof.
  intros H. unfold finish.
  assert (Forall (fun st => is_number (revenue st) = true)
            (assign_bonuses g (rank stats))) as H'.
  { apply Forall_forall. intros st Hst.
    assert (In (revenue st) (map revenue (assign_bonuses g (rank stats)))) as Hin.
    { apply in_map. now apply list_elem_of_In. }
    rewrite assign_bonuses_revenue in Hin.
    apply in_map_iff in Hin as (st0 & E & Hin). rewrite <- E.
    rewrite Forall_forall in H. apply H.
    rewrite <- (rank_perm stats). now apply list_elem_of_In. }
  destruct (format_all_numbers _ H') as [out Hout].
  exists out. split; [exact Hout |].
  apply format_all_Ok in Hout. apply Forall2_length in Hout.
  rewrite <- Hout. unfold assign_bonuses. rewrite length_imap.
  apply Permutation_length, rank_perm.
Qed.

Lemma finish_text (g : Z -> Z -> SellerStat -> num) (stats : list SellerStat) :
  Exists (fun st => is_string (revenue st) = true) stats ->
  finish g stats = Throw TypeError.
Proof.
  intros (st & Hst & Hs)%Exists_exists. unfold finish.
  assert (In (revenue st) (map revenue (assign_bonuses g (rank stats)))) as Hin.
  { rewrite assign_bonuses_revenue. apply in_map.
    apply list_elem_of_In. now rewrite (rank_perm stats). }
  apply in_map_iff in Hin as (st' & E & Hin). apply list_elem_of_In in Hin.
  apply (format_all_throws _ st' Hin). rewrite E. now apply is_string_not_number.
Qed.

Lemma init_stats_lookup (ss : list Seller) (k : nat) (s : Seller) :
  ss !! k = Some s -> init_stats ss !! k = Some (init_stat s).
Proof.
  revert k. induction ss as [| a l IH]; intros [| k] H; simpl in *; try discriminate.
  - now injection H as ->.
  - now apply IH.
Qed.

Lemma top_products_of_nil : top_products_of [] = [].
Proof. reflexivity. Qed.

(** The record the result holds at position [i] is the formatting of the
    accumulator ranked [i] with its bonus and top products. *)
Lemma finish_lookup (g : Z -> Z -> SellerStat -> num) (stats : list SellerStat)
  (out : list Output) (i : nat) (st : SellerStat) :
  finish g stats = Ok out ->
  rank stats !! i = Some st ->
  exists o, out !! i = Some o
            /\ format_stat (assign_bonus g (length stats) i st) = Ok o.
Proof.
  unfold finish. intros H%format_all_Ok Hi.
  assert (assign_bonuses g (rank stats) !! i
          = Some (assign_bonus g (length stats) i st)) as Ha.
  { rewrite assign_bonuses_lookup, Hi. simpl.
    now rewrite (Permutation_length (rank_perm stats)). }
  destruct (Forall2_lookup_l _ _ _ _ _ H Ha) as (o & Ho & Hf). eauto.
Qed.

(** The result, position by position (lines 200-219). *)
Lemma finish_output (g : Z -> Z -> SellerStat -> num) (stats : list SellerStat)
  (out : list Output) :
  finish g stats = Ok out ->
  length out = length stats
  /\ forall n st, rank stats !! n = Some st ->
       exists x, revenue st = PNum x
                 /\ out !! n = Some (output_of g (length stats) n st x).
Proof.
  intros Hfin. split.
  - pose proof Hfin as H. unfold finish in H. apply format_all_Ok in H.
    apply Forall2_length in H. rewrite <- H. unfold assign_bonuses.
    rewrite length_imap. apply Permutation_length, rank_perm.
  - intros n st Hn.
    destruct (finish_lookup g stats out n st Hfin Hn) as (o & Ho & Hf).
    apply format_stat_Ok in Hf as (x & Hx & ->). simpl in Hx.
    exists x. split; [exact Hx |]. exact Ho.
Qed.

Lemma process_records_length (calcRevenue : Purchase -> found Product -> num)
  (sellerIndex : gmap string Seller) (productIndex : gmap string Product)
  (ss : list Seller) (rs : list PurchaseRecord) (stats : list SellerStat) w :
  process_records calcRevenue sellerIndex productIndex (init_stats ss) rs
  = (w, Ok stats) ->
  length stats = length ss.
Proof.
  intros Hpr.
  pose proof (process_records_ids _ _ _ rs _ _ _ Hpr) as Hids.
  rewrite init_stats_ids in Hids.
  apply (f_equal (@length _)) in Hids. now rewrite !length_map in Hids.
Qed.


(** C1, as amended.  Once validation has passed, the index construction and
    the accumulation loop never throw.  The call returns, with one record
    per seller that formats the accumulator of its rank, when the
    [total_amount] of every record of a seller of the index is a number, a
    boolean, [null] or absent.  When one of them is a text, the revenue
    of that seller becomes a text and the formatting of the result throws
    a [TypeError]. *)
Theorem returns_unless_total_is_text (data : option Dataset)
  (options : option Options) ss ps rs f g sellerIndex :
  validate data options = Ok (ss, ps, rs, (f, g)) ->
  index_sellers ∅ ss = Ok sellerIndex ->
  exists w stats,
    accumulate f ss ps rs = (w, Ok stats)
    /\ analyzeSalesData data options = (w, finish g stats)
    /\ (totals_numeric sellerIndex rs ->
        exists out,
          analyzeSalesData data options = (w, Ok out)
          /\ length out = length ss
          /\ forall n st, rank stats !! n = Some st ->
               exists x, revenue st = PNum x
                         /\ out !! n = Some (output_of g (length ss) n st x))
    /\ (some_total_is_text sellerIndex rs ->
        analyzeSalesData data options = (w, Throw TypeError)).
Proof.
  intros Hv Hsi.
  destruct (analyze_valid _ _ _ _ _ _ _ Hv)
    as (sidx & pidx & w & stats & Hsi' & _ & Hpr & Hacc & Ha).
  rewrite Hsi in Hsi'. injection Hsi' as <-.
  pose proof (validate_Ok _ _ _ _ _ _ _ Hv) as (_ & _ & _ & _ & Hs & _ & Hrs & _).
  apply hasInvalidPurchases_false in Hrs.
  pose proof (process_records_length _ _ _ _ _ _ _ Hpr) as Hlen.
  exists w, stats. split; [exact Hacc |]. split; [exact Ha |]. split.
  - intros Ht.
    pose proof (process_records_numbers f sellerIndex pidx ss Hsi Hs rs _ _ w Hrs Ht
                  (init_stats_ids ss) (init_stats_numbers ss) Hpr) as Hnum.
    destruct (finish_numbers g stats Hnum) as (out & Hout & _).
    exists out. split; [now rewrite Ha, Hout |].
    destruct (finish_output g stats out Hout) as [Hl Hpos].
    rewrite <- Hlen. split; [exact Hl | exact Hpos].
  - intros Ht. rewrite Ha. f_equal. apply finish_text.
    exact (process_records_text f sellerIndex pidx ss Hsi Hs rs _ _ w Hrs Ht
             (init_stats_ids ss) Hpr).
Qed.


(** ** Validation does not read [total_amount] *)

Lemma validate_intro (d : Dataset) (o : Options) ss ps rs f g :
  sellers d = Some ss -> products d = Some ps -> purchase_records d = Some rs ->
  ss <> [] -> ps <> [] -> rs <> [] ->
  hasInvalidSellers ss = false -> hasInvalidProducts ps = false ->
  hasInvalidPurchases rs = false -> hasInvalidItems rs = Ok false ->
  calculateRevenue o = Some f -> calculateBonus o = Some g ->
  validate (Some d) (Some o) = Ok (ss, ps, rs, (f, g)).
Proof.
  intros Es Ep Er Hs Hp Hr H1 H2 H3 H4 Ef Eg.
  unfold validate, check_data. rewrite Es, Ep, Er.
  destruct ss as [| s ss]; [congruence |].
  destruct ps as [| p ps]; [congruence |].
  destruct rs as [| r rs]; [congruence |].
  cbn [nonempty_array bind]. rewrite H1, H2, H3. cbn [orb]. rewrite H4.
  cbn [bind]. unfold check_options. now rewrite Ef, Eg.
Qed.

Lemma hasInvalidPurchases_with_total (rs1 rs2 : list PurchaseRecord) r t :
  hasInvalidPurchases (rs1 ++ with_total r t :: rs2)
  = hasInvalidPurchases (rs1 ++ r :: rs2).
Proof. unfold hasInvalidPurchases. now rewrite !existsb_app. Qed.

Lemma hasInvalidItems_with_total (rs1 rs2 : list PurchaseRecord) r t :
  hasInvalidItems (rs1 ++ with_total r t :: rs2) = hasInvalidItems (rs1 ++ r :: rs2).
Proof.
  induction rs1 as [| a rs1 IH]; simpl; [reflexivity |]. now rewrite IH.
Qed.

(** C10.  No phase looks at the presence of [total_amount].  Removing the
    property from a record of an accepted input leaves the input accepted;
    the loop does not skip the record: the accumulator it is credited to
    gets one more sale and its revenue becomes [revenue + undefined], which
    is [NaN] (not the previous revenue) when the revenue was a number. *)
Theorem total_amount_never_checked (d : Dataset) (options : option Options)
  ss ps rs1 r rs2 f g :
  validate (Some d) options = Ok (ss, ps, rs1 ++ r :: rs2, (f, g)) ->
  let r' := with_total r PUndefined in
  validate (Some (with_records d (rs1 ++ r' :: rs2))) options
  = Ok (ss, ps, rs1 ++ r' :: rs2, (f, g))
  /\ forall sellerIndex productIndex stats k st,
       credited_to sellerIndex stats r' = Some k ->
       stats !! k = Some st ->
       exists st' w,
         process_record f sellerIndex productIndex stats r'
         = (w, Ok (<[k := st']> stats))
         /\ sales_count st' = sales_count st + 1
         /\ revenue st' = js_add (revenue st) PUndefined
         /\ (forall x, revenue st = PNum x -> revenue st' = PNum NaN).
Proof.
  intros Hv r'.
  pose proof (validate_Ok _ _ _ _ _ _ _ Hv)
    as ((d0 & [= <-] & Es & Ep & Er) & Hs & Hp & Hr & H1 & H2 & H3 & H4
        & (o & -> & Ef & Eg)).
  assert (purchase_invalid r' = false) as Hvr.
  { apply hasInvalidPurchases_false in H3.
    apply Forall_app in H3 as [_ H3]. now apply Forall_cons in H3 as [H3 _]. }
  split.
  - apply validate_intro; try assumption; try reflexivity.
    + now destruct rs1.
    + subst r'. now rewrite hasInvalidPurchases_with_total.
    + subst r'. now rewrite hasInvalidItems_with_total.
  - intros sidx pidx stats k st Hk Hst.
    destruct (process_records_valid f sidx pidx [r'] stats) as (w & stats' & Hpr).
    { now constructor. }
    simpl in Hpr.
    destruct (process_record f sidx pidx stats r') as [w1 [stats1 | e]] eqn:E;
      [| discriminate].
    destruct (process_record_revenue f sidx pidx _ _ r' w1 k st Hvr Hk Hst E)
      as (st' & -> & Hrev & Hcount & _).
    exists st', w1. repeat split; try assumption.
    intros x Hx. rewrite Hrev, Hx. apply js_add_undefined.
Qed.

(** ** A seller whose items match no product *)

Section Unmatched.
Variable calcRevenue : Purchase -> found Product -> num.
Variable sellerIndex : gmap string Seller.
Variable productIndex : gmap string Product.
Variable ss : list Seller.
Hypothesis Hindex : index_sellers ∅ ss = Ok sellerIndex.
Hypothesis Hsellers : hasInvalidSellers ss = false.

Lemma process_records_unmatched (k : nat) (rs : list PurchaseRecord) :
  Forall (fun r => purchase_invalid r = false) rs ->
  forall stats st w stats',
    map stat_id stats = map id ss ->
    stats !! k = Some st ->
    (forall r, r ∈ rs -> credited_to sellerIndex stats r = Some k ->
               no_item_matched productIndex r) ->
    process_records calcRevenue sellerIndex productIndex stats rs = (w, Ok stats') ->
    exists st',
      stats' !! k = Some st'
      /\ profit st' = profit st /\ products_sold st' = products_sold st
      /\ stat_id st' = stat_id st /\ name st' = name st
      /\ ((forall r, r ∈ rs -> credited_to sellerIndex stats r <> Some k) ->
          st' = st).
Proof.
  induction 1 as [| r rs Hr Hrs IH]; intros stats st w stats' Hids Hst Hno; simpl.
  - intros [= _ <-]. exists st. repeat split; auto.
  - destruct (process_record _ _ _ stats r) as [w1 [stats1 | e]] eqn:E;
      [| discriminate].
    destruct (process_records _ _ _ stats1 rs) as [w2 res] eqn:E2.
    intros [= _ ->].
    assert (map stat_id stats1 = map stat_id stats) as Hids1.
    { eapply process_record_ids, E. }
    assert (forall r', credited_to sellerIndex stats1 r'
                       = credited_to sellerIndex stats r') as Hc.
    { intros r'. now apply credited_to_ids. }
    assert (exists st1, stats1 !! k = Some st1
              /\ profit st1 = profit st /\ products_sold st1 = products_sold st
              /\ stat_id st1 = stat_id st /\ name st1 = name st
              /\ (credited_to sellerIndex stats r <> Some k -> st1 = st))
      as (st1 & Hst1 & Hp1 & Hs1 & Hi1 & Hn1 & Hsame1).
    { pose proof (process_record_credited calcRevenue sellerIndex productIndex
                    stats r Hr) as Hstep.
      destruct (credited_to sellerIndex stats r) as [j |] eqn:Hj.
      - destruct Hstep as (stj & l & Hstj & Hl & Hstep).
        rewrite Hstep in E. injection E as _ <-.
        destruct (decide (j = k)) as [-> | Hne].
        + rewrite Hst in Hstj. injection Hstj as <-.
          rewrite (process_items_unmatched calcRevenue productIndex l).
          * exists (add_sale st r). split.
            { apply list_lookup_insert_eq. now apply lookup_lt_Some in Hst. }
            repeat split; try reflexivity. congruence.
          * intros i Hi.
            exact (Hno r (list_elem_of_here _ _) Hj l i Hl Hi).
        + exists st. split; [now rewrite list_lookup_insert_ne by exact Hne |].
          repeat split; auto.
      - rewrite Hstep in E. injection E as _ <-.
        exists st. repeat split; auto. }
    destruct (IH stats1 st1 w2 stats') as (st' & Hst' & Hp & Hs & Hi & Hn & Hsame).
    + congruence.
    + exact Hst1.
    + intros r' Hr' Hk. rewrite Hc in Hk.
      exact (Hno r' (list_elem_of_further _ _ _ Hr') Hk).
    + exact E2.
    + exists st'. split; [exact Hst' |]. repeat split; try congruence.
      intros Hnone. rewrite Hsame.
      * apply Hsame1, Hnone, list_elem_of_here.
      * intros r' Hr'. rewrite Hc. apply Hnone. now apply list_elem_of_further.
Qed.
End Unmatched.

(** ** What a seller accumulates *)

Section Account.
Variable calcRevenue : Purchase -> found Product -> num.
Variable sellerIndex : gmap string Seller.
Variable productIndex : gmap string Product.

Lemma process_items_profit (l : list Item) (st : SellerStat) :
  profit (fst (process_items calcRevenue productIndex st l))
  = fold_left num_add (matched_lines calcRevenue productIndex l) (profit st).
Proof.
  revert st. induction l as [| i l IH]; intros st; simpl; [reflexivity |].
  unfold process_item at 1, product_lookup. destruct (item_invalid i).
  - specialize (IH st).
    destruct (process_items calcRevenue productIndex st l) as [st2 w2]. exact IH.
  - destruct (found_truthy _); simpl.
    + specialize (IH (add_item calcRevenue st i
                        (index_get product_property productIndex
                           (key_of (item_sku i))))).
      destruct (process_items calcRevenue productIndex _ l) as [st2 w2]. exact IH.
    + specialize (IH st).
      destruct (process_items calcRevenue productIndex st l) as [st2 w2]. exact IH.
Qed.

Lemma credited_records_ids (stats stats' : list SellerStat) (k : nat)
  (rs : list PurchaseRecord) :
  map stat_id stats = map stat_id stats' ->
  credited_records sellerIndex stats k rs = credited_records sellerIndex stats' k rs.
Proof.
  intros H. unfold credited_records. apply filter_ext. intros r.
  now rewrite (credited_to_ids sellerIndex stats stats' r H).
Qed.

Lemma process_records_account (k : nat) (rs : list PurchaseRecord) :
  Forall (fun r => purchase_invalid r = false) rs ->
  forall stats st w stats',
    stats !! k = Some st ->
    process_records calcRevenue sellerIndex productIndex stats rs = (w, Ok stats') ->
    exists st',
      stats' !! k = Some st'
      /\ stat_id st' = stat_id st /\ name st' = name st
      /\ sales_count st'
         = sales_count st + length (credited_records sellerIndex stats k rs)
      /\ revenue st'
         = fold_left js_add
             (map total_amount (credited_records sellerIndex stats k rs))
             (revenue st)
      /\ profit st'
         = fold_left num_add
             (flat_map (record_lines calcRevenue productIndex)
                       (credited_records sellerIndex stats k rs))
             (profit st).
Proof.
  induction 1 as [| r rs Hr Hrs IH]; intros stats st w stats' Hst; simpl.
  - intros [= _ <-]. exists st. repeat split; auto.
  - destruct (process_record _ _ _ stats r) as [w1 [stats1 | e]] eqn:E;
      [| discriminate].
    destruct (process_records _ _ _ stats1 rs) as [w2 res] eqn:E2.
    intros [= _ ->].
    assert (map stat_id stats = map stat_id stats1) as Hids.
    { symmetry. eapply process_record_ids, E. }
    unfold credited_records at 1 2 3. cbn [List.filter].
    fold (credited_records sellerIndex stats k rs).
    rewrite (credited_records_ids stats stats1 k rs Hids).
    pose proof (process_record_credited calcRevenue sellerIndex productIndex
                  stats r Hr) as Hstep.
    destruct (credited_to sellerIndex stats r) as [j |] eqn:Hj.
    + destruct Hstep as (stj & l & Hstj & Hl & Hstep).
      rewrite Hstep in E. injection E as _ <-.
      destruct (Nat.eqb_spec j k) as [-> | Hne].
      * rewrite Hst in Hstj. injection Hstj as <-.
        pose proof (process_items_account calcRevenue productIndex l (add_sale st r))
          as (Hi & Hn & Hrev & Hc & _).
        pose proof (process_items_profit l (add_sale st r)) as Hp.
        set (st1 := fst (process_items calcRevenue productIndex (add_sale st r) l))
          in *.
        destruct (IH (<[k := st1]> stats) st1 w2 stats')
          as (st' & Hst' & Hi' & Hn' & Hc' & Hr' & Hp').
        { apply list_lookup_insert_eq. now apply lookup_lt_Some in Hst. }
        { exact E2. }
        exists st'. split; [exact Hst' |]. simpl in Hi, Hn, Hrev, Hc, Hp.
        split; [congruence |]. split; [congruence |].
        split; [rewrite Hc', <- Hc; simpl; lia |].
        split; [rewrite Hr', <- Hrev; reflexivity |].
        rewrite Hp', Hp. cbn [flat_map]. rewrite fold_left_app.
        unfold record_lines at 3. now rewrite Hl.
      * destruct (IH (<[j := fst (process_items calcRevenue productIndex
                                   (add_sale stj r) l)]> stats) st w2 stats')
          as (st' & Hst' & Hrest).
        { now rewrite list_lookup_insert_ne by exact Hne. }
        { exact E2. }
        exists st'. auto.
    + rewrite Hstep in E. injection E as _ <-.
      destruct (IH stats st w2 stats' Hst E2) as (st' & Hst' & Hrest).
      exists st'. auto.
Qed.
End Account.

(** C5, as amended.  For a seller for none of whose items the read of the
    product index finds anything (a product, or a property inherited from
    [Object.prototype]), the result holds a record with [profit] 0, no top
    products and, as [bonus], the two-decimal rounding of what the injected
    strategy returns for that zero-profit accumulator at its rank.  Its
    [sales_count] is the number of records credited to the seller and its
    [revenue] the rounded sum of their [total_amount]s, whatever their
    items are: it is 0 when no record is credited to the seller. *)
Theorem unmatched_seller_output (data : option Dataset) (options : option Options)
  ss ps rs f g w out sellerIndex productIndex (k : nat) (s : Seller) :
  validate data options = Ok (ss, ps, rs, (f, g)) ->
  index_sellers ∅ ss = Ok sellerIndex ->
  index_products ∅ ps = Ok productIndex ->
  analyzeSalesData data options = (w, Ok out) ->
  ss !! k = Some s ->
  (forall r, r ∈ rs -> credited_to sellerIndex (init_stats ss) r = Some k ->
             no_item_matched productIndex r) ->
  exists stats st i o,
    accumulate f ss ps rs = (w, Ok stats)
    /\ stats !! k = Some st /\ rank stats !! i = Some st /\ out !! i = Some o
    /\ stat_id st = id s /\ profit st = Fin 0 /\ products_sold st = []
    /\ out_seller_id o = id s
    /\ out_profit o = Fin 0
    /\ out_top_products o = Some []
    /\ out_bonus o = toFixed2 (g (Z.of_nat i) (Z.of_nat (length ss)) st)
    /\ out_sales_count o
       = length (credited_records sellerIndex (init_stats ss) k rs)
    /\ (exists x,
          fold_left js_add
            (map total_amount (credited_records sellerIndex (init_stats ss) k rs))
            (PNum (Fin 0)) = PNum x
          /\ out_revenue o = toFixed2 x)
    /\ ((forall r, r ∈ rs -> credited_to sellerIndex (init_stats ss) r <> Some k) ->
        out_revenue o = Fin 0 /\ out_sales_count o = 0).
Proof.
  intros Hv Hsi Hpi Ha Hk Hno.
  destruct (analyze_valid _ _ _ _ _ _ _ Hv)
    as (sidx & pidx & w' & stats & Hsi' & Hpi' & Hpr & Hacc & Ha').
  rewrite Hsi in Hsi'. injection Hsi' as <-.
  rewrite Hpi in Hpi'. injection Hpi' as <-.
  rewrite Ha' in Ha. injection Ha as -> Hfin.
  pose proof (validate_Ok _ _ _ _ _ _ _ Hv) as (_ & _ & _ & _ & Hs & _ & Hrs & _).
  apply hasInvalidPurchases_false in Hrs.
  destruct (process_records_unmatched f sellerIndex productIndex ss k rs Hrs
              (init_stats ss) (init_stat s) w stats (init_stats_ids ss)
              (init_stats_lookup ss k s Hk) Hno Hpr)
    as (st & Hst & Hp & Hsold & Hid & _ & Hsame).
  destruct (process_records_account f sellerIndex productIndex k rs Hrs
              (init_stats ss) (init_stat s) w stats
              (init_stats_lookup ss k s Hk) Hpr)
    as (st0 & Hst0 & _ & _ & Hc & Hrev & _).
  rewrite Hst in Hst0. injection Hst0 as <-.
  assert (st ∈ rank stats) as Hin.
  { rewrite (rank_perm stats). apply list_elem_of_lookup. eauto. }
  apply list_elem_of_lookup in Hin as [i Hi].
  destruct (finish_output g stats out Hfin) as [_ Hpos].
  destruct (Hpos i st Hi) as (x & Hx & Ho).
  rewrite (process_records_length _ _ _ _ _ _ _ Hpr) in Ho.
  exists stats, st, i. eexists. split; [exact Hacc |].
  split; [exact Hst |]. split; [exact Hi |]. split; [exact Ho |].
  simpl in Hp, Hsold, Hid, Hc, Hrev. simpl. rewrite Hp, Hsold, Hid.
  repeat (split; [reflexivity |]).
  split; [exact Hc |]. split.
  - exists x. split; [| reflexivity]. now rewrite <- Hrev.
  - intros Hnone. specialize (Hsame Hnone). subst st. simpl in Hx.
    injection Hx as <-. split; reflexivity.
Qed.

(** The result follows the ranking position by position. *)
Lemma finish_positions (g : Z -> Z -> SellerStat -> num) (stats : list SellerStat)
  (out : list Output) :
  finish g stats = Ok out ->
  Forall2 (fun st o => out_seller_id o = stat_id st /\ out_name o = name st
                       /\ out_profit o = toFixed2 (profit st)
                       /\ out_sales_count o = sales_count st)
          (rank stats) out.
Proof.
  intros Hfin. apply Forall2_same_length_lookup_2.
  - pose proof Hfin as H. unfold finish in H. apply format_all_Ok in H.
    apply Forall2_length in H. rewrite <- H. unfold assign_bonuses.
    now rewrite length_imap.
  - intros i st o Hi Ho.
    destruct (finish_lookup g stats out i st Hfin Hi) as (o' & Ho' & Hf).
    rewrite Ho in Ho'. injection Ho' as <-.
    apply format_stat_Ok in Hf as (x & _ & ->). simpl. auto.
Qed.

(** C3, as amended.  The result lists the sellers in the order of the
    ranking, which is a rearrangement of the accumulators; when no
    accumulated profit is [NaN], every seller of the ranking has an
    unrounded profit at least as large as that of every seller after it,
    and the sellers of one profit keep the order of the input sellers
    list. *)
Theorem ranking_descending_stable (data : option Dataset) (options : option Options)
  ss ps rs f g w stats out :
  validate data options = Ok (ss, ps, rs, (f, g)) ->
  accumulate f ss ps rs = (w, Ok stats) ->
  analyzeSalesData data options = (w, Ok out) ->
  Forall (keyed profit) stats ->
  map stat_id stats = map id ss
  /\ Permutation (rank stats) stats
  /\ Forall2 (fun st o => out_seller_id o = stat_id st /\ out_name o = name st
                          /\ out_profit o = toFixed2 (profit st)
                          /\ out_sales_count o = sales_count st)
             (rank stats) out
  /\ StronglySorted (at_least profit) (rank stats)
  /\ forall p, List.filter (same_key profit p) (rank stats)
               = List.filter (same_key profit p) stats.
Proof.
  intros Hv Hacc Ha Hkeyed.
  destruct (analyze_valid _ _ _ _ _ _ _ Hv)
    as (sidx & pidx & w' & stats' & _ & _ & Hpr & Hacc' & Ha').
  rewrite Hacc in Hacc'. injection Hacc' as <- <-.
  rewrite Ha' in Ha. injection Ha as Hfin.
  split.
  { rewrite <- init_stats_ids. eapply process_records_ids, Hpr. }
  split; [apply rank_perm |]. split; [now apply (finish_positions g) |].
  unfold rank. rewrite by_profit_by_key. split.
  - now apply js_sort_descending.
  - intros p. now apply js_sort_stable.
Qed.

(** ** More on the two default strategies and on rounding *)

Lemma Qsgn_Qeq (a b : Q) : (a == b)%Q -> Qsgn a = Qsgn b.
Proof.
  unfold Qeq, Qsgn. intros H.
  assert (Z.sgn (Qnum a * Z.pos (Qden b)) = Z.sgn (Qnum b * Z.pos (Qden a)))%Z as E
    by now rewrite H.
  rewrite !Z.sgn_mul in E. simpl in E. now rewrite !Z.mul_1_r in E.
Qed.

Lemma Qfloor_half (x : Q) (n : Z) :
  (x == inject_Z n + (1 # 2))%Q -> Qfloor x = n.
Proof.
  intros H. rewrite (Qfloor_comp _ _ H).
  pose proof (Qfloor_le (inject_Z n + (1 # 2))) as H1.
  pose proof (Qlt_floor (inject_Z n + (1 # 2))) as H2.
  set (f := Qfloor (inject_Z n + (1 # 2))) in *.
  unfold Qle, Qlt, inject_Z, Qplus in H1, H2. simpl in H1, H2. lia.
Qed.

(** A number of hundredths is its own rounding. *)
Lemma round2_hundredths (n : Z) :
  round2 (Qred (n # 100)) = Qred (n # 100).
Proof.
  unfold round2.
  assert (Qfloor (Qabs (Qred (n # 100)) * 100 + (1 # 2)) = Z.abs n) as ->.
  { apply Qfloor_half. rewrite Qred_correct.
    unfold Qabs, Qeq, inject_Z, Qplus, Qmult. simpl. lia. }
  assert (Qsgn (Qred (n # 100)) = Z.sgn n) as Hs.
  { rewrite (Qsgn_Qeq _ _ (Qred_correct (n # 100))). reflexivity. }
  rewrite Hs. destruct n as [| p | p]; simpl Z.sgn; cbv iota; simpl Z.abs.
  - reflexivity.
  - reflexivity.
  - apply Qred_complete. rewrite Qred_correct.
    unfold Qeq, Qopp. simpl. reflexivity.
Qed.

Lemma round2_is_hundredths (q : Q) : exists n, round2 q = Qred (n # 100).
Proof.
  unfold round2. set (n := Qfloor (Qabs q * 100 + (1 # 2))).
  destruct (Qsgn q); [exists n; reflexivity | exists n; reflexivity |].
  exists (- n)%Z. apply Qred_complete. rewrite Qred_correct.
  unfold Qeq, Qopp. simpl. reflexivity.
Qed.

(** X3.  Rounding a rounded amount changes nothing (lines 214-218). *)
Theorem toFixed2_idempotent (a : num) : toFixed2 (toFixed2 a) = toFixed2 a.
Proof.
  destruct a as [| | | q]; try reflexivity. simpl.
  destruct (Qle_bool (1000000000000000000000 # 1) (Qabs q)) eqn:E; simpl.
  - now rewrite E.
  - destruct (Qle_bool (1000000000000000000000 # 1) (Qabs (round2 q)));
      [reflexivity |].
    destruct (round2_is_hundredths q) as [n ->]. now rewrite round2_hundredths.
Qed.

Lemma bonusPercentage_cases (index total : Z) :
  bonusPercentage index total = (15 # 100)%Q
  \/ bonusPercentage index total = (1 # 10)%Q
  \/ bonusPercentage index total = (5 # 100)%Q
  \/ bonusPercentage index total = 0%Q.
Proof.
  unfold bonusPercentage.
  destruct (index =? 0)%Z; [auto |].
  destruct ((index <=? 2) && (index >? 0))%Z; [auto |].
  destruct (index <? total - 1)%Z; auto.
Qed.

(** A worse rank never has a larger share of the profit (lines 26-34). *)
Lemma bonusPercentage_antitone (i j total : Z) :
  (0 <= i <= j)%Z ->
  (bonusPercentage j total <= bonusPercentage i total)%Q.
Proof.
  intros H. unfold bonusPercentage.
  destruct (Z.eqb_spec i 0), (Z.eqb_spec j 0),
    (Z.leb_spec i 2), (Z.leb_spec j 2),
    (Z.gtb_spec i 0), (Z.gtb_spec j 0),
    (Z.ltb_spec i (total - 1)), (Z.ltb_spec j (total - 1));
    simpl; try lia; try discriminate.
Qed.

(** X2.  The default bonus of a seller with a profit that is not negative lies
    between nothing and 15% of the profit, and does not grow when the
    rank gets worse. *)
Theorem calculateBonusByProfit_bounds (i j total : Z) (seller : SellerStat) (p : Q) :
  profit seller = Fin p -> (0 <= p)%Q -> (0 <= i <= j)%Z ->
  exists bi bj,
    calculateBonusByProfit i total seller = Fin bi
    /\ calculateBonusByProfit j total seller = Fin bj
    /\ (0 <= bj)%Q /\ (bj <= bi)%Q /\ (bi <= p * (15 # 100))%Q.
Proof.
  intros Hp Hpos Hij. unfold calculateBonusByProfit. rewrite Hp. simpl.
  do 2 eexists. split; [reflexivity |]. split; [reflexivity |].
  rewrite !Qred_correct.
  pose proof (bonusPercentage_antitone i j total Hij) as Hmono.
  assert (0 <= bonusPercentage j total)%Q as H0.
  { destruct (bonusPercentage_cases j total) as [-> | [-> | [-> | ->]]];
      discriminate. }
  assert (bonusPercentage i total <= 15 # 100)%Q as H15.
  { destruct (bonusPercentage_cases i total) as [-> | [-> | [-> | ->]]];
      discriminate. }
  split; [| split].
  - apply Qmult_le_0_compat; assumption.
  - rewrite !(Qmult_comm p). apply Qmult_le_compat_r; assumption.
  - rewrite !(Qmult_comm p). apply Qmult_le_compat_r; assumption.
Qed.

(** ** The errors of the call *)

Lemma check_data_missing (data : option Dataset) :
  check_data data = Throw InvalidInput
  <-> data = None
      \/ exists d, data = Some d
                   /\ collection_missing (sellers d)
                      || collection_missing (products d)
                      || collection_missing (purchase_records d) = true.
Proof.
  unfold check_data. destruct data as [d |]; [| split; auto]. split.
  - intros H. right. exists d. split; [reflexivity |].
    destruct (sellers d) as [[| s ss] |], (products d) as [[| p ps] |],
      (purchase_records d) as [[| r rs] |]; simpl in *;
      try reflexivity; discriminate.
  - intros [H | (d' & [= <-] & H)]; [discriminate |].
    destruct (sellers d) as [[| s ss] |], (products d) as [[| p ps] |],
      (purchase_records d) as [[| r rs] |]; simpl in *;
      try reflexivity; discriminate.
Qed.

Lemma finish_outcome (g : Z -> Z -> SellerStat -> num) (stats : list SellerStat) :
  (exists out, finish g stats = Ok out) \/ finish g stats = Throw TypeError.
Proof.
  unfold finish. generalize (assign_bonuses g (rank stats)). intros l.
  induction l as [| st l IH]; simpl; [eauto |].
  unfold format_stat. destruct (revenue st); simpl; auto.
  destruct IH as [[out ->] | ->]; simpl; eauto.
Qed.


(** X5.  The call throws the error of line 56, with nothing logged, exactly
    when the dataset is absent or one of its three collections is missing,
    not an array, or empty; the options are not looked at. *)
Theorem missing_collection_rejected (data : option Dataset)
  (options : option Options) :
  (data = None
   \/ exists d, data = Some d
                /\ collection_missing (sellers d)
                   || collection_missing (products d)
                   || collection_missing (purchase_records d) = true)
  <-> exists w, analyzeSalesData data options = (w, Throw InvalidInput).
Proof.
  rewrite <- check_data_missing. split.
  - intros H. exists []. unfold analyzeSalesData, validate. now rewrite H.
  - intros [w Ha].
    destruct (validate_outcome data options)
      as [[H _] | [(ss & ps & rs & _ & _ & H) | [(ss & ps & rs & _ & _ & _ & H)
         | [(ss & ps & rs & _ & _ & H) | (ss & ps & rs & f & g & _ & H)]]]];
      [exact H | ..].
    1-3: unfold analyzeSalesData in Ha; rewrite H in Ha; discriminate.
    destruct (analyze_valid _ _ _ _ _ _ _ H)
      as (sidx & pidx & w' & stats & _ & _ & _ & _ & Ha').
    rewrite Ha' in Ha. injection Ha as _ Hf.
    destruct (finish_outcome g stats) as [[out Ho] | Ho]; congruence.
Qed.

(** X6.  An incomplete options object is reported, by the error of line
    101, only for a dataset that passes every check of lines 47-93: an
    error in the data always comes first. *)
Theorem options_checked_last (data : option Dataset) (options : option Options) :
  (exists w, analyzeSalesData data options = (w, Throw InvalidOptions))
  <-> (exists ss ps rs, data_accepted data ss ps rs)
      /\ options_incomplete options = true.
Proof.
  split.
  - intros [w Ha].
    destruct (validate_outcome data options)
      as [[_ H] | [(ss & ps & rs & _ & _ & H) | [(ss & ps & rs & _ & _ & _ & H)
         | [(ss & ps & rs & Hd & Hi & H) | (ss & ps & rs & f & g & _ & H)]]]].
    1-3: unfold analyzeSalesData in Ha; rewrite H in Ha; discriminate.
    + eauto.
    + destruct (analyze_valid _ _ _ _ _ _ _ H)
        as (sidx & pidx & w' & stats & _ & _ & _ & _ & Ha').
      rewrite Ha' in Ha. injection Ha as _ Hf.
      destruct (finish_outcome g stats) as [[out Ho] | Ho]; congruence.
  - intros [(ss & ps & rs & Hd & Hs & Hp & Hrs & Hit) Hi]. exists [].
    unfold analyzeSalesData, validate. rewrite Hd. cbn [bind].
    rewrite Hs, Hp, Hrs. cbn [orb]. rewrite Hit. cbn [bind].
    destruct (check_options_outcome options) as [[_ ->] | (f & g & Ho)];
      [reflexivity |].
    unfold check_options, options_incomplete, options_given in *.
    destruct options as [o |]; [| discriminate].
    destruct (calculateRevenue o), (calculateBonus o); discriminate.
Qed.


(** ** The log *)

Section Log.
Variable calcRevenue : Purchase -> found Product -> num.
Variable sellerIndex : gmap string Seller.
Variable productIndex : gmap string Product.
Variable ss : list Seller.
Hypothesis Hindex : index_sellers ∅ ss = Ok sellerIndex.
Hypothesis Hsellers : hasInvalidSellers ss = false.

Lemma process_items_log (l : list Item) (st : SellerStat) :
  Forall (fun i => item_invalid i = false) l ->
  snd (process_items calcRevenue productIndex st l) = item_warnings productIndex l.
Proof.
  intros H. revert st. induction H as [| i l Hi _ IH]; intros st; simpl;
    [reflexivity |].
  unfold process_item at 1, product_lookup. rewrite Hi.
  destruct (found_truthy _); cbn [negb].
  - specialize (IH (add_item calcRevenue st i
                      (index_get product_property productIndex
                         (key_of (item_sku i))))).
    destruct (process_items calcRevenue productIndex _ l) as [st2 w2].
    simpl in *. now rewrite IH.
  - specialize (IH st).
    destruct (process_items calcRevenue productIndex st l) as [st2 w2].
    simpl in *. now rewrite IH.
Qed.

Lemma process_record_log (stats stats' : list SellerStat) (r : PurchaseRecord) w l :
  purchase_invalid r = false ->
  items r = ItemsArray l -> Forall (fun i => item_invalid i = false) l ->
  map stat_id stats = map id ss ->
  process_record calcRevenue sellerIndex productIndex stats r = (w, Ok stats') ->
  w = record_warnings sellerIndex productIndex r.
Proof.
  intros Hr Hl Hitems Hids.
  destruct (process_record_valid calcRevenue sellerIndex productIndex stats r Hr)
    as (l' & Hl' & ->).
  rewrite Hl in Hl'. injection Hl' as <-.
  unfold record_warnings, seller_warning. rewrite Hl.
  destruct (seller_lookup sellerIndex r) as [s | v | k |] eqn:E.
  - apply index_get_entry in E. cbn [found_truthy].
    destruct (find_stat_known ss stats s Hsellers Hids
                (index_entry_seller sellerIndex ss Hindex _ _ E)) as (k & st & ->).
    cbn zeta. intros [= <- _]. now apply process_items_log.
  - rewrite (find_stat_undefined ss stats (Field v) Hsellers Hids eq_refl).
    destruct (found_truthy (Field v)); congruence.
  - rewrite (find_stat_undefined ss stats (Inherited k) Hsellers Hids eq_refl).
    cbn [found_truthy]. congruence.
  - cbn [found_truthy]. congruence.
Qed.

Lemma process_records_log (rs : list PurchaseRecord) :
  Forall (fun r => purchase_invalid r = false) rs ->
  Forall (fun r => exists l, items r = ItemsArray l
                             /\ Forall (fun i => item_invalid i = false) l) rs ->
  forall stats w res,
    map stat_id stats = map id ss ->
    process_records calcRevenue sellerIndex productIndex stats rs = (w, res) ->
    w = flat_map (record_warnings sellerIndex productIndex) rs.
Proof.
  intros Hrs Hitems. induction Hrs as [| r rs Hr Hrs IH]; intros stats w res Hids;
    simpl.
  - now intros [= <- _].
  - apply Forall_cons in Hitems as [(l & Hl & Hli) Hitems].
    destruct (process_records_valid calcRevenue sellerIndex productIndex [r] stats)
      as (w1 & stats1 & H1); [now constructor |].
    simpl in H1.
    destruct (process_record _ _ _ stats r) as [w1' [stats1' | e]] eqn:E;
      [| discriminate].
    injection H1 as _ _.
    pose proof (process_record_log stats stats1' r w1' l Hr Hl Hli Hids E) as ->.
    destruct (process_records _ _ _ stats1' rs) as [w2 res2] eqn:E2.
    intros [= <- _]. f_equal. eapply (IH Hitems stats1'); [| exact E2].
    rewrite <- Hids. eapply process_record_ids, E.
Qed.
End Log.

(** X8.  Past validation the log is determined by the data: in the order of
    the purchase records, one warning of line 150 for a record for which
    the read of the seller index finds nothing, nothing for a record for
    which it finds something other than a seller, and otherwise one
    warning of line 168 for each item for which the read of the product
    index finds nothing.  The warnings of lines 144 and 162 are never
    logged. *)
Theorem log_is_determined (data : option Dataset) (options : option Options)
  ss ps rs f g sellerIndex productIndex w res :
  validate data options = Ok (ss, ps, rs, (f, g)) ->
  index_sellers ∅ ss = Ok sellerIndex ->
  index_products ∅ ps = Ok productIndex ->
  analyzeSalesData data options = (w, res) ->
  w = flat_map (record_warnings sellerIndex productIndex) rs
  /\ (forall r, WarnRecordIncomplete r ∉ w)
  /\ (forall i, WarnItemIncomplete i ∉ w).
Proof.
  intros Hv Hsi Hpi Ha.
  destruct (analyze_valid _ _ _ _ _ _ _ Hv)
    as (sidx & pidx & w' & stats & Hsi' & Hpi' & Hpr & _ & Ha').
  rewrite Hsi in Hsi'. injection Hsi' as <-.
  rewrite Hpi in Hpi'. injection Hpi' as <-.
  rewrite Ha' in Ha. injection Ha as <- _.
  pose proof (validate_Ok _ _ _ _ _ _ _ Hv) as (_ & _ & _ & _ & Hs & _ & Hrs & Hit & _).
  apply hasInvalidPurchases_false in Hrs. apply hasInvalidItems_false in Hit.
  pose proof (process_records_log f sellerIndex productIndex ss Hsi Hs rs Hrs Hit
                _ _ _ (init_stats_ids ss) Hpr) as Hw.
  split; [exact Hw |].
  assert (forall x, x ∈ w' ->
            (exists v, x = WarnSellerNotFound v) \/ (exists v, x = WarnProductNotFound v))
    as Hkinds.
  { intros x Hx. rewrite Hw in Hx. apply list_elem_of_In, in_flat_map in Hx
      as (r & _ & Hx).
    assert (In x (seller_warning sellerIndex r) -> exists v, x = WarnSellerNotFound v)
      as Hsw.
    { unfold seller_warning. destruct (found_truthy _); [intros [] |].
      intros [<- | []]. eauto. }
    unfold record_warnings in Hx.
    destruct (seller_lookup sellerIndex r) eqn:E; try (left; now apply Hsw).
    destruct (items r) as [| | l]; try (now inversion Hx).
    unfold item_warnings in Hx. apply in_flat_map in Hx as (i & _ & Hx).
    destruct (found_truthy _); [inversion Hx |].
    destruct Hx as [<- | []]. eauto. }
  split; intros x Hx; destruct (Hkinds _ Hx) as [[v E] | [v E]]; discriminate.
Qed.

(** X9.  The record of a seller in the result: its [sales_count] is the
    number of purchase records credited to the seller, its [revenue] the
    rounded sum, in the order of the records, of their [total_amount]s, and
    its [profit] the rounded sum, in the order of the items, of revenue
    minus cost over the items of those records for which the read of the
    product index finds something (for what is not a product the cost is
    [undefined * quantity]); its name is the first and the last name of the
    seller. *)
Theorem seller_record (data : option Dataset) (options : option Options)
  ss ps rs f g w out sellerIndex productIndex (k : nat) (s : Seller) :
  validate data options = Ok (ss, ps, rs, (f, g)) ->
  index_sellers ∅ ss = Ok sellerIndex ->
  index_products ∅ ps = Ok productIndex ->
  analyzeSalesData data options = (w, Ok out) ->
  ss !! k = Some s ->
  exists i o x,
    out !! i = Some o
    /\ out_seller_id o = id s
    /\ out_name o
       = (to_string (first_name s) ++ " " ++ to_string (last_name s))%string
    /\ out_sales_count o
       = length (credited_records sellerIndex (init_stats ss) k rs)
    /\ fold_left js_add
         (map total_amount (credited_records sellerIndex (init_stats ss) k rs))
         (PNum (Fin 0)) = PNum x
    /\ out_revenue o = toFixed2 x
    /\ out_profit o
       = toFixed2 (fold_left num_add
                     (flat_map (record_lines f productIndex)
                        (credited_records sellerIndex (init_stats ss) k rs))
                     (Fin 0)).
Proof.
  intros Hv Hsi Hpi Ha Hk.
  destruct (analyze_valid _ _ _ _ _ _ _ Hv)
    as (sidx & pidx & w' & stats & Hsi' & Hpi' & Hpr & _ & Ha').
  rewrite Hsi in Hsi'. injection Hsi' as <-.
  rewrite Hpi in Hpi'. injection Hpi' as <-.
  rewrite Ha' in Ha. injection Ha as -> Hfin.
  pose proof (validate_Ok _ _ _ _ _ _ _ Hv) as (_ & _ & _ & _ & _ & _ & Hrs & _).
  apply hasInvalidPurchases_false in Hrs.
  destruct (process_records_account f sellerIndex productIndex k rs Hrs
              (init_stats ss) (init_stat s) w stats
              (init_stats_lookup ss k s Hk) Hpr)
    as (st & Hst & Hid & Hn & Hc & Hrev & Hp).
  assert (st ∈ rank stats) as Hin.
  { rewrite (rank_perm stats). apply list_elem_of_lookup. eauto. }
  apply list_elem_of_lookup in Hin as [i Hi].
  destruct (finish_lookup g stats out i st Hfin Hi) as (o & Ho & Hf).
  apply format_stat_Ok in Hf as (x & Hx & ->). simpl in Hx |- *.
  exists i. eexists. exists x. split; [exact Ho |]. simpl.
  simpl in Hid, Hn, Hc, Hrev, Hp.
  rewrite Hid, Hn, Hc, <- Hp. rewrite <- Hrev, Hx. repeat split.
Qed.

(** ** The products sold and the top products *)

Lemma dict_set_keys {V : Type} (k : string) (v : V) (o : list (string * V)) k' :
  k' ∈ map fst (dict_set k v o) <-> k' = k \/ k' ∈ map fst o.
Proof.
  induction o as [| [k0 v0] o IH]; simpl.
  - rewrite list_elem_of_singleton. split; [auto | intros [H | H]; [exact H |]].
    inversion H.
  - destruct (String.eqb_spec k k0) as [-> | Hne]; simpl.
    + rewrite !elem_of_cons. tauto.
    + rewrite !elem_of_cons, IH. tauto.
Qed.

Lemma dict_set_NoDup {V : Type} (k : string) (v : V) (o : list (string * V)) :
  NoDup (map fst o) -> NoDup (map fst (dict_set k v o)).
Proof.
  induction o as [| [k0 v0] o IH]; simpl.
  - intros _. apply NoDup_singleton.
  - intros [Hnin Hnd]%NoDup_cons.
    destruct (String.eqb_spec k k0) as [-> | Hne]; simpl.
    + now apply NoDup_cons.
    + apply NoDup_cons. split; [| now apply IH].
      rewrite dict_set_keys. intros [E | Hin]; [congruence | contradiction].
Qed.

(** Reading back what was written. *)
Lemma dict_get_set {V : Type} (k k' : string) (v : V) (o : list (string * V)) :
  dict_get k' (dict_set k v o) = if String.eqb k' k then Some v else dict_get k' o.
Proof.
  induction o as [| [k0 v0] o IH]; simpl.
  - reflexivity.
  - destruct (String.eqb_spec k k0) as [-> | Hne]; simpl.
    + destruct (String.eqb_spec k' k0); reflexivity.
    + rewrite IH. destruct (String.eqb_spec k' k0) as [-> | Hne'];
        [| reflexivity].
      destruct (String.eqb_spec k0 k); [congruence | reflexivity].
Qed.

Lemma sold_set_keys (k : string) (v : prim) (o : list (string * prim)) k' :
  k' ∈ map fst (sold_set k v o) -> k' = k \/ k' ∈ map fst o.
Proof.
  unfold sold_set. destruct (dict_get k o); [apply dict_set_keys |].
  destruct (String.eqb k "__proto__"); [auto | apply dict_set_keys].
Qed.

Lemma sold_set_NoDup (k : string) (v : prim) (o : list (string * prim)) :
  NoDup (map fst o) -> NoDup (map fst (sold_set k v o)).
Proof.
  unfold sold_set. destruct (dict_get k o); [apply dict_set_NoDup |].
  destruct (String.eqb k "__proto__"); [auto | apply dict_set_NoDup].
Qed.

Section Sold.
Variable calcRevenue : Purchase -> found Product -> num.
Variable sellerIndex : gmap string Seller.
Variable productIndex : gmap string Product.
Variable rs : list PurchaseRecord.

Lemma count_product_well_formed (sold : list (string * prim)) (item : Item) :
  found_truthy (product_lookup productIndex item) = true ->
  sold_from rs (key_of (item_sku item)) ->
  sold_well_formed productIndex rs sold ->
  sold_well_formed productIndex rs (count_product sold item).
Proof.
  intros Hk Hfrom [Hnd Hkeys]. unfold count_product.
  set (k := key_of (item_sku item)) in *.
  set (sold0 := if negb (sold_truthy (sold_get k sold))
                then sold_set k (PNum (Fin 0)) sold else sold).
  assert (sold_well_formed productIndex rs sold0) as [Hnd0 Hkeys0].
  { subst sold0. destruct (negb _); [| now split]. split.
    - now apply sold_set_NoDup.
    - intros k' [-> | H]%sold_set_keys; auto. }
  split.
  - now apply sold_set_NoDup.
  - intros k' [-> | H]%sold_set_keys; auto.
Qed.

Lemma process_items_well_formed (l : list Item) (st : SellerStat) :
  (forall i, i ∈ l -> sold_from rs (key_of (item_sku i))) ->
  sold_well_formed productIndex rs (products_sold st) ->
  sold_well_formed productIndex rs
    (products_sold (fst (process_items calcRevenue productIndex st l))).
Proof.
  revert st. induction l as [| i l IH]; intros st Hl H; simpl; [exact H |].
  assert (forall i', i' ∈ l -> sold_from rs (key_of (item_sku i'))) as Hl'.
  { intros i' Hi'. apply Hl. now apply list_elem_of_further. }
  unfold process_item at 1. destruct (item_invalid i).
  - specialize (IH st Hl' H).
    destruct (process_items calcRevenue productIndex st l). exact IH.
  - destruct (found_truthy (index_get product_property productIndex
                              (key_of (item_sku i)))) eqn:E; cbn [negb].
    + specialize (IH (add_item calcRevenue st i
                        (index_get product_property productIndex
                           (key_of (item_sku i)))) Hl').
      destruct (process_items calcRevenue productIndex _ l). apply IH.
      simpl. apply count_product_well_formed;
        [exact E | apply Hl, list_elem_of_here | exact H].
    + specialize (IH st Hl' H).
      destruct (process_items calcRevenue productIndex st l). exact IH.
Qed.

Lemma process_records_well_formed (stats stats' : list SellerStat) w :
  Forall (fun st => sold_well_formed productIndex rs (products_sold st)) stats ->
  process_records calcRevenue sellerIndex productIndex stats rs = (w, Ok stats') ->
  Forall (fun st => sold_well_formed productIndex rs (products_sold st)) stats'.
Proof.
  apply (process_records_invariant calcRevenue sellerIndex productIndex
           (Forall (fun st => sold_well_formed productIndex rs (products_sold st)))).
  intros s r w' s' Hr Hs. unfold process_record.
  destruct (negb (truthy (seller_id r)) || items_falsy (items r));
    [now intros [= _ <-] |].
  destruct (negb (found_truthy _)); [now intros [= _ <-] |].
  destruct (find_stat _ s) as [[k st] |] eqn:F; [| now intros [= _ <-]].
  destruct (items r) as [| | l] eqn:El; try discriminate.
  pose proof (process_items_well_formed l (add_sale st r)) as Hwf.
  destruct (process_items calcRevenue productIndex (add_sale st r) l) as [st2 w2].
  intros [= _ <-]. apply Forall_insert; [exact Hs |]. apply Hwf.
  - intros i Hi. exists r, l, i. auto.
  - simpl. apply find_stat_Some in F as [F _]. rewrite Forall_forall in Hs.
    apply Hs, list_elem_of_lookup. eauto.
Qed.
End Sold.

Lemma insert_index_perm {V : Type} (e : N * (string * V)) (l : list (N * (string * V))) :
  Permutation (insert_index e l) (e :: l).
Proof.
  induction l as [| e' l IH]; simpl; [reflexivity |].
  destruct (fst e <? fst e')%N; [reflexivity |]. rewrite IH. apply perm_swap.
Qed.

(** [Object.entries] lists every property once. *)
Lemma object_entries_perm {V : Type} (o : list (string * V)) :
  Permutation (object_entries o) o.
Proof.
  unfold object_entries.
  assert (forall l acc : list (N * (string * V)),
            Permutation (fold_left (fun acc e => insert_index e acc) l acc) (acc ++ l))
    as Hfold.
  { induction l as [| e l IH]; intros acc; simpl.
    - now rewrite app_nil_r.
    - rewrite IH, insert_index_perm. apply Permutation_middle. }
  rewrite (Hfold (index_entries o) []). simpl.
  induction o as [| [k v] o IH]; simpl; [reflexivity |].
  unfold index_entries in *. simpl. destruct (array_index k); simpl.
  - now rewrite IH.
  - rewrite <- Permutation_middle. now rewrite IH.
Qed.

Lemma top_products_of_ranked (sold : list (string * prim)) :
  top_products_of sold
  = take 10 (js_sort (by_key sold_quantity) (map top_entry (object_entries sold))).
Proof. reflexivity. Qed.

Lemma ranked_entries_perm (sold : list (string * prim)) :
  Permutation (js_sort (by_key sold_quantity) (map top_entry (object_entries sold)))
              (map top_entry sold).
Proof. rewrite js_sort_perm. apply Permutation_map, object_entries_perm. Qed.

Lemma map_sku_top_entry (sold : list (string * prim)) :
  map tp_sku (map top_entry sold) = map fst sold.
Proof. rewrite map_map. reflexivity. Qed.

Lemma StronglySorted_app_elems {A : Type} (R : A -> A -> Prop) (l1 l2 : list A) x y :
  StronglySorted R (l1 ++ l2) -> x ∈ l1 -> y ∈ l2 -> R x y.
Proof.
  induction l1 as [| a l1 IH]; simpl; intros Hs Hx Hy; [inversion Hx |].
  apply StronglySorted_inv in Hs as [Hs Ha].
  apply elem_of_cons in Hx as [-> | Hx]; [| now apply IH].
  rewrite Forall_forall in Ha. apply Ha, elem_of_app. now right.
Qed.

Lemma StronglySorted_take {A : Type} (R : A -> A -> Prop) (n : nat) (l : list A) :
  StronglySorted R l -> StronglySorted R (take n l).
Proof.
  intros Hs. revert n. induction Hs as [| a l Hs IH Ha]; intros [| n]; simpl;
    try constructor.
  - apply IH.
  - eapply Forall_forall. intros y Hy. rewrite Forall_forall in Ha.
    apply Ha. now apply (subseteq_take n l).
Qed.

(** X10.  The top products of a seller: at most ten, each the entry of one
    product sold, no sku twice. *)
Theorem top_products_of_entries (sold : list (string * prim)) :
  NoDup (map fst sold) ->
  length (top_products_of sold) <= 10
  /\ length (top_products_of sold) = Nat.min 10 (length sold)
  /\ NoDup (map tp_sku (top_products_of sold))
  /\ forall t, t ∈ top_products_of sold -> (tp_sku t, tp_quantity t) ∈ sold.
Proof.
  intros Hnd. rewrite top_products_of_ranked.
  pose proof (ranked_entries_perm sold) as Hperm.
  set (ranked := js_sort (by_key sold_quantity) (map top_entry (object_entries sold)))
    in *.
  assert (length ranked = length sold) as Hlen.
  { rewrite (Permutation_length Hperm). apply length_map. }
  split; [rewrite length_take; lia |]. split; [rewrite length_take; lia |]. split.
  - assert (NoDup (map tp_sku ranked)) as Hnd'.
    { assert (Permutation (map tp_sku ranked) (map fst sold)) as Hp.
      { rewrite <- map_sku_top_entry. now apply Permutation_map. }
      now rewrite Hp. }
    assert (map tp_sku (take 10 ranked) `sublist_of` map tp_sku ranked) as Hsub.
    { rewrite <- firstn_map. apply sublist_take. }
    exact (sublist_NoDup _ _ Hnd' Hsub).
  - intros t Ht. apply (subseteq_take 10 ranked) in Ht. rewrite Hperm in Ht.
    apply list_elem_of_In, in_map_iff in Ht as ([k v] & <- & Hin).
    now apply list_elem_of_In.
Qed.

(** X11.  When the quantities sold count as numbers other than [NaN], the
    top products are in descending order of quantity, and no product left
    out of the list was sold in a larger quantity than one in it. *)
Theorem top_products_of_best (sold : list (string * prim)) :
  Forall (fun e => is_nan (to_number (snd e)) = false) sold ->
  StronglySorted (at_least sold_quantity) (top_products_of sold)
  /\ forall t e, t ∈ top_products_of sold -> e ∈ sold ->
                 top_entry e ∉ top_products_of sold ->
                 at_least sold_quantity t (top_entry e).
Proof.
  intros Hk. rewrite top_products_of_ranked.
  pose proof (ranked_entries_perm sold) as Hperm.
  assert (Forall (keyed sold_quantity) (map top_entry (object_entries sold))) as Hkeyed.
  { apply Forall_forall. intros t Ht.
    apply list_elem_of_In, in_map_iff in Ht as (e & <- & He).
    rewrite Forall_forall in Hk. apply Hk.
    rewrite <- (object_entries_perm sold). now apply list_elem_of_In. }
  pose proof (js_sort_descending sold_quantity _ Hkeyed) as Hs.
  set (ranked := js_sort (by_key sold_quantity) (map top_entry (object_entries sold)))
    in *.
  split; [now apply StronglySorted_take |].
  intros t e Ht He Hout.
  assert (top_entry e ∈ ranked) as Hin.
  { rewrite Hperm. apply list_elem_of_In, in_map. now apply list_elem_of_In. }
  rewrite <- (take_drop 10 ranked) in Hin, Hs.
  apply elem_of_app in Hin as [Hin | Hin]; [contradiction |].
  exact (StronglySorted_app_elems _ _ _ _ _ Hs Ht Hin).
Qed.

(** X12.  In every record of the result [top_products] is a list of at most
    ten entries with distinct skus; each is the key of the sku of an item
    of some purchase record, and one for which the read of the product
    index finds something. *)
Theorem result_top_products (data : option Dataset) (options : option Options)
  ss ps rs f g w out productIndex o :
  validate data options = Ok (ss, ps, rs, (f, g)) ->
  index_products ∅ ps = Ok productIndex ->
  analyzeSalesData data options = (w, Ok out) ->
  o ∈ out ->
  exists l,
    out_top_products o = Some l
    /\ length l <= 10
    /\ NoDup (map tp_sku l)
    /\ forall t, t ∈ l ->
         sold_from rs (tp_sku t)
         /\ found_truthy (index_get product_property productIndex (tp_sku t)) = true.
Proof.
  intros Hv Hpi Ha Ho.
  destruct (analyze_valid _ _ _ _ _ _ _ Hv)
    as (sidx & pidx & w' & stats & _ & Hpi' & Hpr & _ & Ha').
  rewrite Hpi in Hpi'. injection Hpi' as <-.
  rewrite Ha' in Ha. injection Ha as -> Hfin.
  assert (Forall (fun st => sold_well_formed productIndex rs (products_sold st)) stats)
    as Hwf.
  { eapply (process_records_well_formed f sidx productIndex rs); [| exact Hpr].
    unfold init_stats. apply Forall_forall. intros st Hst.
    apply list_elem_of_In, in_map_iff in Hst as (s & <- & _). simpl.
    split; [constructor | intros k Hk; inversion Hk]. }
  unfold finish in Hfin. apply format_all_Ok in Hfin.
  apply list_elem_of_lookup in Ho as [i Hi].
  destruct (Forall2_lookup_r _ _ _ _ _ Hfin Hi) as (st' & Hst' & Hf).
  rewrite assign_bonuses_lookup in Hst'.
  destruct (rank stats !! i) as [st |] eqn:Hst; [| discriminate].
  simpl in Hst'. injection Hst' as <-.
  apply format_stat_Ok in Hf as (x & _ & ->). simpl.
  eexists. split; [reflexivity |].
  assert (st ∈ stats) as Hin.
  { rewrite <- (rank_perm stats). apply list_elem_of_lookup. eauto. }
  rewrite Forall_forall in Hwf. destruct (Hwf st Hin) as [Hnd Hkeys].
  destruct (top_products_of_entries (products_sold st) Hnd) as (Hlen & _ & Hnd' & Hel).
  split; [exact Hlen |]. split; [exact Hnd' |].
  intros t Ht. apply Hkeys. apply Hel in Ht.
  apply list_elem_of_In in Ht. apply (in_map fst) in Ht.
  now apply list_elem_of_In.
Qed.

(** ** Duplicate ids and skus *)

Lemma index_sellers_app (m : gmap string Seller) (l1 l2 : list Seller) :
  index_sellers m (l1 ++ l2)
  = (m1 <- index_sellers m l1 ;; index_sellers m1 l2).
Proof.
  revert m. induction l1 as [| s l1 IH]; intros m; simpl; [reflexivity |].
  destruct (seller_invalid s); [reflexivity | apply IH].
Qed.

Lemma index_sellers_other (l : list Seller) (m m' : gmap string Seller) k :
  index_sellers m l = Ok m' ->
  (forall s, s ∈ l -> key_of (id s) <> k) ->
  m' !! k = m !! k.
Proof.
  revert m. induction l as [| s l IH]; intros m; simpl.
  - now intros [= ->].
  - destruct (seller_invalid s); [discriminate |]. intros H Hk.
    rewrite (IH _ H) by (intros s' Hs'; apply Hk; now apply list_elem_of_further).
    apply lookup_insert_ne, Hk, list_elem_of_here.
Qed.

Lemma index_products_app (m : gmap string Product) (l1 l2 : list Product) :
  index_products m (l1 ++ l2)
  = (m1 <- index_products m l1 ;; index_products m1 l2).
Proof.
  revert m. induction l1 as [| p l1 IH]; intros m; simpl; [reflexivity |].
  destruct (negb (truthy (sku p))); [reflexivity | apply IH].
Qed.

Lemma index_products_other (l : list Product) (m m' : gmap string Product) k :
  index_products m l = Ok m' ->
  (forall p, p ∈ l -> key_of (sku p) <> k) ->
  m' !! k = m !! k.
Proof.
  revert m. induction l as [| p l IH]; intros m; simpl.
  - now intros [= ->].
  - destruct (negb (truthy (sku p))); [discriminate |]. intros H Hk.
    rewrite (IH _ H) by (intros p' Hp'; apply Hk; now apply list_elem_of_further).
    apply lookup_insert_ne, Hk, list_elem_of_here.
Qed.

(** A key that was not assigned reads as what the prototype chain has
    under it. *)
Lemma index_get_unassigned {A : Type} (properties : A -> string -> option prim)
  (index : gmap string A) (k : string) :
  index !! k = None ->
  (forall a, index_get properties index k <> Entry a)
  /\ (forall p, found_prop p (index_get properties index k) = PUndefined)
  /\ (index !! "__proto__" = None ->
      index_get properties index k
      = if is_prototype_name k then Inherited k else Missing).
Proof.
  intros Hk. split; [| split].
  - intros a Ha. apply index_get_entry in Ha. congruence.
  - intros p. now apply index_get_other.
  - intros Hp. unfold index_get. now rewrite Hk, Hp.
Qed.

(** X13.  The indexes keep, for each key, the last entry of the input that
    has it (lines 112-125): a later seller or product replaces an earlier
    one with the same key.  A read under a key that no entry has never
    returns an entry, and what it returns has no [id] and no
    [purchase_price]; when no entry has the key "__proto__" either, it
    returns the property of [Object.prototype] of that name, or
    [undefined] when there is none. *)
Theorem indexes_keep_last_entry :
  (forall ss sellerIndex, index_sellers ∅ ss = Ok sellerIndex ->
     (forall l1 s l2, ss = l1 ++ s :: l2 ->
        (forall s', s' ∈ l2 -> key_of (id s') <> key_of (id s)) ->
        index_get seller_property sellerIndex (key_of (id s)) = Entry s)
     /\ (forall k, (forall s, s ∈ ss -> key_of (id s) <> k) ->
           (forall s, index_get seller_property sellerIndex k <> Entry s)
           /\ found_prop id (index_get seller_property sellerIndex k) = PUndefined
           /\ ((forall s, s ∈ ss -> key_of (id s) <> "__proto__") ->
               index_get seller_property sellerIndex k
               = if is_prototype_name k then Inherited k else Missing)))
  /\ (forall ps productIndex, index_products ∅ ps = Ok productIndex ->
        (forall l1 p l2, ps = l1 ++ p :: l2 ->
           (forall p', p' ∈ l2 -> key_of (sku p') <> key_of (sku p)) ->
           index_get product_property productIndex (key_of (sku p)) = Entry p)
        /\ (forall k, (forall p, p ∈ ps -> key_of (sku p) <> k) ->
              (forall p, index_get product_property productIndex k <> Entry p)
              /\ found_prop purchase_price (index_get product_property productIndex k)
                 = PUndefined
              /\ ((forall p, p ∈ ps -> key_of (sku p) <> "__proto__") ->
                  index_get product_property productIndex k
                  = if is_prototype_name k then Inherited k else Missing))).
Proof.
  split.
  - intros ss sidx Hi. split.
    + intros l1 s l2 -> Hl2. rewrite index_sellers_app in Hi.
      destruct (index_sellers ∅ l1) as [m1 |]; [| discriminate].
      simpl in Hi. destruct (seller_invalid s); [discriminate |].
      apply index_get_own.
      rewrite (index_sellers_other l2 _ _ _ Hi Hl2). apply lookup_insert_eq.
    + intros k Hk.
      assert (sidx !! k = None) as Hnone.
      { rewrite (index_sellers_other ss _ _ _ Hi Hk). apply lookup_empty. }
      destruct (index_get_unassigned seller_property sidx k Hnone) as (H1 & H2 & H3).
      split; [exact H1 |]. split; [apply H2 |].
      intros Hp. apply H3.
      rewrite (index_sellers_other ss _ _ _ Hi Hp). apply lookup_empty.
  - intros ps pidx Hi. split.
    + intros l1 p l2 -> Hl2. rewrite index_products_app in Hi.
      destruct (index_products ∅ l1) as [m1 |]; [| discriminate].
      simpl in Hi. destruct (negb (truthy (sku p))); [discriminate |].
      apply index_get_own.
      rewrite (index_products_other l2 _ _ _ Hi Hl2). apply lookup_insert_eq.
    + intros k Hk.
      assert (pidx !! k = None) as Hnone.
      { rewrite (index_products_other ps _ _ _ Hi Hk). apply lookup_empty. }
      destruct (index_get_unassigned product_property pidx k Hnone) as (H1 & H2 & H3).
      split; [exact H1 |]. split; [apply H2 |].
      intros Hp. apply H3.
      rewrite (index_products_other ps _ _ _ Hi Hp). apply lookup_empty.
Qed.

Lemma strict_eq_trans (a b c : prim) :
  strict_eq a b = true -> strict_eq b c = true -> strict_eq a c = true.
Proof.
  destruct a as [| | x | [| | | x] | x], b as [| | y | [| | | y] | y],
    c as [| | z | [| | | z] | z]; simpl; try discriminate; try reflexivity.
  - destruct x, y, z; simpl; congruence.
  - intros H1%Qeq_bool_iff H2%Qeq_bool_iff. apply Qeq_bool_iff.
    now rewrite H1.
  - intros H1%String.eqb_eq H2%String.eqb_eq. apply String.eqb_eq. congruence.
Qed.

(** [find] returns the first accumulator with the id: a record is never
    credited to an accumulator when an earlier one has the same id. *)
Lemma credited_to_first (sellerIndex : gmap string Seller) (stats : list SellerStat)
  (r : PurchaseRecord) (i k : nat) (sti stk : SellerStat) :
  credited_to sellerIndex stats r = Some k ->
  i < k -> stats !! i = Some sti -> stats !! k = Some stk ->
  strict_eq (stat_id sti) (stat_id stk) = false.
Proof.
  unfold credited_to, find_stat.
  destruct (found_truthy _); [| discriminate].
  destruct (list_find _ stats) as [[k' st] |] eqn:F; [| discriminate].
  simpl. intros [= ->] Hik Hi Hk.
  apply list_find_Some in F as (Hk' & HP & Hmin).
  rewrite Hk in Hk'. injection Hk' as <-.
  destruct (strict_eq (stat_id sti) (stat_id stk)) eqn:E; [| reflexivity].
  exfalso. apply (Hmin i sti Hi Hik). exact (strict_eq_trans _ _ _ E HP).
Qed.

(** X14.  When two sellers of the input have the same id, every purchase
    record with that id is credited to the first of them: the record of the
    later one in the result has no sale, no revenue, no profit and no top
    products. *)
Theorem duplicate_id_shadowed (data : option Dataset) (options : option Options)
  ss ps rs f g w out (i j : nat) (si sj : Seller) :
  validate data options = Ok (ss, ps, rs, (f, g)) ->
  analyzeSalesData data options = (w, Ok out) ->
  ss !! i = Some si -> ss !! j = Some sj -> i < j ->
  strict_eq (id si) (id sj) = true ->
  exists stats n o,
    accumulate f ss ps rs = (w, Ok stats)
    /\ stats !! j = Some (init_stat sj)
    /\ rank stats !! n = Some (init_stat sj)
    /\ out !! n = Some o
    /\ out_seller_id o = id sj
    /\ out_sales_count o = 0
    /\ out_revenue o = Fin 0
    /\ out_profit o = Fin 0
    /\ out_top_products o = Some [].
Proof.
  intros Hv Ha Hi Hj Hij Heq.
  destruct (analyze_valid _ _ _ _ _ _ _ Hv)
    as (sidx & pidx & w' & stats & Hsi & _ & Hpr & Hacc & Ha').
  rewrite Ha' in Ha. injection Ha as -> Hfin.
  pose proof (validate_Ok _ _ _ _ _ _ _ Hv) as (_ & _ & _ & _ & Hs & _ & Hrs & _).
  apply hasInvalidPurchases_false in Hrs.
  assert (forall r, r ∈ rs -> credited_to sidx (init_stats ss) r <> Some j) as Hnone.
  { intros r _ Hc.
    pose proof (credited_to_first sidx (init_stats ss) r i j _ _ Hc Hij
                  (init_stats_lookup ss i si Hi) (init_stats_lookup ss j sj Hj)) as E.
    simpl in E. congruence. }
  destruct (process_records_unmatched f sidx pidx ss j rs Hrs
              (init_stats ss) (init_stat sj) w stats (init_stats_ids ss)
              (init_stats_lookup ss j sj Hj)
              (fun r Hr Hc => False_ind _ (Hnone r Hr Hc)) Hpr)
    as (st & Hst & _ & _ & _ & _ & Hsame).
  specialize (Hsame Hnone). subst st.
  assert (init_stat sj ∈ rank stats) as Hin.
  { rewrite (rank_perm stats). apply list_elem_of_lookup. eauto. }
  apply list_elem_of_lookup in Hin as [n Hn].
  destruct (finish_lookup g stats out n _ Hfin Hn) as (o & Ho & Hf).
  apply format_stat_Ok in Hf as (x & Hx & ->). simpl in Hx. injection Hx as <-.
  exists stats, n. eexists. repeat (split; [eassumption || reflexivity |]).
  reflexivity.
Qed.

Lemma dict_get_same {V : Type} (k : string) (v : V) (o : list (string * V)) :
  dict_get k (dict_set k v o) = Some v.
Proof. now rewrite dict_get_set, String.eqb_refl. Qed.

Lemma sold_get_own (k : string) (v : prim) (o : list (string * prim)) :
  dict_get k o = Some v -> sold_get k o = Plain v.
Proof. unfold sold_get. now intros ->. Qed.

Lemma sold_set_own (k : string) (v : prim) (o : list (string * prim)) v0 :
  dict_get k o = Some v0 -> sold_set k v o = dict_set k v o.
Proof. unfold sold_set. now intros ->. Qed.

Lemma sold_set_fresh (k : string) (v : prim) (o : list (string * prim)) :
  dict_get k o = None -> k <> "__proto__" -> sold_set k v o = dict_set k v o.
Proof.
  unfold sold_set. intros -> H. now destruct (String.eqb_spec k "__proto__").
Qed.

Lemma sold_get_set (k k' : string) (v : prim) (o : list (string * prim)) :
  k' <> k -> dict_get k' (sold_set k v o) = dict_get k' o.
Proof.
  intros Hne. unfold sold_set.
  assert (dict_get k' (dict_set k v o) = dict_get k' o) as H.
  { rewrite dict_get_set. now destruct (String.eqb_spec k' k). }
  destruct (dict_get k o); [exact H |].
  destruct (String.eqb k "__proto__"); [reflexivity | exact H].
Qed.

(** X15.  Counting an item with a finite quantity [q] (lines 189-192)
    changes the count of no other sku.  A count that is a number grows by
    [q], and a sku that is not yet counted and is no name of a property of
    [Object.prototype] gets the count [q].  For such a name that is not
    yet counted the inherited property is truthy, the reset of line 190 is
    skipped and the count becomes a text: the text of the inherited method
    followed by that of [q]; under "__proto__" nothing is recorded at
    all. *)
Theorem count_product_adds (sold : list (string * prim)) (item : Item) (q : Q) :
  quantity item = PNum (Fin q) ->
  (forall k, k <> key_of (item_sku item) ->
             dict_get k (count_product sold item) = dict_get k sold)
  /\ (forall v, dict_get (key_of (item_sku item)) sold = Some (PNum (Fin v)) ->
        exists v', dict_get (key_of (item_sku item)) (count_product sold item)
                   = Some (PNum (Fin v'))
                   /\ (v' == v + q)%Q)
  /\ (dict_get (key_of (item_sku item)) sold = None ->
      is_prototype_name (key_of (item_sku item)) = false ->
      exists v', dict_get (key_of (item_sku item)) (count_product sold item)
                 = Some (PNum (Fin v'))
                 /\ (v' == q)%Q)
  /\ (dict_get (key_of (item_sku item)) sold = None ->
      is_prototype_name (key_of (item_sku item)) = true ->
      key_of (item_sku item) <> "__proto__" ->
      dict_get (key_of (item_sku item)) (count_product sold item)
      = Some (PStr (FunctionToString (key_of (item_sku item))
                    ++ NumberToString (Fin q))))
  /\ (dict_get (key_of (item_sku item)) sold = None ->
      key_of (item_sku item) = "__proto__" ->
      count_product sold item = sold).
Proof.
  intros Hq. unfold count_product. set (key := key_of (item_sku item)) in *.
  split; [| split; [| split; [| split]]].
  - intros k Hk. rewrite sold_get_set by exact Hk.
    destruct (negb _); [| reflexivity]. now apply sold_get_set.
  - intros v Hv. rewrite (sold_get_own _ _ _ Hv). cbn [sold_truthy truthy].
    destruct (Qeq_bool v 0) eqn:Ez; cbn [negb].
    + rewrite (sold_set_own key (PNum (Fin 0)) sold _ Hv).
      pose proof (dict_get_same key (PNum (Fin 0)) sold) as H0.
      rewrite (sold_get_own _ _ _ H0), (sold_set_own _ _ _ _ H0), dict_get_same.
      rewrite Hq. simpl. eexists. split; [reflexivity |]. rewrite Qred_correct.
      apply Qeq_bool_iff in Ez. rewrite Ez. reflexivity.
    + rewrite (sold_get_own _ _ _ Hv), (sold_set_own _ _ _ _ Hv), dict_get_same.
      rewrite Hq. simpl. eexists. split; [reflexivity |]. apply Qred_correct.
  - intros Hnone Hname.
    assert (key <> "__proto__") as Hp by (intros E; now rewrite E in Hname).
    assert (sold_get key sold = Plain PUndefined) as Hg
      by (unfold sold_get; now rewrite Hnone, Hname).
    rewrite Hg. cbn [sold_truthy truthy negb].
    rewrite (sold_set_fresh key (PNum (Fin 0)) sold Hnone Hp).
    pose proof (dict_get_same key (PNum (Fin 0)) sold) as H0.
    rewrite (sold_get_own _ _ _ H0), (sold_set_own _ _ _ _ H0), dict_get_same.
    rewrite Hq. simpl. eexists. split; [reflexivity |]. rewrite Qred_correct.
    unfold Qeq. simpl. lia.
  - intros Hnone Hname Hne.
    assert (sold_get key sold = Proto key) as Hg
      by (unfold sold_get; now rewrite Hnone, Hname).
    rewrite Hg. cbn [sold_truthy negb]. rewrite Hg.
    rewrite (sold_set_fresh key _ sold Hnone Hne), dict_get_same.
    unfold sold_add, inherited_text.
    destruct (String.eqb_spec key "__proto__"); [contradiction |].
    now rewrite Hq.
  - intros Hnone Hp.
    assert (sold_get key sold = Proto key) as Hg
      by (unfold sold_get; now rewrite Hnone, Hp).
    rewrite Hg. cbn [sold_truthy negb]. rewrite Hg.
    unfold sold_set. now rewrite Hnone, Hp.
Qed.

Lemma num_sub_nan (a : num) : num_sub a NaN = NaN.
Proof. now destruct a. Qed.

Lemma num_add_nan (a : num) : num_add a NaN = NaN.
Proof. now destruct a. Qed.

(** X18.  An item whose sku is the name of a property of
    [Object.prototype], and the sku of no product of the index, is not
    reported as unknown (lines 166-170): the read of the index finds the
    inherited property, the item is processed with the cost
    [undefined * quantity], and the profit of the seller becomes [NaN]
    whatever the strategy returns. *)
Theorem inherited_sku_is_processed
  (calcRevenue : Purchase -> found Product -> num)
  (productIndex : gmap string Product) (st : SellerStat) (item : Item) :
  item_invalid item = false ->
  productIndex !! key_of (item_sku item) = None ->
  is_prototype_name (key_of (item_sku item)) = true ->
  exists st',
    process_item calcRevenue productIndex st item = (st', [])
    /\ st' = add_item calcRevenue st item (product_lookup productIndex item)
    /\ found_prop purchase_price (product_lookup productIndex item) = PUndefined
    /\ profit st' = NaN
    /\ sales_count st' = sales_count st /\ revenue st' = revenue st.
Proof.
  intros Hvalid Hnone Hname. unfold process_item, product_lookup. rewrite Hvalid.
  rewrite (index_get_prototype_name product_property productIndex _ Hname)
    by (intros a; now apply product_property_prototype_name).
  cbn [negb]. eexists. split; [reflexivity |]. split; [reflexivity |].
  pose proof (index_get_other product_property productIndex _ purchase_price Hnone)
    as Hprice.
  split; [exact Hprice |]. split; [| split; reflexivity].
  cbn [add_item profit]. rewrite Hprice. cbn [to_number num_mul].
  now rewrite num_sub_nan, num_add_nan.
Qed.

Lemma process_records_bonus_fields (calcRevenue : Purchase -> found Product -> num)
  (sellerIndex : gmap string Seller) (productIndex : gmap string Product)
  (rs : list PurchaseRecord) (stats stats' : list SellerStat) w :
  Forall (fun st => bonus st = Fin 0 /\ top_products st = None) stats ->
  process_records calcRevenue sellerIndex productIndex stats rs = (w, Ok stats') ->
  Forall (fun st => bonus st = Fin 0 /\ top_products st = None) stats'.
Proof.
  apply (process_records_invariant calcRevenue sellerIndex productIndex
           (Forall (fun st => bonus st = Fin 0 /\ top_products st = None))).
  intros s r w' s' _ Hs. unfold process_record.
  destruct (negb (truthy (seller_id r)) || items_falsy (items r));
    [now intros [= _ <-] |].
  destruct (negb (found_truthy _)); [now intros [= _ <-] |].
  destruct (find_stat _ s) as [[k st] |] eqn:F; [| now intros [= _ <-]].
  destruct (items r) as [| | l]; try discriminate.
  pose proof (process_items_account calcRevenue productIndex l (add_sale st r))
    as (_ & _ & _ & _ & Hb & Ht).
  destruct (process_items calcRevenue productIndex (add_sale st r) l) as [st2 w2].
  intros [= _ <-]. apply Forall_insert; [exact Hs |]. simpl in Hb, Ht.
  apply find_stat_Some in F as [F _]. rewrite Forall_forall in Hs.
  destruct (Hs st) as [Hb0 Ht0]; [apply list_elem_of_lookup; eauto |].
  split; congruence.
Qed.

(** X16.  The result has one record per seller.  The record at position
    [n] formats the accumulator ranked [n]: its [bonus] is the rounded
    value of the injected strategy called with [n], the number of sellers
    and that accumulator (whose own [bonus] is still 0 and which has no
    [top_products] yet), and its [top_products] are those of the
    accumulator's [products_sold]. *)
Theorem bonus_by_rank (data : option Dataset) (options : option Options)
  ss ps rs f g w out :
  validate data options = Ok (ss, ps, rs, (f, g)) ->
  analyzeSalesData data options = (w, Ok out) ->
  length out = length ss
  /\ exists stats,
       accumulate f ss ps rs = (w, Ok stats)
       /\ forall n o, out !! n = Some o ->
            exists st,
              rank stats !! n = Some st
              /\ bonus st = Fin 0 /\ top_products st = None
              /\ out_seller_id o = stat_id st
              /\ out_bonus o
                 = toFixed2 (g (Z.of_nat n) (Z.of_nat (length ss)) st)
              /\ out_top_products o = Some (top_products_of (products_sold st)).
Proof.
  intros Hv Ha.
  destruct (analyze_valid _ _ _ _ _ _ _ Hv)
    as (sidx & pidx & w' & stats & _ & _ & Hpr & Hacc & Ha').
  rewrite Ha' in Ha. injection Ha as -> Hfin.
  assert (length stats = length ss) as Hlen.
  { pose proof (process_records_ids f sidx pidx rs _ _ _ Hpr) as Hids.
    rewrite init_stats_ids in Hids.
    apply (f_equal (@length _)) in Hids. now rewrite !length_map in Hids. }
  assert (length out = length stats) as Hout.
  { pose proof (finish_positions g stats out Hfin) as H2.
    apply Forall2_length in H2. rewrite <- H2.
    apply Permutation_length, rank_perm. }
  split; [congruence |]. exists stats. split; [exact Hacc |].
  intros n o Ho.
  assert (n < length (rank stats)) as Hn.
  { rewrite (Permutation_length (rank_perm stats)), <- Hout.
    now apply lookup_lt_Some in Ho. }
  apply lookup_lt_is_Some_2 in Hn as [st Hst].
  destruct (finish_lookup g stats out n st Hfin Hst) as (o' & Ho' & Hf).
  rewrite Ho in Ho'. injection Ho' as <-.
  apply format_stat_Ok in Hf as (x & _ & ->). simpl.
  exists st. split; [exact Hst |].
  assert (Forall (fun st => bonus st = Fin 0 /\ top_products st = None) stats) as Hb.
  { eapply (process_records_bonus_fields f sidx pidx rs); [| exact Hpr].
    unfold init_stats. apply Forall_forall. intros st0 Hst0.
    apply list_elem_of_In, in_map_iff in Hst0 as (s & <- & _). now split. }
  rewrite Forall_forall in Hb. destruct (Hb st) as [Hb0 Ht0].
  { rewrite <- (rank_perm stats). apply list_elem_of_lookup. eauto. }
  rewrite Hlen. repeat split; assumption.
Qed.


End Program.

(** ** The samples, evaluated *)

(** The scenario of the specification: revenue 200.00, profit 100.00, and
    the bonus of the first rank for the only seller. *)
Example single_sale_evaluated :
  analyzeSalesData sample_NumberToString sample_StringToNumber
    sample_FunctionToString
    (Some single_sale) (Some (default_options sample_StringToNumber))
  = ([], Ok single_sale_result).
Proof. vm_compute. reflexivity. Qed.

Example shop_evaluated :
  analyzeSalesData sample_NumberToString sample_StringToNumber
    sample_FunctionToString
    (Some shop) (Some (default_options sample_StringToNumber))
  = (shop_log, Ok shop_result).
Proof. vm_compute. reflexivity. Qed.

(** Without [total_amount] the sale still counts, and the revenue is [NaN]. *)
Example single_sale_without_total_evaluated :
  analyzeSalesData sample_NumberToString sample_StringToNumber
    sample_FunctionToString
    (Some single_sale_without_total)
    (Some (default_options sample_StringToNumber))
  = ([], Ok single_sale_without_total_result).
Proof. vm_compute. reflexivity. Qed.

Example shop_validated :
  validate (Some shop) (Some (default_options sample_StringToNumber))
  = Ok (shop_sellers, shop_products, [sale_1; sale_2; sale_unknown; sale_3],
        (calculateSimpleRevenue sample_StringToNumber, calculateBonusByProfit)).
Proof. reflexivity. Qed.

Example shop_sellers_indexed :
  index_sellers sample_NumberToString ∅ shop_sellers = Ok shop_sellerIndex.
Proof. vm_compute. reflexivity. Qed.

Example shop_products_indexed :
  index_products sample_NumberToString ∅ shop_products = Ok shop_productIndex.
Proof. vm_compute. reflexivity. Qed.

(** A [seller_id] that is the name of a method of [Object.prototype]: the
    read of the index finds the method, no accumulator has its [id], and the
    record is dropped without a warning. *)
Example inherited_seller_evaluated :
  analyzeSalesData sample_NumberToString sample_StringToNumber
    sample_FunctionToString
    (Some data_inherited_seller) (Some (default_options sample_StringToNumber))
  = ([], Ok single_sale_result).
Proof. vm_compute. reflexivity. Qed.

(** A sku that is the name of a property of [Object.prototype]: the item is
    processed with a cost of [undefined * 1], and its count is a text. *)
Example inherited_sku_evaluated :
  analyzeSalesData sample_NumberToString sample_StringToNumber
    sample_FunctionToString
    (Some data_inherited_sku) (Some (default_options sample_StringToNumber))
  = ([], Ok [{| out_seller_id := PStr "s1"; out_name := "Ann Lee";
               out_revenue := Fin 100; out_profit := NaN; out_sales_count := 1;
               out_top_products :=
                 Some [{| tp_sku := "constructor";
                          tp_quantity :=
                            PStr "function Object() { [native code] }1" |}];
               out_bonus := NaN |}]).
Proof. vm_compute. reflexivity. Qed.

(** ** Instances of the theorems *)

Lemma calculateBonusByProfit_policy_witness :
  calculateBonusByProfit 0 5 profile_100 = num_mul (Fin 100) (Fin (15 # 100))
  /\ calculateBonusByProfit 2 5 profile_100 = num_mul (Fin 100) (Fin (1 # 10))
  /\ calculateBonusByProfit 3 5 profile_100 = num_mul (Fin 100) (Fin (5 # 100))
  /\ calculateBonusByProfit 4 5 profile_100 = Fin 0
  /\ calculateBonusByProfit 1 2 profile_100 = num_mul (Fin 100) (Fin (1 # 10))
  /\ calculateBonusByProfit 0 1 profile_100 = num_mul (Fin 100) (Fin (15 # 100)).
Proof.
  split; [exact (proj1 (calculateBonusByProfit_policy 0 5 profile_100) eq_refl) |].
  split; [exact (proj1 (proj2 (calculateBonusByProfit_policy 2 5 profile_100))
                   (or_intror eq_refl)) |].
  split; [exact (proj1 (proj2 (proj2 (calculateBonusByProfit_policy 3 5 profile_100)))
                   (or_intror eq_refl) eq_refl) |].
  split; [refine (proj1 (proj2 (proj1 (proj2 (proj2 (proj2
                   (calculateBonusByProfit_policy 4 5 profile_100))))
                   (or_intror eq_refl) _)) eq_refl); discriminate |].
  split; [exact (proj1 (proj2 (calculateBonusByProfit_policy 1 2 profile_100))
                   (or_introl eq_refl)) |].
  exact (proj2 (proj2 (proj2 (proj2 (calculateBonusByProfit_policy 0 1 profile_100))))
           eq_refl eq_refl).
Defined.



Lemma malformed_item_aborts_witness :
  lacks_required_field item_without_quantity
  /\ analyzeSalesData sample_NumberToString sample_StringToNumber
    sample_FunctionToString
       (Some data_item_without_quantity)
       (Some (default_options sample_StringToNumber))
     = ([], Throw InvalidItems).
Proof.
  assert (lacks_required_field item_without_quantity) as Hlack
    by (right; left; reflexivity).
  split; [exact Hlack |].
  refine (proj1 (malformed_item_aborts sample_NumberToString sample_StringToNumber
      sample_FunctionToString
                   data_item_without_quantity
                   (Some (default_options sample_StringToNumber))
                   [seller_of "s1" "Ann" "Lee"] [product_of "p1" 50 100]
                   [record_of "s1" (PNum (Fin 200)) [item_without_quantity]]
                   (record_of "s1" (PNum (Fin 200)) [item_without_quantity])
                   [item_without_quantity] item_without_quantity
                   _ _ _ _ Hlack)).
  - repeat split; vm_compute; reflexivity.
  - apply list_elem_of_here.
  - reflexivity.
  - apply list_elem_of_here.
Defined.

Lemma sales_count_sum_witness :
  exists sellerIndex,
    index_sellers sample_NumberToString ∅ shop_sellers = Ok sellerIndex
    /\ sum_list_with out_sales_count shop_result
       = length (List.filter (known_seller sample_NumberToString sellerIndex)
                   [sale_1; sale_2; sale_unknown; sale_3])
    /\ forall r, known_seller sample_NumberToString sellerIndex r = true
                 <-> exists s, s ∈ shop_sellers
                               /\ key_of sample_NumberToString (id s)
                                  = key_of sample_NumberToString (seller_id r).
Proof.
  exact (sales_count_sum sample_NumberToString sample_StringToNumber sample_FunctionToString
           (Some shop) (Some (default_options sample_StringToNumber))
           shop_sellers shop_products [sale_1; sale_2; sale_unknown; sale_3]
           (calculateSimpleRevenue sample_StringToNumber) calculateBonusByProfit
           shop_log shop_result shop_validated shop_evaluated).
Defined.

Lemma accumulators_follow_sellers_witness :
  exists w stats,
    accumulate sample_NumberToString sample_StringToNumber sample_FunctionToString
      (calculateSimpleRevenue sample_StringToNumber)
      shop_sellers shop_products [sale_1; sale_2; sale_unknown; sale_3]
    = (w, Ok stats)
    /\ map stat_id stats = map id shop_sellers
    /\ forall w' out,
         analyzeSalesData sample_NumberToString sample_StringToNumber
    sample_FunctionToString
           (Some shop) (Some (default_options sample_StringToNumber))
         = (w', Ok out) ->
         Permutation (map out_seller_id out) (map id shop_sellers)
         /\ (NoDup (map out_seller_id out) <-> NoDup (map id shop_sellers)).
Proof.
  exact (accumulators_follow_sellers sample_NumberToString sample_StringToNumber
      sample_FunctionToString
           (Some shop) (Some (default_options sample_StringToNumber))
           shop_sellers shop_products [sale_1; sale_2; sale_unknown; sale_3]
           (calculateSimpleRevenue sample_StringToNumber) calculateBonusByProfit
           shop_validated).
Defined.

Example shop_totals_numeric :
  totals_numeric sample_NumberToString shop_sellerIndex
    [sale_1; sale_2; sale_unknown; sale_3].
Proof.
  intros r Hr _. revert r Hr. apply Forall_forall. repeat constructor.
Qed.

Lemma returns_unless_total_is_text_witness :
  exists w stats,
    accumulate sample_NumberToString sample_StringToNumber sample_FunctionToString
      (calculateSimpleRevenue sample_StringToNumber)
      shop_sellers shop_products [sale_1; sale_2; sale_unknown; sale_3]
    = (w, Ok stats)
    /\ exists out,
         analyzeSalesData sample_NumberToString sample_StringToNumber
           sample_FunctionToString
           (Some shop) (Some (default_options sample_StringToNumber))
         = (w, Ok out)
         /\ length out = length shop_sellers
         /\ forall n st, rank stats !! n = Some st ->
              exists x, revenue st = PNum x
                        /\ out !! n
                           = Some (output_of sample_StringToNumber
                                     calculateBonusByProfit
                                     (length shop_sellers) n st x).
Proof.
  destruct (returns_unless_total_is_text sample_NumberToString sample_StringToNumber
              sample_FunctionToString
              (Some shop) (Some (default_options sample_StringToNumber))
              shop_sellers shop_products [sale_1; sale_2; sale_unknown; sale_3]
              (calculateSimpleRevenue sample_StringToNumber) calculateBonusByProfit
              shop_sellerIndex shop_validated shop_sellers_indexed)
    as (w & stats & Hacc & _ & Hret & _).
  exists w, stats. split; [exact Hacc |]. exact (Hret shop_totals_numeric).
Defined.






Lemma total_amount_never_checked_witness :
  validate
    (Some (with_records shop
             ([] ++ with_total sale_1 PUndefined :: [sale_2; sale_unknown; sale_3])))
    (Some (default_options sample_StringToNumber))
  = Ok (shop_sellers, shop_products,
        [] ++ with_total sale_1 PUndefined :: [sale_2; sale_unknown; sale_3],
        (calculateSimpleRevenue sample_StringToNumber, calculateBonusByProfit))
  /\ exists st' w,
       process_record sample_NumberToString sample_StringToNumber sample_FunctionToString
         (calculateSimpleRevenue sample_StringToNumber)
         shop_sellerIndex shop_productIndex
         (init_stats sample_NumberToString shop_sellers)
         (with_total sale_1 PUndefined)
       = (w, Ok (<[0 := st']> (init_stats sample_NumberToString shop_sellers)))
       /\ sales_count st' = 1
       /\ revenue st' = PNum NaN.
Proof.
  destruct (total_amount_never_checked sample_NumberToString sample_StringToNumber
      sample_FunctionToString
              shop (Some (default_options sample_StringToNumber))
              shop_sellers shop_products [] sale_1 [sale_2; sale_unknown; sale_3]
              (calculateSimpleRevenue sample_StringToNumber) calculateBonusByProfit
              shop_validated) as [Hv Hstep].
  split; [exact Hv |].
  destruct (Hstep shop_sellerIndex shop_productIndex
              (init_stats sample_NumberToString shop_sellers) 0
              (init_stat sample_NumberToString (seller_of "s1" "Ann" "Lee"))
              eq_refl eq_refl) as (st' & w & Hp & Hc & _ & Hnan).
  exists st', w. split; [exact Hp |]. split; [exact Hc |].
  exact (Hnan (Fin 0) eq_refl).
Defined.

Example shop_third_seller_unmatched :
  forall r, r ∈ [sale_1; sale_2; sale_unknown; sale_3] ->
    credited_to sample_NumberToString shop_sellerIndex
      (init_stats sample_NumberToString shop_sellers) r = Some 2 ->
    no_item_matched sample_NumberToString shop_productIndex r.
Proof.
  intros r Hr. repeat (apply elem_of_cons in Hr as [-> | Hr]; [discriminate |]).
  inversion Hr.
Qed.

Example shop_third_seller_idle :
  forall r, r ∈ [sale_1; sale_2; sale_unknown; sale_3] ->
    credited_to sample_NumberToString shop_sellerIndex
      (init_stats sample_NumberToString shop_sellers) r <> Some 2.
Proof.
  intros r Hr. repeat (apply elem_of_cons in Hr as [-> | Hr]; [discriminate |]).
  inversion Hr.
Qed.

Lemma unmatched_seller_output_witness :
  exists stats st i o,
    accumulate sample_NumberToString sample_StringToNumber sample_FunctionToString
      (calculateSimpleRevenue sample_StringToNumber)
      shop_sellers shop_products [sale_1; sale_2; sale_unknown; sale_3]
    = (shop_log, Ok stats)
    /\ stats !! 2 = Some st /\ rank stats !! i = Some st
    /\ shop_result !! i = Some o
    /\ out_seller_id o = PStr "s3"
    /\ out_profit o = Fin 0
    /\ out_top_products o = Some []
    /\ out_bonus o = toFixed2 (calculateBonusByProfit (Z.of_nat i) 3 st)
    /\ out_revenue o = Fin 0 /\ out_sales_count o = 0.
Proof.
  destruct (unmatched_seller_output sample_NumberToString sample_StringToNumber
              sample_FunctionToString
              (Some shop) (Some (default_options sample_StringToNumber))
              shop_sellers shop_products [sale_1; sale_2; sale_unknown; sale_3]
              (calculateSimpleRevenue sample_StringToNumber) calculateBonusByProfit
              shop_log shop_result shop_sellerIndex shop_productIndex
              2 (seller_of "s3" "Cid" "Fox")
              shop_validated shop_sellers_indexed shop_products_indexed
              shop_evaluated eq_refl shop_third_seller_unmatched)
    as (stats & st & i & o & H1 & H2 & H3 & H4 & _ & _ & _ & H5 & H6 & H7 & H8
        & _ & _ & H9).
  exists stats, st, i, o. repeat (split; [assumption |]).
  exact (H9 shop_third_seller_idle).
Defined.

Example shop_accumulated :
  accumulate sample_NumberToString sample_StringToNumber sample_FunctionToString
    (calculateSimpleRevenue sample_StringToNumber)
    shop_sellers shop_products [sale_1; sale_2; sale_unknown; sale_3]
  = (shop_log, Ok shop_stats).
Proof. vm_compute. reflexivity. Qed.

Example shop_profits_keyed : Forall (keyed profit) shop_stats.
Proof. repeat constructor. Qed.

Lemma ranking_descending_stable_witness :
  map out_seller_id shop_result = [PStr "s2"; PStr "s1"; PStr "s3"]
  /\ map stat_id shop_stats = map id shop_sellers
  /\ Permutation (rank shop_stats) shop_stats
  /\ Forall2 (fun st o => out_seller_id o = stat_id st /\ out_name o = name st
                          /\ out_profit o = toFixed2 (profit st)
                          /\ out_sales_count o = sales_count st)
             (rank shop_stats) shop_result
  /\ StronglySorted (at_least profit) (rank shop_stats)
  /\ forall p, List.filter (same_key profit p) (rank shop_stats)
               = List.filter (same_key profit p) shop_stats.
Proof.
  split; [reflexivity |].
  exact (ranking_descending_stable sample_NumberToString sample_StringToNumber
      sample_FunctionToString
           (Some shop) (Some (default_options sample_StringToNumber))
           shop_sellers shop_products [sale_1; sale_2; sale_unknown; sale_3]
           (calculateSimpleRevenue sample_StringToNumber) calculateBonusByProfit
           shop_log shop_stats shop_result
           shop_validated shop_accumulated shop_evaluated shop_profits_keyed).
Defined.

(** ** Inputs on which the properties fail as the specification words them *)

(** C1.  A sale whose [total_amount] is the text "200" passes validation;
    the revenue of the seller becomes the text "0200", which has no
    [toFixed], and the formatting of the result throws. *)
Lemma never_throws_refuted :
  ~ (exists NumberToString StringToNumber FunctionToString,
       spec_never_throws NumberToString StringToNumber FunctionToString).
Proof.
  intros (n2s & s2n & f2s & H).
  destruct (H (Some data_text_total) (Some (default_options s2n))) as (w & out & E).
  - eexists. reflexivity.
  - vm_compute in E. discriminate.
Qed.

(** C2.  The second of two sellers is the last one, and is paid 10% of a
    profit of 100. *)
Lemma last_rank_zero_refuted : ~ spec_last_rank_zero.
Proof.
  intros H. specialize (H 1%Z 2%Z profile_100 eq_refl eq_refl).
  vm_compute in H. discriminate.
Qed.

(** C3.  The text "n/a" is a truthy purchase price, so the dataset passes
    validation; the cost and the profit of the first seller are [NaN], the
    comparator returns [NaN], which counts as 0, in both directions, and
    the stable sort leaves the seller first, before a seller with a profit
    of 5: [NaN >= 5] is false. *)
Lemma ranking_descending_refuted :
  ~ (exists NumberToString StringToNumber FunctionToString,
       StringToNumber "n/a" = NaN
       /\ spec_ranking_descending NumberToString StringToNumber FunctionToString).
Proof.
  intros (n2s & s2n & f2s & Hnan & H).
  assert (accumulate n2s s2n f2s (calculateSimpleRevenue s2n)
            [seller_of "s1" "Ann" "Lee"; seller_of "s2" "Bob" "Ray"]
            [{| sku := PStr "px"; purchase_price := PStr "n/a";
                sale_price := PNum (Fin 2) |};
             product_of "p1" 1 2]
            [record_of "s1" (PNum (Fin 2)) [item_of "px" 1 2];
             record_of "s2" (PNum (Fin 10)) [item_of "p1" 5 2]]
          = ([], Ok stats_nan_profit)) as Hacc.
  { vm_compute. rewrite Hnan. reflexivity. }
  specialize (H (Some data_nan_profit) (Some (default_options s2n))
                _ _ _ _ _ _ _ eq_refl Hacc).
  vm_compute in H. inversion H as [| x l _ Hx]; subst.
  inversion Hx as [| y l' Hxy _]; subst. discriminate Hxy.
Qed.

(** C4.  The only item of the sale has no [quantity]: the call throws the
    error of line 90 and returns nothing. *)
Lemma malformed_item_skipped_refuted :
  ~ (exists NumberToString StringToNumber FunctionToString,
       spec_malformed_item_skipped NumberToString StringToNumber FunctionToString).
Proof.
  intros (n2s & s2n & f2s & H).
  destruct (H data_item_without_quantity (default_options s2n)
              [seller_of "s1" "Ann" "Lee"] [product_of "p1" 50 100]
              [record_of "s1" (PNum (Fin 200)) [item_without_quantity]]
              (record_of "s1" (PNum (Fin 200)) [item_without_quantity])
              [item_without_quantity] item_without_quantity)
    as (w & out & E & _).
  - repeat split; reflexivity.
  - reflexivity.
  - apply list_elem_of_here.
  - reflexivity.
  - apply list_elem_of_here.
  - right; left; reflexivity.
  - vm_compute in E. discriminate.
Qed.

(** C5.  The only item of the only sale names a product that the catalogue
    does not have: the record of the seller has profit 0 and no top
    products, and a revenue of 100, the [total_amount] of the sale. *)
Lemma unmatched_seller_zero_refuted :
  ~ (exists NumberToString StringToNumber FunctionToString,
       spec_unmatched_seller_zero NumberToString StringToNumber FunctionToString).
Proof.
  intros (n2s & s2n & f2s & H).
  destruct (H (Some data_unknown_sku) (Some (default_options s2n))
              [seller_of "s1" "Ann" "Lee"] [product_of "p1" 50 100]
              [record_of "s1" (PNum (Fin 100)) [item_of "zz" 1 100]]
              (calculateSimpleRevenue s2n) calculateBonusByProfit
              [WarnProductNotFound (PStr "zz")]
              [{| out_seller_id := PStr "s1"; out_name := "Ann Lee";
                  out_revenue := Fin 100; out_profit := Fin 0;
                  out_sales_count := 1; out_top_products := Some [];
                  out_bonus := Fin 0 |}]
              (<["s1" := seller_of "s1" "Ann" "Lee"]> ∅)
              (<["p1" := product_of "p1" 50 100]> ∅)
              0 (seller_of "s1" "Ann" "Lee"))
    as (stats & st & i & o & _ & _ & _ & Ho & _ & _ & Hrev & _).
  - reflexivity.
  - vm_compute. reflexivity.
  - vm_compute. reflexivity.
  - vm_compute. reflexivity.
  - reflexivity.
  - intros r Hr _ l i Hl Hi.
    apply list_elem_of_singleton in Hr. subst r. injection Hl as <-.
    apply list_elem_of_singleton in Hi. subst i. vm_compute. reflexivity.
  - destruct i as [| i]; [| discriminate Ho].
    injection Ho as <-. discriminate Hrev.
Qed.



(** C9.  Two sellers are entered under the id "s1": the result has two
    records with that id. *)
Lemma ids_distinct_refuted :
  ~ (exists NumberToString StringToNumber FunctionToString,
       spec_ids_distinct NumberToString StringToNumber FunctionToString).
Proof.
  intros (n2s & s2n & f2s & H).
  assert (NoDup [PStr "s1"; PStr "s1"]) as Hnd.
  { apply (H (Some data_duplicate_id) (Some (default_options s2n)) []
             [{| out_seller_id := PStr "s1"; out_name := "Ann Lee";
                 out_revenue := Fin 200; out_profit := Fin 100;
                 out_sales_count := 1;
                 out_top_products :=
                   Some [{| tp_sku := "p1"; tp_quantity := PNum (Fin 2) |}];
                 out_bonus := Fin 15 |};
               {| out_seller_id := PStr "s1"; out_name := "Bob Ray";
                  out_revenue := Fin 0; out_profit := Fin 0;
                  out_sales_count := 0; out_top_products := Some [];
                  out_bonus := Fin 0 |}]).
    - eexists. reflexivity.
    - vm_compute. reflexivity. }
  apply NoDup_cons in Hnd as [Hin _]. apply Hin, list_elem_of_here.
Qed.

(** ** Instances of the further theorems *)

Example sample_top_products :
  top_products_of sample_StringToNumber sample_sold
  = [{| tp_sku := "p05"; tp_quantity := PNum (Fin 12) |};
     {| tp_sku := "p12"; tp_quantity := PNum (Fin 11) |};
     {| tp_sku := "p02"; tp_quantity := PNum (Fin 9) |};
     {| tp_sku := "p08"; tp_quantity := PNum (Fin 8) |};
     {| tp_sku := "2"; tp_quantity := PNum (Fin 7) |};
     {| tp_sku := "10"; tp_quantity := PNum (Fin 7) |};
     {| tp_sku := "p10"; tp_quantity := PNum (Fin 6) |};
     {| tp_sku := "p11"; tp_quantity := PNum (Fin 5) |};
     {| tp_sku := "p01"; tp_quantity := PNum (Fin 4) |};
     {| tp_sku := "p07"; tp_quantity := PNum (Fin 3) |}].
Proof. vm_compute. reflexivity. Qed.

Lemma calculateBonusByProfit_bounds_witness :
  exists bi bj,
    calculateBonusByProfit 1 5 profile_100 = Fin bi
    /\ calculateBonusByProfit 3 5 profile_100 = Fin bj
    /\ (0 <= bj)%Q /\ (bj <= bi)%Q /\ (bi <= 100 * (15 # 100))%Q.
Proof.
  refine (calculateBonusByProfit_bounds 1 3 5 profile_100 100 eq_refl _ _).
  - discriminate.
  - lia.
Defined.



Lemma log_is_determined_witness :
  shop_log
  = flat_map (record_warnings sample_NumberToString shop_sellerIndex shop_productIndex)
             [sale_1; sale_2; sale_unknown; sale_3]
  /\ (forall r, WarnRecordIncomplete r ∉ shop_log)
  /\ (forall i, WarnItemIncomplete i ∉ shop_log).
Proof.
  exact (log_is_determined sample_NumberToString sample_StringToNumber
      sample_FunctionToString
           (Some shop) (Some (default_options sample_StringToNumber))
           shop_sellers shop_products [sale_1; sale_2; sale_unknown; sale_3]
           (calculateSimpleRevenue sample_StringToNumber) calculateBonusByProfit
           shop_sellerIndex shop_productIndex shop_log (Ok shop_result)
           shop_validated shop_sellers_indexed shop_products_indexed shop_evaluated).
Defined.

Lemma seller_record_witness :
  exists i o x,
    shop_result !! i = Some o
    /\ out_seller_id o = PStr "s1"
    /\ out_name o = "Ann Lee"
    /\ out_sales_count o
       = length (credited_records sample_NumberToString shop_sellerIndex
                   (init_stats sample_NumberToString shop_sellers) 0
                   [sale_1; sale_2; sale_unknown; sale_3])
    /\ fold_left (js_add sample_NumberToString sample_StringToNumber)
         (map total_amount
            (credited_records sample_NumberToString shop_sellerIndex
               (init_stats sample_NumberToString shop_sellers) 0
               [sale_1; sale_2; sale_unknown; sale_3]))
         (PNum (Fin 0)) = PNum x
    /\ out_revenue o = toFixed2 x
    /\ out_profit o
       = toFixed2
           (fold_left num_add
              (flat_map
                 (record_lines sample_NumberToString sample_StringToNumber
                    (calculateSimpleRevenue sample_StringToNumber) shop_productIndex)
                 (credited_records sample_NumberToString shop_sellerIndex
                    (init_stats sample_NumberToString shop_sellers) 0
                    [sale_1; sale_2; sale_unknown; sale_3]))
              (Fin 0)).
Proof.
  exact (seller_record sample_NumberToString sample_StringToNumber sample_FunctionToString
           (Some shop) (Some (default_options sample_StringToNumber))
           shop_sellers shop_products [sale_1; sale_2; sale_unknown; sale_3]
           (calculateSimpleRevenue sample_StringToNumber) calculateBonusByProfit
           shop_log shop_result shop_sellerIndex shop_productIndex
           0 (seller_of "s1" "Ann" "Lee")
           shop_validated shop_sellers_indexed shop_products_indexed
           shop_evaluated eq_refl).
Defined.

Example sample_sold_keys : NoDup (map fst sample_sold).
Proof.
  apply (bool_decide_unpack (NoDup (map fst sample_sold))). vm_compute. exact I.
Qed.

Lemma top_products_of_entries_witness :
  length (top_products_of sample_StringToNumber sample_sold) <= 10
  /\ length (top_products_of sample_StringToNumber sample_sold)
     = Nat.min 10 (length sample_sold)
  /\ NoDup (map tp_sku (top_products_of sample_StringToNumber sample_sold))
  /\ forall t, t ∈ top_products_of sample_StringToNumber sample_sold ->
               (tp_sku t, tp_quantity t) ∈ sample_sold.
Proof.
  exact (top_products_of_entries sample_StringToNumber sample_sold sample_sold_keys).
Defined.

Example sample_sold_numbers :
  Forall (fun e => is_nan (to_number sample_StringToNumber (snd e)) = false)
         sample_sold.
Proof. repeat constructor. Qed.

Lemma top_products_of_best_witness :
  StronglySorted (at_least (sold_quantity sample_StringToNumber))
    (top_products_of sample_StringToNumber sample_sold)
  /\ forall t e, t ∈ top_products_of sample_StringToNumber sample_sold ->
       e ∈ sample_sold ->
       top_entry e ∉ top_products_of sample_StringToNumber sample_sold ->
       at_least (sold_quantity sample_StringToNumber) t (top_entry e).
Proof.
  exact (top_products_of_best sample_StringToNumber sample_sold sample_sold_numbers).
Defined.

Example shop_first_record :
  {| out_seller_id := PStr "s2"; out_name := "Bob Ray";
     out_revenue := Fin 300; out_profit := Fin 200; out_sales_count := 1;
     out_top_products := Some [{| tp_sku := "p2"; tp_quantity := PNum (Fin 10) |}];
     out_bonus := Fin 30 |} ∈ shop_result.
Proof. apply list_elem_of_here. Qed.

Lemma result_top_products_witness :
  exists l,
    Some [{| tp_sku := "p2"; tp_quantity := PNum (Fin 10) |}] = Some l
    /\ length l <= 10
    /\ NoDup (map tp_sku l)
    /\ forall t, t ∈ l ->
         sold_from sample_NumberToString [sale_1; sale_2; sale_unknown; sale_3]
           (tp_sku t)
         /\ found_truthy
              (index_get product_property shop_productIndex (tp_sku t)) = true.
Proof.
  exact (result_top_products sample_NumberToString sample_StringToNumber
           sample_FunctionToString
           (Some shop) (Some (default_options sample_StringToNumber))
           shop_sellers shop_products [sale_1; sale_2; sale_unknown; sale_3]
           (calculateSimpleRevenue sample_StringToNumber) calculateBonusByProfit
           shop_log shop_result shop_productIndex _
           shop_validated shop_products_indexed shop_evaluated shop_first_record).
Defined.

Example duplicate_id_validated :
  validate (Some data_duplicate_id) (Some (default_options sample_StringToNumber))
  = Ok ([seller_of "s1" "Ann" "Lee"; seller_of "s1" "Bob" "Ray"],
        [product_of "p1" 50 100],
        [record_of "s1" (PNum (Fin 200)) [item_of "p1" 2 100]],
        (calculateSimpleRevenue sample_StringToNumber, calculateBonusByProfit)).
Proof. reflexivity. Qed.

Example duplicate_id_evaluated :
  analyzeSalesData sample_NumberToString sample_StringToNumber sample_FunctionToString
    (Some data_duplicate_id) (Some (default_options sample_StringToNumber))
  = ([], Ok duplicate_id_result).
Proof. vm_compute. reflexivity. Qed.

Lemma indexes_keep_last_entry_witness :
  index_sellers sample_NumberToString ∅
    [seller_of "s1" "Ann" "Lee"; seller_of "s1" "Bob" "Ray"]
  = Ok (<["s1" := seller_of "s1" "Bob" "Ray"]> ∅)
  /\ index_get seller_property
       (<["s1" := seller_of "s1" "Bob" "Ray"]> (∅ : gmap string Seller))
       (key_of sample_NumberToString (id (seller_of "s1" "Bob" "Ray")))
     = Entry (seller_of "s1" "Bob" "Ray")
  /\ index_get seller_property
       (<["s1" := seller_of "s1" "Bob" "Ray"]> (∅ : gmap string Seller))
       "toString"
     = Inherited "toString".
Proof.
  assert (index_sellers sample_NumberToString ∅
            [seller_of "s1" "Ann" "Lee"; seller_of "s1" "Bob" "Ray"]
          = Ok (<["s1" := seller_of "s1" "Bob" "Ray"]> ∅)) as H
    by (vm_compute; reflexivity).
  split; [exact H |]. split.
  - refine (proj1 (proj1 (indexes_keep_last_entry sample_NumberToString) _ _ H)
              [seller_of "s1" "Ann" "Lee"] (seller_of "s1" "Bob" "Ray") [] eq_refl _).
    intros s' Hs'. inversion Hs'.
  - refine (proj2 (proj2 (proj2 (proj1 (indexes_keep_last_entry sample_NumberToString)
                                   _ _ H) "toString" _)) _).
    + intros s Hs. revert s Hs. apply Forall_forall. repeat constructor; discriminate.
    + intros s Hs. revert s Hs. apply Forall_forall. repeat constructor; discriminate.
Defined.

Lemma duplicate_id_shadowed_witness :
  exists stats n o,
    accumulate sample_NumberToString sample_StringToNumber sample_FunctionToString
      (calculateSimpleRevenue sample_StringToNumber)
      [seller_of "s1" "Ann" "Lee"; seller_of "s1" "Bob" "Ray"]
      [product_of "p1" 50 100]
      [record_of "s1" (PNum (Fin 200)) [item_of "p1" 2 100]]
    = ([], Ok stats)
    /\ stats !! 1 = Some (init_stat sample_NumberToString (seller_of "s1" "Bob" "Ray"))
    /\ rank stats !! n
       = Some (init_stat sample_NumberToString (seller_of "s1" "Bob" "Ray"))
    /\ duplicate_id_result !! n = Some o
    /\ out_seller_id o = PStr "s1"
    /\ out_sales_count o = 0
    /\ out_revenue o = Fin 0
    /\ out_profit o = Fin 0
    /\ out_top_products o = Some [].
Proof.
  exact (duplicate_id_shadowed sample_NumberToString sample_StringToNumber
      sample_FunctionToString
           (Some data_duplicate_id) (Some (default_options sample_StringToNumber))
           _ _ _ _ _ [] duplicate_id_result 0 1
           (seller_of "s1" "Ann" "Lee") (seller_of "s1" "Bob" "Ray")
           duplicate_id_validated duplicate_id_evaluated eq_refl eq_refl
           (le_n 1) eq_refl).
Defined.

Lemma count_product_adds_witness :
  (exists v',
     dict_get "p1"
       (count_product sample_NumberToString sample_StringToNumber
          sample_FunctionToString
          [("p1", PNum (Fin 3)); ("p2", PNum (Fin 1))] (item_of "p1" 2 100))
     = Some (PNum (Fin v'))
     /\ (v' == 3 + 2)%Q)
  /\ dict_get "valueOf"
       (count_product sample_NumberToString sample_StringToNumber
          sample_FunctionToString
          [("p1", PNum (Fin 3)); ("p2", PNum (Fin 1))] (item_of "valueOf" 2 100))
     = Some (PStr "function valueOf() { [native code] }2").
Proof.
  split.
  - exact (proj1 (proj2 (count_product_adds sample_NumberToString
                           sample_StringToNumber sample_FunctionToString
                           [("p1", PNum (Fin 3)); ("p2", PNum (Fin 1))]
                           (item_of "p1" 2 100) 2 eq_refl)) 3%Q eq_refl).
  - exact (proj1 (proj2 (proj2 (proj2 (count_product_adds sample_NumberToString
                           sample_StringToNumber sample_FunctionToString
                           [("p1", PNum (Fin 3)); ("p2", PNum (Fin 1))]
                           (item_of "valueOf" 2 100) 2 eq_refl))))
             eq_refl eq_refl ltac:(discriminate)).
Defined.

Lemma bonus_by_rank_witness :
  length shop_result = length shop_sellers
  /\ exists stats,
       accumulate sample_NumberToString sample_StringToNumber sample_FunctionToString
         (calculateSimpleRevenue sample_StringToNumber)
         shop_sellers shop_products [sale_1; sale_2; sale_unknown; sale_3]
       = (shop_log, Ok stats)
       /\ forall n o, shop_result !! n = Some o ->
            exists st,
              rank stats !! n = Some st
              /\ bonus st = Fin 0 /\ top_products st = None
              /\ out_seller_id o = stat_id st
              /\ out_bonus o
                 = toFixed2 (calculateBonusByProfit (Z.of_nat n)
                               (Z.of_nat (length shop_sellers)) st)
              /\ out_top_products o
                 = Some (top_products_of sample_StringToNumber (products_sold st)).
Proof.
  exact (bonus_by_rank sample_NumberToString sample_StringToNumber sample_FunctionToString
           (Some shop) (Some (default_options sample_StringToNumber))
           shop_sellers shop_products [sale_1; sale_2; sale_unknown; sale_3]
           (calculateSimpleRevenue sample_StringToNumber) calculateBonusByProfit
           shop_log shop_result shop_validated shop_evaluated).
Defined.

Lemma inherited_sku_is_processed_witness :
  exists st',
    process_item sample_NumberToString sample_StringToNumber sample_FunctionToString
      (calculateSimpleRevenue sample_StringToNumber) shop_productIndex
      profile_100 (item_of "constructor" 1 100)
    = (st', [])
    /\ profit st' = NaN.
Proof.
  destruct (inherited_sku_is_processed sample_NumberToString sample_StringToNumber
              sample_FunctionToString
              (calculateSimpleRevenue sample_StringToNumber) shop_productIndex
              profile_100 (item_of "constructor" 1 100) eq_refl eq_refl eq_refl)
    as (st' & H1 & _ & _ & H2 & _).
  exists st'. split; [exact H1 | exact H2].
Defined.
